(** * likec4-llm: the firewall-rule pipeline

    A shallow embedding of [generate_table.py] (the static path) and
    [mcp_client.py] (the live path), and the properties of the
    specification that are settled on it; then of the two scripts that
    write models, [generate_models.py] and [edit_c4_model.py].

    Python values are the values [json.load] builds: [None], booleans,
    integers, strings, lists and string-keyed dictionaries.  A [str] is a
    [string] whose characters are the code points below 256; JSON reals
    are not part of the model.  A dictionary is an association list in
    insertion order, with pairwise distinct keys.  Texts that are
    printed or written to a file are texts the encoding in use accepts:
    output fails where a file is opened, not where it is written. *)

From Stdlib Require Import String Ascii List ZArith NArith Bool Lia.
From Stdlib Require Import DecimalString DecimalZ.
From Stdlib Require DecimalFacts DecimalPos.
Import ListNotations.

Open Scope string_scope.
Open Scope Z_scope.

Local Set Warnings "-register-all".

(** ** Python values *)

Inductive json : Type :=
| JNull
| JBool (b : bool)
| JInt (z : Z)
| JStr (s : string)
| JArr (l : list json)
| JObj (m : list (string * json)).

Definition dict := list (string * json).

(** [type(v).__name__] *)
Definition type_name (v : json) : string :=
  match v with
  | JNull => "NoneType"
  | JBool _ => "bool"
  | JInt _ => "int"
  | JStr _ => "str"
  | JArr _ => "list"
  | JObj _ => "dict"
  end.

(** [bool(v)]: what [if v] and [not v] test. *)
Definition truthy (v : json) : bool :=
  match v with
  | JNull => false
  | JBool b => b
  | JInt z => negb (z =? 0)
  | JStr s => negb (s =? "")%string
  | JArr l => match l with [] => false | _ => true end
  | JObj m => match m with [] => false | _ => true end
  end.

Definition hashable (v : json) : bool :=
  match v with
  | JArr _ | JObj _ => false
  | _ => true
  end.

(** [a == b] on hashable values: [True == 1] and [False == 0]; a string
    equals only the same string. *)
Definition key_eqb (a b : json) : bool :=
  match a, b with
  | JNull, JNull => true
  | JBool x, JBool y => Bool.eqb x y
  | JInt x, JInt y => x =? y
  | JBool x, JInt y | JInt y, JBool x => y =? (if x then 1 else 0)
  | JStr x, JStr y => (x =? y)%string
  | _, _ => false
  end.

(** *** Dictionaries *)

Fixpoint dict_get (k : string) (m : dict) : option json :=
  match m with
  | [] => None
  | (k', v) :: m' => if (k =? k')%string then Some v else dict_get k m'
  end.

Definition dict_keys (m : dict) : list string := map fst m.

(** [m[k] = v]: an existing key keeps its place. *)
Fixpoint dict_set (k : string) (v : json) (m : dict) : dict :=
  match m with
  | [] => [(k, v)]
  | (k', v') :: m' =>
      if (k =? k')%string then (k', v) :: m' else (k', v') :: dict_set k v m'
  end.

(** *** Sets of hashable values *)

Definition pyset := list json.

Definition set_mem (x : json) (s : pyset) : bool := existsb (key_eqb x) s.

Definition set_add (x : json) (s : pyset) : pyset :=
  if set_mem x s then s else (s ++ [x])%list.

(** ** Exceptions *)

(** An exception: an instance of a class that derives from [Exception],
    with the name of the class and the text [str(e)].  The interrupts of
    the interpreter ([KeyboardInterrupt], [SystemExit]) are no failure of
    a stage and are not part of the model. *)
Record exn : Type := mk_exn { exn_class : string; exn_msg : string }.

Inductive result (A : Type) : Type :=
| Ok (a : A)
| Raise (e : exn).
Arguments Ok {A} a.
Arguments Raise {A} e.

Definition bind {A B} (r : result A) (f : A -> result B) : result B :=
  match r with
  | Ok a => f a
  | Raise e => Raise e
  end.

Notation "x <- r ;; k" := (bind r (fun x => k))
  (at level 61, r at next level, right associativity).

Definition AttributeError (v : json) (attr : string) : exn :=
  mk_exn "AttributeError"
    ("'" ++ type_name v ++ "' object has no attribute '" ++ attr ++ "'").

Definition Unhashable (v : json) : exn :=
  mk_exn "TypeError" ("unhashable type: '" ++ type_name v ++ "'").

Definition NotIterable (v : json) : exn :=
  mk_exn "TypeError" ("'" ++ type_name v ++ "' object is not iterable").

(** [v.get(k, default)] *)
Definition py_get (v : json) (k : string) (default : json) : result json :=
  match v with
  | JObj m => Ok (match dict_get k m with Some x => x | None => default end)
  | _ => Raise (AttributeError v "get")
  end.

(** [v.items()] *)
Definition py_items (v : json) : result (list (string * json)) :=
  match v with
  | JObj m => Ok m
  | _ => Raise (AttributeError v "items")
  end.

(** [s.add(x)] *)
Definition py_set_add (x : json) (s : pyset) : result pyset :=
  if hashable x then Ok (set_add x s) else Raise (Unhashable x).

(** [for x in v]: the items a loop over [v] visits. *)
Definition py_iter (v : json) : result (list json) :=
  match v with
  | JArr l => Ok l
  | JObj m => Ok (map (fun kv => JStr (fst kv)) m)
  | JStr s =>
      Ok (map (fun c => JStr (String c EmptyString)) (list_ascii_of_string s))
  | _ => Raise (NotIterable v)
  end.

(** ** Text *)

Definition nl : string := String "010"%char EmptyString.
Definition dquote : ascii := "034"%char.
Definition squote : ascii := "039"%char.
Definition backslash : ascii := "092"%char.

(** [str(z)] for an integer. *)
Definition string_of_Z (z : Z) : string :=
  DecimalString.NilZero.string_of_int (Z.to_int z).

Definition hex_digit (n : N) : ascii :=
  match n with
  | 0%N => "0" | 1%N => "1" | 2%N => "2" | 3%N => "3" | 4%N => "4"
  | 5%N => "5" | 6%N => "6" | 7%N => "7" | 8%N => "8" | 9%N => "9"
  | 10%N => "a" | 11%N => "b" | 12%N => "c" | 13%N => "d" | 14%N => "e"
  | _ => "f"
  end%char.

(** The two lower-case hexadecimal digits of a character's code point. *)
Definition hex2 (c : ascii) : string :=
  let n := N_of_ascii c in
  String (hex_digit (n / 16)) (String (hex_digit (n mod 16)) EmptyString).

Fixpoint contains_char (c : ascii) (s : string) : bool :=
  match s with
  | EmptyString => false
  | String d s' => Ascii.eqb c d || contains_char c s'
  end.

(** [c.isprintable()] below 256. *)
Definition isprintable (c : ascii) : bool :=
  let n := N_of_ascii c in
  ((32 <=? n) && (n <=? 126) || (161 <=? n) && negb (n =? 173))%N.

(** [c.isspace()] below 256. *)
Definition isspace (c : ascii) : bool :=
  let n := N_of_ascii c in
  ((9 <=? n) && (n <=? 13) || (28 <=? n) && (n <=? 32)
   || (n =? 133) || (n =? 160))%N.

Fixpoint lstrip (s : string) : string :=
  match s with
  | EmptyString => EmptyString
  | String c s' => if isspace c then lstrip s' else s
  end.

Definition string_rev (s : string) : string :=
  string_of_list_ascii (rev (list_ascii_of_string s)).

(** [s.strip()] *)
Definition strip (s : string) : string :=
  string_rev (lstrip (string_rev (lstrip s))).

(** [repr(s)] for a string: single quotes unless the string has a single
    quote and no double quote. *)
Definition repr_char (quote c : ascii) : string :=
  if Ascii.eqb c quote || Ascii.eqb c backslash then
    String backslash (String c EmptyString)
  else if Ascii.eqb c "009" then "\t"
  else if Ascii.eqb c "010" then "\n"
  else if Ascii.eqb c "013" then "\r"
  else if isprintable c then String c EmptyString
  else "\x" ++ hex2 c.

Fixpoint repr_chars (quote : ascii) (s : string) : string :=
  match s with
  | EmptyString => EmptyString
  | String c s' => repr_char quote c ++ repr_chars quote s'
  end.

Definition repr_str (s : string) : string :=
  let quote :=
    if contains_char squote s && negb (contains_char dquote s)
    then dquote else squote in
  String quote (repr_chars quote s ++ String quote EmptyString).

(** [repr(v)] *)
Fixpoint py_repr (v : json) : string :=
  match v with
  | JNull => "None"
  | JBool true => "True"
  | JBool false => "False"
  | JInt z => string_of_Z z
  | JStr s => repr_str s
  | JArr l => "[" ++ String.concat ", " (map py_repr l) ++ "]"
  | JObj m =>
      "{" ++ String.concat ", "
               (map (fun kv => let '(k, x) := kv in
                               repr_str k ++ ": " ++ py_repr x) m) ++ "}"
  end.

(** [str(v)], which is what an f-string field [{v}] inserts. *)
Definition py_str (v : json) : string :=
  match v with
  | JStr s => s
  | _ => py_repr v
  end.

(** [f"| {a} | {b} | {c} | {d} |"], the line of a table both paths
    write, on the texts of its fields. *)
Definition format_row (cells : list string) : string :=
  "| " ++ String.concat " | " cells ++ " |".

(** ** json.dumps(v, indent=2) *)

(** One character inside a JSON string, with [ensure_ascii] on. *)
Definition escape_char (c : ascii) : string :=
  let n := N_of_ascii c in
  if Ascii.eqb c dquote then String backslash (String dquote EmptyString)
  else if Ascii.eqb c backslash then
    String backslash (String backslash EmptyString)
  else if (n =? 8)%N then "\b"
  else if (n =? 12)%N then "\f"
  else if (n =? 10)%N then "\n"
  else if (n =? 13)%N then "\r"
  else if (n =? 9)%N then "\t"
  else if ((32 <=? n) && (n <=? 126))%N then String c EmptyString
  else "\u00" ++ hex2 c.

Fixpoint escape_chars (s : string) : string :=
  match s with
  | EmptyString => EmptyString
  | String c s' => escape_char c ++ escape_chars s'
  end.

Definition encode_string (s : string) : string :=
  String dquote (escape_chars s ++ String dquote EmptyString).

Fixpoint spaces (n : nat) : string :=
  match n with
  | O => EmptyString
  | S n' => String " " (spaces n')
  end.

(** A line break followed by the indentation of nesting depth [level]. *)
Definition newline_indent (level : nat) : string :=
  nl ++ spaces (2 * level).

(** The items of a container, each preceded by its separator: the first
    by [first], the others by a comma and the line break. *)
Fixpoint dumps_items (level : nat) (first : bool) (items : list string)
  : string :=
  match items with
  | [] => EmptyString
  | x :: rest =>
      (if first then EmptyString else ",") ++ newline_indent level ++ x
      ++ dumps_items level false rest
  end.

Fixpoint dumps_at (level : nat) (v : json) : string :=
  match v with
  | JNull => "null"
  | JBool true => "true"
  | JBool false => "false"
  | JInt z => string_of_Z z
  | JStr s => encode_string s
  | JArr [] => "[]"
  | JArr l =>
      "[" ++ dumps_items (S level) true (map (dumps_at (S level)) l)
      ++ newline_indent level ++ "]"
  | JObj [] => "{}"
  | JObj m =>
      "{" ++ dumps_items (S level) true
               (map (fun kv => let '(k, x) := kv in
                               encode_string k ++ ": " ++ dumps_at (S level) x)
                  m)
      ++ newline_indent level ++ "}"
  end.

Definition json_dumps (v : json) : string := dumps_at 0 v.

(** ** Reading a JSON document *)

Module JsonText.

Definition is_ws (c : ascii) : bool :=
  Ascii.eqb c " " || Ascii.eqb c "009" || Ascii.eqb c "010"
  || Ascii.eqb c "013".

Fixpoint skip_ws (s : string) : string :=
  match s with
  | EmptyString => EmptyString
  | String c r => if is_ws c then skip_ws r else s
  end.

Definition is_digit (c : ascii) : bool :=
  let n := N_of_ascii c in ((48 <=? n) && (n <=? 57))%N.

(** The digit a character stands for, as a constructor of [uint]. *)
Definition digit_of (c : ascii) : option (Decimal.uint -> Decimal.uint) :=
  match N_of_ascii c with
  | 48%N => Some Decimal.D0 | 49%N => Some Decimal.D1
  | 50%N => Some Decimal.D2 | 51%N => Some Decimal.D3
  | 52%N => Some Decimal.D4 | 53%N => Some Decimal.D5
  | 54%N => Some Decimal.D6 | 55%N => Some Decimal.D7
  | 56%N => Some Decimal.D8 | 57%N => Some Decimal.D9
  | _ => None
  end.

(** The longest run of digits at the head of [s], and what follows. *)
Fixpoint read_uint (s : string) : Decimal.uint * string :=
  match s with
  | EmptyString => (Decimal.Nil, EmptyString)
  | String c r =>
      match digit_of c with
      | Some d => let '(u, rest) := read_uint r in (d u, rest)
      | None => (Decimal.Nil, s)
      end
  end.

(** A fraction or an exponent follows: the literal is a real number. *)
Definition real_follows (s : string) : bool :=
  match s with
  | String c _ => Ascii.eqb c "." || Ascii.eqb c "e" || Ascii.eqb c "E"
  | EmptyString => false
  end.

(** The integer part [0|[1-9][0-9]*] at the head of [s]. *)
Definition read_nat (s : string) : option (Z * string) :=
  match s with
  | String c r =>
      if Ascii.eqb c "0" then
        if real_follows r then None else Some (0, r)
      else if is_digit c then
        let '(u, rest) := read_uint s in
        if real_follows rest then None else Some (Z.of_uint u, rest)
      else None
  | EmptyString => None
  end.

Definition read_number (s : string) : option (Z * string) :=
  match s with
  | String c r =>
      if Ascii.eqb c "-" then
        match read_nat r with
        | Some (z, rest) => Some (- z, rest)
        | None => None
        end
      else read_nat s
  | EmptyString => None
  end.

Definition hex_of (c : ascii) : option N :=
  let n := N_of_ascii c in
  if ((48 <=? n) && (n <=? 57))%N then Some (n - 48)%N
  else if ((97 <=? n) && (n <=? 102))%N then Some (n - 87)%N
  else if ((65 <=? n) && (n <=? 70))%N then Some (n - 55)%N
  else None.

(** The code point of [\uh1h2h3h4]. *)
Definition hex4 (h1 h2 h3 h4 : ascii) : option N :=
  match hex_of h1, hex_of h2, hex_of h3, hex_of h4 with
  | Some a, Some b, Some c, Some d => Some (((a * 16 + b) * 16 + c) * 16 + d)%N
  | _, _, _, _ => None
  end.

Definition simple_escape (e : ascii) : option ascii :=
  if Ascii.eqb e dquote then Some dquote
  else if Ascii.eqb e backslash then Some backslash
  else if Ascii.eqb e "/" then Some "/"%char
  else if Ascii.eqb e "b" then Some "008"%char
  else if Ascii.eqb e "f" then Some "012"%char
  else if Ascii.eqb e "n" then Some "010"%char
  else if Ascii.eqb e "r" then Some "013"%char
  else if Ascii.eqb e "t" then Some "009"%char
  else None.

Definition cons_char (c : ascii) (r : option (string * string))
  : option (string * string) :=
  match r with
  | Some (s, rest) => Some (String c s, rest)
  | None => None
  end.

(** The string whose opening quote has been read, and what follows its
    closing quote. *)
Fixpoint read_string (s : string) : option (string * string) :=
  match s with
  | EmptyString => None
  | String c r =>
      if Ascii.eqb c dquote then Some (EmptyString, r)
      else if Ascii.eqb c backslash then
        match r with
        | String e r1 =>
            match simple_escape e with
            | Some ch => cons_char ch (read_string r1)
            | None =>
                if Ascii.eqb e "u" then
                  match r1 with
                  | String h1 (String h2 (String h3 (String h4 r2))) =>
                      match hex4 h1 h2 h3 h4 with
                      | Some n =>
                          if (n <? 256)%N
                          then cons_char (ascii_of_N n) (read_string r2)
                          else None
                      | None => None
                      end
                  | _ => None
                  end
                else None
            end
        | EmptyString => None
        end
      else if (N_of_ascii c <? 32)%N then None
      else cons_char c (read_string r)
  end.

(** [dict(pairs)]: a key met again keeps its place and takes the later
    value. *)
Definition dict_of_pairs (pairs : list (string * json)) : dict :=
  fold_left (fun m kv => dict_set (fst kv) (snd kv) m) pairs [].

(** [s] with [word] taken off its head. *)
Fixpoint strip_prefix (word s : string) : option string :=
  match word, s with
  | EmptyString, _ => Some s
  | String a word', String b s' =>
      if Ascii.eqb a b then strip_prefix word' s' else None
  | String _ _, EmptyString => None
  end.

Definition read_literal (s : string) : option (json * string) :=
  match strip_prefix "null" s with
  | Some rest => Some (JNull, rest)
  | None =>
      match strip_prefix "true" s with
      | Some rest => Some (JBool true, rest)
      | None =>
          match strip_prefix "false" s with
          | Some rest => Some (JBool false, rest)
          | None =>
              match read_number s with
              | Some (z, rest) => Some (JInt z, rest)
              | None => None
              end
          end
      end
  end.

(** The value at the head of [s] and what follows it; [parse_elements]
    and [parse_members] read the items of a non-empty array or object up
    to the closing bracket. *)
Fixpoint parse_value (fuel : nat) (s : string) : option (json * string) :=
  match fuel with
  | O => None
  | S fuel' =>
      match s with
      | EmptyString => None
      | String c r =>
          if Ascii.eqb c dquote then
            match read_string r with
            | Some (str, rest) => Some (JStr str, rest)
            | None => None
            end
          else if Ascii.eqb c "[" then
            match skip_ws r with
            | EmptyString => None
            | String c1 r1 =>
                if Ascii.eqb c1 "]" then Some (JArr [], r1)
                else
                  match parse_elements fuel' (String c1 r1) with
                  | Some (vs, rest) => Some (JArr vs, rest)
                  | None => None
                  end
            end
          else if Ascii.eqb c "{" then
            match skip_ws r with
            | EmptyString => None
            | String c1 r1 =>
                if Ascii.eqb c1 "}" then Some (JObj [], r1)
                else
                  match parse_members fuel' (String c1 r1) with
                  | Some (pairs, rest) => Some (JObj (dict_of_pairs pairs), rest)
                  | None => None
                  end
            end
          else read_literal s
      end
  end
with parse_elements (fuel : nat) (s : string)
  : option (list json * string) :=
  match fuel with
  | O => None
  | S fuel' =>
      match parse_value fuel' s with
      | None => None
      | Some (v, rest) =>
          match skip_ws rest with
          | EmptyString => None
          | String c r =>
              if Ascii.eqb c "]" then Some ([v], r)
              else if Ascii.eqb c "," then
                match parse_elements fuel' (skip_ws r) with
                | Some (vs, rest') => Some (v :: vs, rest')
                | None => None
                end
              else None
          end
      end
  end
with parse_members (fuel : nat) (s : string)
  : option (list (string * json) * string) :=
  match fuel with
  | O => None
  | S fuel' =>
      match s with
      | EmptyString => None
      | String q r0 =>
          if negb (Ascii.eqb q dquote) then None
          else
            match read_string r0 with
            | None => None
            | Some (key, rest0) =>
                match skip_ws rest0 with
                | EmptyString => None
                | String colon r1 =>
                    if negb (Ascii.eqb colon ":") then None
                    else
                      match parse_value fuel' (skip_ws r1) with
                      | None => None
                      | Some (v, rest) =>
                          match skip_ws rest with
                          | EmptyString => None
                          | String c r =>
                              if Ascii.eqb c "}" then Some ([(key, v)], r)
                              else if Ascii.eqb c "," then
                                match parse_members fuel' (skip_ws r) with
                                | Some (ps, rest') =>
                                    Some ((key, v) :: ps, rest')
                                | None => None
                                end
                              else None
                          end
                      end
                end
            end
      end
  end.

(** Modelled from the spec: the reader of the serialized rule document.
    The repository writes that document and never reads it back, so the
    "re-reading" of the specification is taken to be [json.loads(text)],
    here on the documents of the model: integers for numbers and escapes
    of code points below 256.  A document with a real-number literal or a
    larger escape is outside this reader, which gives [None] for it as it
    does for a malformed one. *)
Definition loads (text : string) : option json :=
  match parse_value (S (String.length text)) (skip_ws text) with
  | Some (v, rest) =>
      match skip_ws rest with
      | EmptyString => Some v
      | String _ _ => None
      end
  | None => None
  end.

End JsonText.

(** Every dictionary inside [v] has pairwise distinct keys. *)
Fixpoint distinct (l : list string) : bool :=
  match l with
  | [] => true
  | k :: l' => negb (existsb (String.eqb k) l') && distinct l'
  end.

Fixpoint wf_json (v : json) : bool :=
  match v with
  | JArr l => forallb wf_json l
  | JObj m =>
      distinct (map fst m)
      && forallb (fun kv => let '(_, x) := kv in wf_json x) m
  | _ => true
  end.

(** ** The world outside the program *)

(** The files the program touches: path and content. *)
Definition fs := list (string * string).

Fixpoint fs_read (path : string) (files : fs) : option string :=
  match files with
  | [] => None
  | (p, c) :: files' =>
      if (path =? p)%string then Some c else fs_read path files'
  end.

Fixpoint fs_write (path content : string) (files : fs) : fs :=
  match files with
  | [] => [(path, content)]
  | (p, c) :: files' =>
      if (path =? p)%string then (p, content) :: files'
      else (p, c) :: fs_write path content files'
  end.

(** How [subprocess.run("npm run export:json", check=True, ...)] ends. *)
Inductive npm_outcome : Type :=
| NpmCompleted (stderr : string)
| NpmFailed (returncode : positive) (stdout stderr : string)
| NpmError (e : exn).

(** What the program does not decide: the JSON decoder, the environment,
    the export command, the completion service and the file system's
    refusals. *)
Record World : Type := {
  (** [json.loads]: the value of a text it accepts, [None] when it
      raises *)
  json_loads : string -> option json;
  (** the message of the [JSONDecodeError] it raises *)
  json_error : string -> string;
  (** the exception it raises on a text when that is no
      [JSONDecodeError]: a [RecursionError] for a text nested deeper than
      the interpreter allows, a [ValueError] for an integer of more digits
      than the interpreter converts *)
  json_other_error : string -> option exn;
  (** [os.getenv("OPENAI_API_KEY")] after [load_dotenv()] *)
  env_api_key : option string;
  (** [OpenAI(api_key=...)] *)
  new_client : string -> result unit;
  (** [DIST_DIR.mkdir(exist_ok=True)] *)
  mkdir_dist : result unit;
  (** the export command: how it ends and the files it leaves *)
  npm_run_export : fs -> npm_outcome * fs;
  (** the content of the completion returned for the architecture data *)
  chat_completion : json -> result string;
  (** [open(path, 'w')]: the message of the [OSError] raised, if any *)
  open_refused : string -> option string
}.

Record State : Type := {
  files : fs;
  stdout : list string;       (* one entry per [print] *)
  logs : list string;         (* one entry per logging record *)
  client : bool;              (* the global [client] is set *)
  requests : list json        (* the completions asked for *)
}.

(** Computations: they read the world, change the state and return or
    raise. *)
Definition M (A : Type) : Type := World -> State -> State * result A.

Definition ret {A} (a : A) : M A := fun _ st => (st, Ok a).

Definition raise {A} (e : exn) : M A := fun _ st => (st, Raise e).

Definition mbind {A B} (c : M A) (k : A -> M B) : M B :=
  fun w st =>
    match c w st with
    | (st', Ok a) => k a w st'
    | (st', Raise e) => (st', Raise e)
    end.

Notation "x <~ c ;; k" := (mbind c (fun x => k))
  (at level 61, c at next level, right associativity).
Notation "c ;;; k" := (mbind c (fun _ => k))
  (at level 61, right associativity).

(** [try: c  except Exception as e: h e] *)
Definition try_except {A} (c : M A) (h : exn -> M A) : M A :=
  fun w st =>
    match c w st with
    | (st', Ok a) => (st', Ok a)
    | (st', Raise e) => h e w st'
    end.

Definition lift {A} (r : result A) : M A := fun _ st => (st, r).

Definition ask : M World := fun w st => (st, Ok w).

Definition get_state : M State := fun _ st => (st, Ok st).

(** The state with one more line on the standard output. *)
Definition put_line (line : string) (st : State) : State :=
  {| files := files st; stdout := (stdout st ++ [line])%list;
     logs := logs st; client := client st; requests := requests st |}.

(** The state with one more logging record, in the format
    [%(levelname)s: %(message)s]. *)
Definition put_log (level msg : string) (st : State) : State :=
  {| files := files st; stdout := stdout st;
     logs := (logs st ++ [(level ++ ": " ++ msg)%string])%list;
     client := client st; requests := requests st |}.

Definition print (line : string) : M unit :=
  fun _ st => (put_line line st, Ok tt).

Definition log (level msg : string) : M unit :=
  fun _ st => (put_log level msg st, Ok tt).

Definition set_files (f : fs) : M unit :=
  fun _ st =>
    ({| files := f; stdout := stdout st; logs := logs st;
        client := client st; requests := requests st |},
     Ok tt).

Definition set_client : M unit :=
  fun _ st =>
    ({| files := files st; stdout := stdout st; logs := logs st;
        client := true; requests := requests st |},
     Ok tt).

Definition record_request (data : json) : M unit :=
  fun _ st =>
    ({| files := files st; stdout := stdout st; logs := logs st;
        client := client st; requests := (requests st ++ [data])%list |},
     Ok tt).

(** [try: c  except <class> as e: h e], the class given by its test. *)
Definition try_except_if {A} (isinstance : exn -> bool) (c : M A)
  (h : exn -> M A) : M A :=
  fun w st =>
    match c w st with
    | (st', Ok a) => (st', Ok a)
    | (st', Raise e) => if isinstance e then h e w st' else (st', Raise e)
    end.

(** The exceptions the program raises or names; [exn_msg e] is
    [str(e)]. *)
Definition OSError (msg : string) : exn := mk_exn "OSError" msg.
Definition ValueError (msg : string) : exn := mk_exn "ValueError" msg.
Definition FileNotFoundError (msg : string) : exn :=
  mk_exn "FileNotFoundError" msg.
Definition CalledProcessError (returncode : positive) : exn :=
  mk_exn "CalledProcessError"
    ("Command 'npm run export:json' returned non-zero exit status "
     ++ string_of_Z (Z.pos returncode) ++ ".").

(** [isinstance(e, OSError)]; [IOError] is the same class. *)
Definition isinstance_OSError (e : exn) : bool :=
  (exn_class e =? "OSError")%string
  || (exn_class e =? "FileNotFoundError")%string.

Definition isinstance_JSONDecodeError (e : exn) : bool :=
  (exn_class e =? "JSONDecodeError")%string.

(** [with open(path, 'w') as f: f.write(content)], for a content the
    encoding of the file accepts: opening the file is what can fail.  A
    content the encoding rejects leaves the file empty and raises a
    [UnicodeEncodeError]; that content is outside the texts of the
    model, and a statement that needs more than that says which texts
    it is about. *)
Definition write_file (path content : string) : M unit :=
  w <~ ask ;;
  match open_refused w path with
  | Some msg => raise (OSError msg)
  | None =>
      st <~ get_state ;;
      set_files (fs_write path content (files st))
  end.

(** The exception [json.loads] raises on a text it does not accept. *)
Definition loads_error (w : World) (text : string) : exn :=
  match json_other_error w text with
  | Some e => e
  | None => mk_exn "JSONDecodeError" (json_error w text)
  end.

(** [json.loads(text)] *)
Definition loads (text : string) : M json :=
  w <~ ask ;;
  match json_loads w text with
  | Some v => ret v
  | None => raise (loads_error w text)
  end.

(** ** generate_table.py *)

Module GenerateTable.

Definition MODEL_JSON_PATH : string := "dist/model.json".
Definition TABLE_OUTPUT_PATH : string := "dist/FirewallRules.md".
Definition OPENAI_MODEL : string := "gpt-4o-mini-2024-07-18".

(** The body of the loop over [model.get('relations', {}).items()]
    (lines 65-78), on the pair (involved_element_ids, relationships). *)
Definition relation_step (details : json) (st : pyset * list json)
  : result (pyset * list json) :=
  let '(involved, relationships) := st in
  src <- py_get details "source" (JObj []) ;;
  source_id <- py_get src "model" JNull ;;
  tgt <- py_get details "target" (JObj []) ;;
  target_id <- py_get tgt "model" JNull ;;
  if truthy source_id && truthy target_id then
    involved1 <- py_set_add source_id involved ;;
    involved2 <- py_set_add target_id involved1 ;;
    title <- py_get details "title" (JStr "No description") ;;
    Ok (involved2,
        (relationships ++
           [JObj [("source", source_id); ("target", target_id);
                  ("description", title)]])%list)
  else Ok st.

Fixpoint relations_loop (items : list (string * json)) (st : pyset * list json)
  : result (pyset * list json) :=
  match items with
  | [] => Ok st
  | (_, details) :: rest =>
      st' <- relation_step details st ;;
      relations_loop rest st'
  end.

(** The value of the dict comprehension for one element (lines 82-87). *)
Definition element_entry (details : json) : result json :=
  title <- py_get details "title" JNull ;;
  kind <- py_get details "kind" JNull ;;
  description <- py_get details "description" JNull ;;
  technology <- py_get details "technology" JNull ;;
  Ok (JObj [("title", title); ("kind", kind);
            ("description", description); ("technology", technology)]).

(** The dict comprehension of lines 81-90. *)
Fixpoint filter_elements (items : list (string * json)) (involved : pyset)
  : result dict :=
  match items with
  | [] => Ok []
  | (element_id, details) :: rest =>
      if set_mem (JStr element_id) involved then
        e <- element_entry details ;;
        es <- filter_elements rest involved ;;
        Ok ((element_id, e) :: es)
      else filter_elements rest involved
  end.

(** Lines 60-90 of [get_structured_model_data], on the parsed model:
    the pair (filtered_elements, relationships). *)
Definition filter_parts (model : json) : result (dict * list json) :=
  all_elements <- py_get model "elements" (JObj []) ;;
  relations <- py_get model "relations" (JObj []) ;;
  rel_items <- py_items relations ;;
  st <- relations_loop rel_items ([], []) ;;
  let '(involved_element_ids, relationships) := st in
  el_items <- py_items all_elements ;;
  filtered_elements <- filter_elements el_items involved_element_ids ;;
  Ok (filtered_elements, relationships).

(** The dictionary of line 95. *)
Definition graph (filtered_elements : dict) (relationships : list json)
  : json :=
  JObj [("elements", JObj filtered_elements);
        ("relationships", JArr relationships)].

(** The subgraph filter: the model document to the returned graph. *)
Definition filter_model (model : json) : result json :=
  parts <- filter_parts model ;;
  Ok (graph (fst parts) (snd parts)).

(** *** The stages *)

Definition configure_llm : M unit :=
  w <~ ask ;;
  match env_api_key w with
  | None | Some EmptyString =>
      raise (ValueError
               "OPENAI_API_KEY not found. Please add it to your .env file.")
  | Some api_key =>
      lift (new_client w api_key) ;;;
      set_client ;;;
      print "OpenAI client configured successfully."
  end.

Definition export_model_to_json : M unit :=
  print "Step 1: Exporting LikeC4 model to JSON via npm script..." ;;;
  st <~ get_state ;;
  match fs_read "package.json" (files st) with
  | None =>
      raise (FileNotFoundError
               "package.json not found. This script must be run from the project root.")
  | Some _ =>
      w <~ ask ;;
      lift (mkdir_dist w) ;;;
      st1 <~ get_state ;;
      let '(outcome, files1) := npm_run_export w (files st1) in
      set_files files1 ;;;
      match outcome with
      | NpmCompleted stderr =>
          (if (stderr =? "")%string then ret tt
           else print ("[npm script stderr]:" ++ nl ++ stderr)) ;;;
          print ("Model exported successfully to " ++ MODEL_JSON_PATH)
      | NpmFailed returncode out err =>
          print ("Error exporting LikeC4 model. Return code: "
                 ++ string_of_Z (Z.pos returncode)) ;;;
          print ("Stdout: " ++ out ++ nl ++ "Stderr: " ++ err) ;;;
          raise (CalledProcessError returncode)
      | NpmError e => raise e
      end
  end.

Definition get_structured_model_data : M json :=
  print "Step 2: Parsing and intelligently filtering model.json..." ;;;
  st <~ get_state ;;
  match fs_read MODEL_JSON_PATH (files st) with
  | None =>
      raise (FileNotFoundError
               ("'" ++ MODEL_JSON_PATH
                ++ "' not found. Please run 'npm run export:json' first."))
  | Some text =>
      model <~ loads text ;;
      parts <~ lift (filter_parts model) ;;
      let '(filtered_elements, relationships) := parts in
      (if truthy (JArr relationships) then ret tt
       else print
              "Warning: No relationships found in the model. The output will be empty.") ;;;
      ret (graph filtered_elements relationships)
  end.

Definition call_openai_llm_for_json (connections_data : json) : M json :=
  print ("Step 3: Sending request to OpenAI LLM (" ++ OPENAI_MODEL
         ++ ") for firewall rule generation...") ;;;
  st <~ get_state ;;
  if negb (client st) then
    raise (ValueError
             "OpenAI client is not configured. Run configure_llm() first.")
  else
    try_except
      (w <~ ask ;;
       record_request connections_data ;;;
       response_content <~ lift (chat_completion w connections_data) ;;
       print "JSON response received from LLM." ;;;
       loads response_content)
      (fun e =>
         print ("An error occurred while calling the OpenAI API: "
                ++ exn_msg e) ;;;
         raise e).

Definition header : string :=
  "| Source | Port | Destination | Description |" ++ nl.
Definition separator : string :=
  "|--------|------|-------------|-------------|" ++ nl.

(** The four fields of the f-string of line 165, in the order they are
    written. *)
Definition table_cells (rule : json) : result (list string) :=
  source <- py_get rule "source" (JStr "N/A") ;;
  port <- py_get rule "port" (JStr "N/A") ;;
  destination <- py_get rule "destination" (JStr "N/A") ;;
  description <- py_get rule "description" (JStr "N/A") ;;
  Ok [py_str source; py_str port; py_str destination; py_str description].

(** One element of the list comprehension of lines 164-167. *)
Definition table_row (rule : json) : result string :=
  cells <- table_cells rule ;;
  Ok (format_row cells).

Fixpoint table_rows (rules : list json) : result (list string) :=
  match rules with
  | [] => Ok []
  | rule :: rest =>
      row <- table_row rule ;;
      rows <- table_rows rest ;;
      Ok (row :: rows)
  end.

(** Lines 157-169 of [format_json_to_markdown]. *)
Definition markdown_of (rules_json : json) : result string :=
  rules <- py_get rules_json "rules" (JArr []) ;;
  if negb (truthy rules) then Ok "No rules were generated by the LLM."
  else
    items <- py_iter rules ;;
    rows <- table_rows items ;;
    Ok (header ++ separator ++ String.concat nl rows ++ nl).

Definition format_json_to_markdown (rules_json : json) : M string :=
  print "Step 4: Formatting JSON data into a Markdown table..." ;;;
  lift (markdown_of rules_json).

Definition save_table (markdown_table : string) : M unit :=
  print ("Step 5: Saving table to " ++ TABLE_OUTPUT_PATH ++ "...") ;;;
  try_except_if isinstance_OSError
    (write_file TABLE_OUTPUT_PATH markdown_table ;;;
     print "Table saved successfully!")
    (fun e =>
       print ("Error saving table file: " ++ exn_msg e) ;;;
       raise e).

Definition NO_RELATIONSHIPS : string :=
  "No rules could be generated because the C4 model does not contain any relationships.".

(** The body of the [try] of [main]. *)
Definition pipeline : M unit :=
  configure_llm ;;;
  export_model_to_json ;;;
  connections_data <~ get_structured_model_data ;;
  relationships <~ lift (py_get connections_data "relationships" JNull) ;;
  if negb (truthy relationships) then
    print
      "Execution stopped because no relationships were found in the model." ;;;
    save_table NO_RELATIONSHIPS
  else
    rules_as_json <~ call_openai_llm_for_json connections_data ;;
    markdown_table <~ format_json_to_markdown rules_as_json ;;
    save_table markdown_table ;;;
    print (nl ++ "--- Generated Table ---") ;;;
    print markdown_table ;;;
    print ("--- End of Table --- (Saved to " ++ TABLE_OUTPUT_PATH ++ ")").

Definition main : M unit :=
  try_except pipeline
    (fun e => print (nl ++ "An error occurred: " ++ exn_msg e)).

End GenerateTable.

(** ** mcp_client.py *)

Module McpClient.

(** The dictionary [parse_c4_view] returns.  The keys of [elements] are
    the node identifiers as they come, so they are any hashable value. *)
Record LiveGraph : Type := {
  elements : list (json * json);
  relationships : list json
}.

(** [elements[k] = v] *)
Fixpoint elements_set (k v : json) (m : list (json * json))
  : list (json * json) :=
  match m with
  | [] => [(k, v)]
  | (k', v') :: m' =>
      if key_eqb k k' then (k', v) :: m' else (k', v') :: elements_set k v m'
  end.

(** The body of the loop over the nodes (lines 51-60). *)
Definition node_step (node : json) (els : list (json * json))
  : result (list (json * json)) :=
  elem_id <- py_get node "id" JNull ;;
  title <- py_get node "title" JNull ;;
  rep <- py_get node "represents" (JObj []) ;;
  represents <- py_get rep "element" JNull ;;
  if truthy elem_id && truthy represents then
    if hashable elem_id then
      Ok (elements_set elem_id
            (JObj [("id", elem_id); ("title", title);
                   ("kind", JStr "unknown"); ("description", JStr "")])
            els)
    else Raise (Unhashable elem_id)
  else Ok els.

Fixpoint nodes_loop (nodes : list json) (els : list (json * json))
  : result (list (json * json)) :=
  match nodes with
  | [] => Ok els
  | node :: rest =>
      els' <- node_step node els ;;
      nodes_loop rest els'
  end.

(** Lines 41-45: the parsed view, or [None] where the function returns
    the empty graph from its handler. *)
Definition load_view (text : string) : M (option json) :=
  try_except_if isinstance_JSONDecodeError
    (view_json <~ loads text ;; ret (Some view_json))
    (fun _ =>
       log "ERROR" "Failed to parse view content as JSON." ;;;
       ret None).

Definition parse_c4_view (text : string) : M LiveGraph :=
  log "INFO" "Parsing view content..." ;;;
  loaded <~ load_view text ;;
  match loaded with
  | None => ret {| elements := []; relationships := [] |}
  | Some view_json =>
      nodes <~ lift (py_get view_json "nodes" (JArr [])) ;;
      items <~ lift (py_iter nodes) ;;
      els <~ lift (nodes_loop items []) ;;
      log "INFO"
        ("Parsed " ++ string_of_Z (Z.of_nat (length els)) ++ " elements.") ;;;
      ret {| elements := els; relationships := [] |}
  end.

Definition JSON_PATH : string := "dist/firewall_rules.json".
Definition MD_PATH : string := "dist/FirewallRules.md".

(** The serialized document of line 69. *)
Definition rules_document (firewall_rules : json) : string :=
  json_dumps (JObj [("firewall_rules", firewall_rules)]).

(** Lines 78-81: [src], [port], [dest] and [desc], in the order line 82
    writes them. *)
Definition md_cells (rule : json) : result (list string) :=
  src <- py_get rule "source" (JStr "") ;;
  dest <- py_get rule "target" (JStr "") ;;
  desc <- py_get rule "purpose" (JStr "") ;;
  protocol <- py_get rule "protocol" (JStr "") ;;
  port <- py_get rule "port" (JStr "") ;;
  let port := strip (py_str protocol ++ " " ++ py_str port) in
  Ok [py_str src; port; py_str dest; py_str desc].

(** The body of the loop of lines 77-82: one line of the table. *)
Definition md_line (rule : json) : result string :=
  cells <- md_cells rule ;;
  Ok (format_row cells).

Fixpoint md_rows (rules : list json) : result (list string) :=
  match rules with
  | [] => Ok []
  | rule :: rest =>
      line <- md_line rule ;;
      lines <- md_rows rest ;;
      Ok (line :: lines)
  end.

Definition md_head : list string :=
  ["| Source | Port | Destination | Description |";
   "|--------|------|-------------|-------------|"].

(** Lines 73-86: the text written to the table file. *)
Definition md_text (firewall_rules : json) : result string :=
  items <- py_iter firewall_rules ;;
  rows <- md_rows items ;;
  Ok (String.concat nl (md_head ++ rows)%list).

Definition save_firewall_outputs (firewall_rules : json) : M unit :=
  write_file JSON_PATH (rules_document firewall_rules) ;;;
  log "INFO" ("Saved firewall rules to " ++ JSON_PATH) ;;;
  text <~ lift (md_text firewall_rules) ;;
  write_file MD_PATH text ;;;
  log "INFO" ("Saved firewall rules to " ++ MD_PATH).

End McpClient.

(** ** Definitions for the statements *)

(** *** The filter *)

(** The endpoint id the loop reads for [details]; [which] is "source" or
    "target". *)
Definition endpoint (which : string) (details : json) : result json :=
  e <- py_get details which (JObj []) ;;
  py_get e "model" JNull.

(** The dictionary line 74 appends. *)
Definition relationship (source_id target_id description : json) : json :=
  JObj [("source", source_id); ("target", target_id);
        ("description", description)].

(** What the loop keeps of one entry of [relations]: nothing when an id
    is missing or empty. *)
Definition normalized (details : json) : list json :=
  match endpoint "source" details, endpoint "target" details with
  | Ok s, Ok t =>
      if truthy s && truthy t then
        match py_get details "title" (JStr "No description") with
        | Ok d => [relationship s t d]
        | Raise _ => []
        end
      else []
  | _, _ => []
  end.

(** The source and the target of a kept relationship. *)
Definition endpoint_ids (r : json) : list json :=
  match r with
  | JObj m =>
      match dict_get "source" m, dict_get "target" m with
      | Some s, Some t => [s; t]
      | _, _ => []
      end
  | _ => []
  end.

(** The source and target ids of a list of relationships. *)
Definition endpoints (relationships : list json) : list json :=
  flat_map endpoint_ids relationships.

(** An element and a relation entry of a model document. *)
Definition element (description : string) : json :=
  JObj [("title", JStr "T"); ("kind", JStr "system");
        ("description", JStr description); ("technology", JNull)].

Definition relation (source target : string) (rest : dict) : json :=
  JObj (("source", JObj [("model", JStr source)])
        :: ("target", JObj [("model", JStr target)]) :: rest).

(** Elements A, B and C and the relationship A -> B. *)
Definition model_abc : json :=
  JObj [("elements",
         JObj [("A", element "Network ID: 10.0.0.1");
               ("B", element "Network ID: 10.0.0.2");
               ("C", element "Network ID: 10.0.0.3")]);
        ("relations",
         JObj [("r1", relation "A" "B" [("title", JStr "calls (TCP 8443)")])])].

(** The relationship A -> B where only A is an element. *)
Definition model_dangling : json :=
  JObj [("elements", JObj [("A", element "Network ID: 10.0.0.1")]);
        ("relations",
         JObj [("r1", relation "A" "B" [("title", JStr "calls (TCP 8443)")])])].

(** A relation entry without a title. *)
Definition model_untitled : json :=
  JObj [("elements", JObj [("A", element "a"); ("B", element "b")]);
        ("relations", JObj [("r1", relation "A" "B" [])])].

(** *** The tables *)

(** The text of the field [key] of a rule, or the placeholder. *)
Definition cell (placeholder key : string) (rule : dict) : string :=
  match dict_get key rule with
  | Some v => py_str v
  | None => placeholder
  end.

(** The cells of a rule on the static path: Source, Port, Destination,
    Description. *)
Definition static_cells (rule : dict) : list string :=
  [cell "N/A" "source" rule; cell "N/A" "port" rule;
   cell "N/A" "destination" rule; cell "N/A" "description" rule].

(** The cells of a rule on the live path. *)
Definition live_cells (rule : dict) : list string :=
  [cell "" "source" rule;
   strip (cell "" "protocol" rule ++ " " ++ cell "" "port" rule);
   cell "" "target" rule; cell "" "purpose" rule].


(** *** The live parser *)

(** The dictionary line 55 stores for a node. *)
Definition live_element (elem_id title : json) : json :=
  JObj [("id", elem_id); ("title", title); ("kind", JStr "unknown");
        ("description", JStr "")].

(** The element the loop creates for [node]: none unless the node has
    both an identifier and a resolved 'represents' reference. *)
Definition node_element (node : json) : option json :=
  match py_get node "id" JNull, py_get node "title" JNull,
        (rep <- py_get node "represents" (JObj []) ;;
         py_get rep "element" JNull) with
  | Ok elem_id, Ok title, Ok represents =>
      if truthy elem_id && truthy represents
      then Some (live_element elem_id title) else None
  | _, _, _ => None
  end.

(** The key the loop stores the element of [node] under. *)
Definition node_key (node : json) : json :=
  match py_get node "id" JNull with
  | Ok elem_id => elem_id
  | Raise _ => JNull
  end.

(** The elements [els] are those of the nodes [nodes]: every element was
    created for a node, and every node that gets an element has one
    under its identifier. *)
Definition elements_of_nodes (nodes : list json) (els : list (json * json))
  : Prop :=
  (forall k e, In (k, e) els ->
     exists node, In node nodes /\ node_element node = Some e)
  /\ (forall node e, In node nodes -> node_element node = Some e ->
        exists k e', In (k, e') els /\ key_eqb (node_key node) k = true).

(** *** Worlds and runs *)

(** A world for the examples: the reader of this file for [json.loads],
    a key in the environment, an export that leaves [model] in
    dist/model.json, and a service that answers [answer]. *)
Definition sample_world (api_key : option string) (model : json)
  (answer : string) : World :=
  {| json_loads := JsonText.loads;
     json_error := fun _ => "Expecting value";
     json_other_error := fun _ => None;
     env_api_key := api_key;
     new_client := fun _ => Ok tt;
     mkdir_dist := Ok tt;
     npm_run_export :=
       fun f => (NpmCompleted "", fs_write "dist/model.json" (json_dumps model) f);
     chat_completion := fun _ => Ok answer;
     open_refused := fun _ => None |}.

(** The state before a run: the project file, nothing printed. *)
Definition initial_state : State :=
  {| files := [("package.json", "{}")]; stdout := []; logs := [];
     client := false; requests := [] |}.

(** A text of 1100 opening brackets. *)
Definition deep_text : string := string_of_list_ascii (repeat "["%char 1100).

(** The [RecursionError] of CPython 3.11 for an array nested too deep. *)
Definition RecursionError : exn :=
  mk_exn "RecursionError"
    "maximum recursion depth exceeded while decoding a JSON array from a unicode string".

(** The sample world with the recursion limit of the interpreter: on the
    text of 1100 opening brackets [json.loads] raises a [RecursionError]
    and no [JSONDecodeError]. *)
Definition world_with_recursion_limit : World :=
  let w := sample_world None JNull EmptyString in
  {| json_loads := json_loads w;
     json_error := json_error w;
     json_other_error :=
       fun text =>
         if (text =? deep_text)%string then Some RecursionError else None;
     env_api_key := env_api_key w;
     new_client := new_client w;
     mkdir_dist := mkdir_dist w;
     npm_run_export := npm_run_export w;
     chat_completion := chat_completion w;
     open_refused := open_refused w |}.

(** A view with two nodes; the second represents nothing. *)
Definition sample_view : json :=
  JObj [("nodes",
         JArr [JObj [("id", JStr "web"); ("title", JStr "Web");
                     ("represents", JObj [("element", JStr "cloud.web")])];
               JObj [("id", JStr "note"); ("title", JStr "Note")]])].

(** Every element of [els] is a dictionary of line 55. *)
Definition all_live_elements (els : list (json * json)) : Prop :=
  Forall (fun kv => exists i t, snd kv = live_element i t) els.

(** A model with elements and no relation. *)
Definition model_no_relations : json :=
  JObj [("elements", JObj [("A", element "a")]);
        ("relations", JObj [])].

(** [c] leaves the list of requests to the service as it found it. *)
Definition quiet {A} (c : M A) : Prop :=
  forall w st, requests (fst (c w st)) = requests st.

(** *** The text of a document *)

(** What may follow a value in a document that [json_dumps] wrote: the
    end of the text, a comma or a line break. *)
Definition follow_ok (rest : string) : bool :=
  match rest with
  | EmptyString => true
  | String c _ => Ascii.eqb c "," || Ascii.eqb c "010"
  end.

(** The first character of [s] is no white space and closes no array or
    object. *)
Definition value_start (s : string) : Prop :=
  match s with
  | String c _ =>
      JsonText.is_ws c = false /\ Ascii.eqb c "]" = false
      /\ Ascii.eqb c "}" = false
  | EmptyString => False
  end.

(** The number of values in [v], which bounds the depth of the reader's
    recursion on the text of [v]. *)
Fixpoint size (v : json) : nat :=
  match v with
  | JArr l => S (fold_right (fun x n => S (size x + n)%nat) O l)
  | JObj m =>
      S (fold_right (fun kv n => let '(_, x) := kv in S (size x + n)%nat) O m)
  | _ => 1%nat
  end.

(** The text [json_dumps] writes for a member of an object. *)
Definition member_text (level : nat) (kv : string * json) : string :=
  let '(k, x) := kv in encode_string k ++ ": " ++ dumps_at level x.

(** The reader gives [v] back from the text of [v], whatever the nesting
    depth it was written at and whatever admissible text follows. *)
Definition reads_back (v : json) : Prop :=
  forall level fuel rest,
    wf_json v = true ->
    (size v <= fuel)%nat ->
    follow_ok rest = true ->
    JsonText.parse_value fuel (dumps_at level v ++ rest) = Some (v, rest).

(** The values in the items of an array, the items counted. *)
Definition elems_size (l : list json) : nat :=
  fold_right (fun x n => S (size x + n)%nat) O l.

(** The values in the members of an object, the members counted. *)
Definition members_size (m : dict) : nat :=
  fold_right (fun kv n => let '(_, x) := kv in S (size x + n)%nat) O m.

(** A rule of the live path. *)
Definition sample_rules : json :=
  JArr [JObj [("source", JStr "web"); ("target", JStr "db");
              ("port", JStr "5432"); ("protocol", JStr "TCP");
              ("purpose", JStr "queries")]].

(** ** mcp_client.py: the script around the parser and the writer *)

Module McpClientMain.
Import McpClient.

(** What the live script does not decide: the session with the
    model-serving process and the completion service.  Six texts of the
    script have characters beyond code point 255 (pictographs, an arrow,
    a dash); they are given here as they come out in the encoding of the
    output. *)
Record Live : Type := {
  (** entering [sse_client] and [ClientSession] *)
  connect : result unit;
  (** the texts of [result.content] of the call of the tool 'read-view' *)
  call_tool : result (list string);
  (** the content of the completion returned for the parsed data *)
  firewall_completion : LiveGraph -> result string;
  (** the line printed before the view *)
  banner_view : string;
  (** the line printed before the parsed data *)
  banner_parsed : string;
  (** the line printed before the rules *)
  banner_rules : string;
  (** the record logged when the completion has arrived *)
  received : string;
  (** the arrow and the dash of a printed rule *)
  arrow : string;
  dash : string
}.

Definition IndexError : exn := mk_exn "IndexError" "list index out of range".

(** [KeyError(key)]; its text is [repr(key)]. *)
Definition KeyError (key : string) : exn := mk_exn "KeyError" (repr_str key).

(** The [TypeError] of [v[key]] for a [v] that is no dictionary, in the
    wording of CPython 3.11. *)
Definition NotSubscriptable (v : json) : exn :=
  mk_exn "TypeError"
    match v with
    | JArr _ => "list indices must be integers or slices, not str"
    | JStr _ => "string indices must be integers, not 'str'"
    | _ => "'" ++ type_name v ++ "' object is not subscriptable"
    end.

(** [v[key]] for a string [key] *)
Definition py_index (v : json) (key : string) : result json :=
  match v with
  | JObj m =>
      match dict_get key m with
      | Some x => Ok x
      | None => Raise (KeyError key)
      end
  | _ => Raise (NotSubscriptable v)
  end.

Definition fetch_simplified_view (live : Live) : M string :=
  lift (connect live) ;;;
  log "INFO" "Calling read-view tool for 'SimplifiedFirewallView'" ;;;
  content <~ lift (call_tool live) ;;
  match content with
  | [] => raise IndexError
  | view_text :: _ =>
      log "INFO" "View content received." ;;;
      ret view_text
  end.

(** The key [json.dumps] writes for a dictionary key that is no
    string. *)
Definition key_text (k : json) : string :=
  match k with
  | JStr s => s
  | JInt z => string_of_Z z
  | JBool true => "true"
  | JBool false => "false"
  | JNull => "null"
  | _ => EmptyString
  end.

(** The parsed data as [json.dumps] takes it. *)
Definition data_json (data : LiveGraph) : json :=
  JObj [("elements",
         JObj (map (fun kv => (key_text (fst kv), snd kv)) (elements data)));
        ("relationships", JArr (relationships data))].

Definition generate_firewall_json (live : Live) (data : LiveGraph) : M json :=
  log "INFO" "Sending data to OpenAI to generate firewall rules..." ;;;
  record_request (data_json data) ;;;
  content <~ lift (firewall_completion live data) ;;
  log "INFO" (received live) ;;;
  loads content.

(** The f-string of line 132. *)
Definition rule_line (live : Live) (rule : json) : result string :=
  source <- py_index rule "source" ;;
  target <- py_index rule "target" ;;
  protocol <- py_index rule "protocol" ;;
  port <- py_index rule "port" ;;
  purpose <- py_index rule "purpose" ;;
  Ok ("- " ++ py_str source ++ " " ++ arrow live ++ " " ++ py_str target
      ++ " (" ++ py_str protocol ++ ":" ++ py_str port ++ ") " ++ dash live
      ++ " " ++ py_str purpose).

(** The loop of lines 131-132. *)
Fixpoint print_rules (live : Live) (rules : list json) : M unit :=
  match rules with
  | [] => ret tt
  | rule :: rest =>
      line <~ lift (rule_line live rule) ;;
      print line ;;;
      print_rules live rest
  end.

Definition main (live : Live) : M unit :=
  view_text <~ fetch_simplified_view live ;;
  print (banner_view live) ;;;
  print view_text ;;;
  parsed_data <~ parse_c4_view view_text ;;
  print (banner_parsed live) ;;;
  print (json_dumps (data_json parsed_data)) ;;;
  response <~ generate_firewall_json live parsed_data ;;
  print (banner_rules live) ;;;
  rules <~ lift (py_get response "firewall_rules" (JArr [])) ;;
  items <~ lift (py_iter rules) ;;
  print_rules live items ;;;
  rules' <~ lift (py_get response "firewall_rules" (JArr [])) ;;
  save_firewall_outputs rules'.

End McpClientMain.

(** ** generate_models.py *)

Module GenerateModels.

(** [s.startswith(prefix)] *)
Fixpoint startswith (prefix s : string) : bool :=
  match prefix, s with
  | EmptyString, _ => true
  | String a prefix', String b s' => Ascii.eqb a b && startswith prefix' s'
  | String _ _, EmptyString => false
  end.

(** [s.endswith(suffix)] *)
Definition endswith (suffix s : string) : bool :=
  startswith (string_rev suffix) (string_rev s).

(** [s[n:]] *)
Fixpoint drop (n : nat) (s : string) : string :=
  match n, s with
  | O, _ => s
  | S n', String _ s' => drop n' s'
  | S _, EmptyString => EmptyString
  end.

(** [s[:-n]] for a positive [n] *)
Definition drop_last (n : nat) (s : string) : string :=
  string_rev (drop n (string_rev s)).

(** [sub in s] *)
Fixpoint contains (sub s : string) : bool :=
  startswith sub s
  || match s with
     | EmptyString => false
     | String _ s' => contains sub s'
     end.

(** Lines 162-167: the fences of a code block taken off. *)
Definition remove_fences (c4_code : string) : string :=
  let c4_code :=
    if startswith "```likec4" c4_code
    then strip (drop (String.length "```likec4") c4_code) else c4_code in
  let c4_code :=
    if startswith "```" c4_code
    then strip (drop (String.length "```") c4_code) else c4_code in
  if endswith "```" c4_code
  then strip (drop_last (String.length "```") c4_code) else c4_code.

(** The test of line 170. *)
Definition looks_like_likec4 (c4_code : string) : bool :=
  contains "model {" c4_code && contains "views {" c4_code
  && contains "specification {" c4_code.

(** Lines 169-173. *)
Definition validated (c4_code : string) : string :=
  if looks_like_likec4 c4_code then c4_code
  else "Error: The model did not return valid LikeC4 code. Please check the response:"
       ++ nl ++ c4_code.

(** [isinstance(e, openai.APIError)]: the class and the classes the
    library derives from it. *)
Definition isinstance_APIError (e : exn) : bool :=
  existsb (String.eqb (exn_class e))
    ["APIError"; "APIResponseValidationError"; "APIStatusError";
     "APIConnectionError"; "APITimeoutError"; "BadRequestError";
     "AuthenticationError"; "PermissionDeniedError"; "NotFoundError";
     "ConflictError"; "UnprocessableEntityError"; "RateLimitError";
     "InternalServerError"].

Definition isinstance_APIConnectionError (e : exn) : bool :=
  existsb (String.eqb (exn_class e)) ["APIConnectionError"; "APITimeoutError"].

Definition isinstance_RateLimitError (e : exn) : bool :=
  (exn_class e =? "RateLimitError")%string.

(** The handlers of lines 175-182, in their order. *)
Definition error_text (e : exn) : string :=
  if isinstance_APIError e then
    "Error: OpenAI API returned an API Error: " ++ exn_msg e
  else if isinstance_APIConnectionError e then
    "Error: Failed to connect to OpenAI API: " ++ exn_msg e
  else if isinstance_RateLimitError e then
    "Error: OpenAI API request exceeded rate limit: " ++ exn_msg e
  else "An unexpected error occurred: " ++ exn_msg e.

(** What the script does not decide: the completion service, which gives
    the [message.content] of every choice ([None] for a choice without
    text), and the creation of directories. *)
Record Service : Type := {
  (** the completion for the prompts, joined by line breaks *)
  create : string -> result (list (option string));
  (** [os.makedirs(path, exist_ok=True)]: the message of the [OSError]
      raised, if any *)
  makedirs_refused : string -> option string
}.

Definition NoneStrip : exn :=
  mk_exn "AttributeError" "'NoneType' object has no attribute 'strip'".

Definition IndexError : exn := mk_exn "IndexError" "list index out of range".

(** Lines 151-159: [response.choices[0].message.content.strip()]. *)
Definition first_content (svc : Service) (prompts : list string)
  : M string :=
  record_request (JStr (String.concat nl prompts)) ;;;
  choices <~ lift (create svc (String.concat nl prompts)) ;;
  match choices with
  | [] => raise IndexError
  | None :: _ => raise NoneStrip
  | Some content :: _ => ret (strip content)
  end.

Definition generate_likec4_model (svc : Service) (prompts : list string)
  (api_key : option string) : M string :=
  match api_key with
  | None | Some EmptyString =>
      ret "Error: OpenAI API key not found. Please set the OPENAI_API_KEY environment variable."
  | Some _ =>
      try_except
        (c4_code <~ first_content svc prompts ;;
         ret (validated (remove_fences c4_code)))
        (fun e => ret (error_text e))
  end.

(** [os.path.join("src", name)] *)
Definition join_src (name : string) : string :=
  if startswith "/" name then name else "src/" ++ name.

(** [s.rstrip('/')] *)
Fixpoint lstrip_slashes (s : string) : string :=
  match s with
  | String "/" s' => lstrip_slashes s'
  | _ => s
  end.

Definition rstrip_slashes (s : string) : string :=
  string_rev (lstrip_slashes (string_rev s)).

(** The text up to and with the last slash of [s]: [s[:s.rfind('/') + 1]]. *)
Fixpoint head_with_slash (s : string) : string :=
  match s with
  | EmptyString => EmptyString
  | String c s' =>
      if contains "/" s then String c (head_with_slash s') else EmptyString
  end.

(** [os.path.dirname(path)] *)
Definition dirname (path : string) : string :=
  let head := head_with_slash path in
  match rstrip_slashes head with
  | EmptyString => head
  | stripped => stripped
  end.

(** Lines 186-199; the name of the file is the one the handler prints. *)
Definition save_to_file (svc : Service) (content filename : string) : M unit :=
  let output_dir := dirname filename in
  let final :=
    if endswith ".c4" filename then filename else filename ++ ".c4" in
  match (if (output_dir =? "")%string then None
         else makedirs_refused svc output_dir) with
  | Some msg =>
      print ("Error: Could not write to file " ++ filename ++ ". Reason: "
             ++ msg)
  | None =>
      try_except_if isinstance_OSError
        (write_file final content ;;;
         print ("Successfully saved LikeC4 model to " ++ final))
        (fun e =>
           print ("Error: Could not write to file " ++ final ++ ". Reason: "
                  ++ exn_msg e))
  end.

(** Lines 219-231, on the parsed arguments. *)
Definition main (svc : Service) (api_key : option string)
  (prompts : list string) (output : string) : M unit :=
  print "Generating LikeC4 model from your prompts..." ;;;
  c4_model_code <~ generate_likec4_model svc prompts api_key ;;
  if negb (c4_model_code =? "")%string
     && negb (startswith "Error" c4_model_code)
  then save_to_file svc c4_model_code (join_src output)
  else print c4_model_code.

End GenerateModels.

(** ** edit_c4_model.py *)

Module EditC4Model.
Import GenerateModels.

(** What the script does not decide: the completion service and the
    refusals of the file system.  Three texts of the script have a
    pictograph beyond code point 255; they are given here as they come
    out in the encoding of the output. *)
Record Editor : Type := {
  (** the [message.content] of every choice of the completion for the
      content of the model and the editing instructions *)
  create : string -> string -> result (list (option string));
  (** [open(path, 'r')] and [f.read()] on a file that exists: the
      exception raised, if any *)
  read_refused : string -> option exn;
  (** [os.makedirs(path, exist_ok=True)]: the message of the [OSError]
      raised, if any *)
  makedirs_refused : string -> option string;
  (** the marks before the lines for work in progress, success and
      failure *)
  hourglass : string;
  check_mark : string;
  cross_mark : string
}.

(** The handlers of lines 87-94, in their order. *)
Definition process_error_text (e : exn) : string :=
  if isinstance_APIError e then
    "Error: OpenAI API returned an API Error: " ++ exn_msg e
  else if isinstance_APIConnectionError e then
    "Error: Failed to connect to OpenAI API: " ++ exn_msg e
  else if isinstance_RateLimitError e then
    "Error: OpenAI API request exceeded rate limit: " ++ exn_msg e
  else "An unexpected error occurred while processing the response: "
       ++ exn_msg e.

(** The argument is the [message.content] of every choice of the
    response. *)
Definition _process_llm_response (choices : list (option string)) : string :=
  match choices with
  | [] => process_error_text IndexError
  | None :: _ => process_error_text NoneStrip
  | Some content :: _ => validated (remove_fences (strip content))
  end.

(** [with open(path, 'r') as f: f.read()] *)
Definition read_file (ed : Editor) (path : string) : M string :=
  st <~ get_state ;;
  match fs_read path (files st) with
  | None =>
      raise (FileNotFoundError
               ("[Errno 2] No such file or directory: " ++ repr_str path))
  | Some content =>
      match read_refused ed path with
      | Some e => raise e
      | None => ret content
      end
  end.

Definition isinstance_FileNotFoundError (e : exn) : bool :=
  (exn_class e =? "FileNotFoundError")%string.

Definition edit_likec4_model (ed : Editor)
  (existing_model_path edit_prompt : string) (api_key : option string)
  : M string :=
  match api_key with
  | None | Some EmptyString =>
      ret "Error: OpenAI API key not found. Please set the OPENAI_API_KEY environment variable in your .env file."
  | Some _ =>
      fun w st =>
        match read_file ed existing_model_path w st with
        | (st', Raise e) =>
            if isinstance_FileNotFoundError e then
              (st', Ok ("Error: Input file not found at '"
                        ++ existing_model_path ++ "'"))
            else
              (st', Ok ("Error reading file '" ++ existing_model_path
                        ++ "': " ++ exn_msg e))
        | (st', Ok existing_model_content) =>
            try_except
              (record_request
                 (JArr [JStr existing_model_content; JStr edit_prompt]) ;;;
               choices <~ lift (create ed existing_model_content edit_prompt) ;;
               ret (_process_llm_response choices))
              (fun e =>
                 ret ("An unexpected error occurred during editing: "
                      ++ exn_msg e))
              w st'
        end
  end.

(** Lines 99-111; the name of the file is the one the handler prints. *)
Definition save_to_file (ed : Editor) (content filename : string) : M unit :=
  let output_dir := dirname filename in
  let final :=
    if endswith ".c4" filename then filename else filename ++ ".c4" in
  match (if (output_dir =? "")%string then None
         else makedirs_refused ed output_dir) with
  | Some msg =>
      print ("Error: Could not write to file " ++ filename ++ ". Reason: "
             ++ msg)
  | None =>
      try_except_if isinstance_OSError
        (write_file final content ;;;
         print (check_mark ed ++ " Successfully saved model to " ++ final))
        (fun e =>
           print ("Error: Could not write to file " ++ final ++ ". Reason: "
                  ++ exn_msg e))
  end.

(** [name.startswith(('src/', 'src\\'))] *)
Definition in_src (name : string) : bool :=
  startswith "src/" name || startswith "src\" name.

(** The name under [src]: lines 143-145 and 157-159. *)
Definition under_src (name : string) : string :=
  if in_src name then name else join_src name.

(** Lines 141-165, on the parsed arguments; [os.path.exists] is the
    presence of the file. *)
Definition main (ed : Editor) (api_key : option string)
  (input_file prompt : string) (output : option string) : M unit :=
  let input_file_path := under_src input_file in
  print (hourglass ed ++ " Editing model '" ++ input_file_path
         ++ "' based on your prompt...") ;;;
  st <~ get_state ;;
  match fs_read input_file_path (files st) with
  | None =>
      print (cross_mark ed ++ " Error: Input file not found at '"
             ++ input_file_path ++ "'")
  | Some _ =>
      c4_model_code <~ edit_likec4_model ed input_file_path prompt api_key ;;
      if negb (c4_model_code =? "")%string
         && negb (startswith "Error" c4_model_code)
      then
        let output_path :=
          match output with
          | None | Some EmptyString => input_file_path
          | Some name => under_src name
          end in
        save_to_file ed c4_model_code output_path
      else print (nl ++ cross_mark ed ++ " " ++ c4_model_code)
  end.

End EditC4Model.

(** ** More definitions for the statements *)

(** The stages of [main] up to the extraction of the graph. *)
Definition extraction : M json :=
  GenerateTable.configure_llm ;;; GenerateTable.export_model_to_json ;;;
  GenerateTable.get_structured_model_data.

(** [c] leaves the files, the requests and the client as it found
    them. *)
Definition reads_only {A} (c : M A) : Prop :=
  forall w st,
    files (fst (c w st)) = files st
    /\ requests (fst (c w st)) = requests st
    /\ client (fst (c w st)) = client st.

(** The state with the files [f]. *)
Definition put_files (f : fs) (st : State) : State :=
  {| files := f; stdout := stdout st; logs := logs st; client := client st;
     requests := requests st |}.

(** The state with one more request to the service. *)
Definition put_request (data : json) (st : State) : State :=
  {| files := files st; stdout := stdout st; logs := logs st;
     client := client st; requests := (requests st ++ [data])%list |}.

(** The lines [call_openai_llm_for_json] and [save_table] print first. *)
Definition STEP3 : string :=
  "Step 3: Sending request to OpenAI LLM (" ++ GenerateTable.OPENAI_MODEL
  ++ ") for firewall rule generation...".

Definition STEP5 : string :=
  "Step 5: Saving table to " ++ GenerateTable.TABLE_OUTPUT_PATH ++ "...".

(** A world where the export command fails with the exit status 2. *)
Definition world_failed_export : World :=
  {| json_loads := JsonText.loads;
     json_error := fun _ => "Expecting value";
     json_other_error := fun _ => None;
     env_api_key := Some "sk";
     new_client := fun _ => Ok tt;
     mkdir_dist := Ok tt;
     npm_run_export := fun f => (NpmFailed 2 "" "likec4: not found", f);
     chat_completion := fun _ => Ok "{}";
     open_refused := fun _ => None |}.

Definition is_dict (v : json) : bool :=
  match v with
  | JObj _ => true
  | _ => false
  end.

(** The loop body returns for [details]: the entry is an object, its
    'source' and 'target' are objects where present, and the two ids are
    hashable when both are non-empty. *)
Definition relation_ok (details : json) : bool :=
  match endpoint "source" details, endpoint "target" details with
  | Ok s, Ok t =>
      if truthy s && truthy t then hashable s && hashable t else true
  | _, _ => false
  end.

(** The element [element_id] is the source or the target of a
    relationship kept from [relations]. *)
Definition referenced (relations : dict) (element_id : string) : bool :=
  set_mem (JStr element_id)
    (endpoints (flat_map (fun kv => normalized (snd kv)) relations)).

(** The model documents the filter returns a graph for. *)
Definition model_ok (model : json) : bool :=
  match py_get model "elements" (JObj []),
        py_get model "relations" (JObj []) with
  | Ok (JObj all_elements), Ok (JObj relations) =>
      forallb (fun kv => relation_ok (snd kv)) relations
      && forallb (fun kv => negb (referenced relations (fst kv))
                            || is_dict (snd kv)) all_elements
  | _, _ => false
  end.

(** The field [key] of an element, [None] when it has none. *)
Definition field (key : string) (details : dict) : json :=
  match dict_get key details with
  | Some v => v
  | None => JNull
  end.

(** The four fields the filter keeps of an element. *)
Definition kept_fields (details : json) : json :=
  match details with
  | JObj d =>
      JObj [("title", field "title" d); ("kind", field "kind" d);
            ("description", field "description" d);
            ("technology", field "technology" d)]
  | _ => JNull
  end.

(** The entry of 'relations' that gives the relationship [r]: the two
    ids nested under 'model' and the description as the title. *)
Definition relation_entry (r : json) : json :=
  match r with
  | JObj d =>
      JObj [("source", JObj [("model", field "source" d)]);
            ("target", JObj [("model", field "target" d)]);
            ("title", field "description" d)]
  | _ => JNull
  end.

(** A returned graph as a model document, the input of the filter: its
    elements as they are, and its relationships as the entries of
    'relations' under the keys [keys]. *)
Definition as_model (keys : list string) (els : dict) (rels : list json)
  : json :=
  JObj [("elements", JObj els);
        ("relations", JObj (combine keys (map relation_entry rels)))].

(** A relationship as the loop appends it: both ids truthy and
    hashable. *)
Definition kept (r : json) : Prop :=
  exists s t d,
    r = relationship s t d
    /\ truthy s = true /\ truthy t = true
    /\ hashable s = true /\ hashable t = true.

(** The set of ids after the relationships [rels] were appended. *)
Definition involved_after (rels : list json) (inv : pyset) : pyset :=
  fold_left (fun acc r => fold_left (fun a x => set_add x a)
                            (endpoint_ids r) acc) rels inv.

(** The rules of a response: its 'rules', the empty list when it has
    none. *)
Definition rules_of (response : dict) : json :=
  match dict_get "rules" response with
  | Some rules => rules
  | None => JArr []
  end.

(** The table of the static path for the rules [ds]. *)
Definition static_table (ds : list dict) : string :=
  GenerateTable.header ++ GenerateTable.separator
  ++ String.concat nl (map (fun r => format_row (static_cells r)) ds) ++ nl.

(** The table of the live path for the rules [ds]. *)
Definition live_table (ds : list dict) : string :=
  String.concat nl
    (McpClient.md_head ++ map (fun r => format_row (live_cells r)) ds)%list.

(** The loop body returns for [node]: the node is an object, its
    'represents' is an object where present, and its identifier is
    hashable when the node gets an element. *)
Definition node_ok (node : json) : bool :=
  match py_get node "id" JNull,
        (rep <- py_get node "represents" (JObj []) ;;
         py_get rep "element" JNull) with
  | Ok elem_id, Ok represents =>
      if truthy elem_id && truthy represents then hashable elem_id else true
  | _, _ => false
  end.

(** The parsed views [parse_c4_view] returns a graph for. *)
Definition view_ok (view : json) : bool :=
  match (n <- py_get view "nodes" (JArr []) ;; py_iter n) with
  | Ok nodes => forallb node_ok nodes
  | Raise _ => false
  end.

(** [elements[k]] *)
Fixpoint elements_get (k : json) (els : list (json * json)) : option json :=
  match els with
  | [] => None
  | (k', v) :: els' => if key_eqb k k' then Some v else elements_get k els'
  end.

(** A printable ASCII character or a line break. *)
Definition plain_char (c : ascii) : bool :=
  let n := N_of_ascii c in ((n =? 10) || (32 <=? n) && (n <=? 126))%N.

(** A text of printable ASCII characters and line breaks. *)
Fixpoint plain (s : string) : bool :=
  match s with
  | EmptyString => true
  | String c s' => plain_char c && plain s'
  end.

(** The five fields a printed rule needs. *)
Definition complete (rule : dict) : bool :=
  forallb (fun key => match dict_get key rule with
                      | Some _ => true
                      | None => false
                      end)
    ["source"; "target"; "protocol"; "port"; "purpose"].

(** A session that gives [text] for the view, and a service that
    answers [answer]. *)
Definition sample_live (text answer : string) : McpClientMain.Live :=
  {| McpClientMain.connect := Ok tt;
     McpClientMain.call_tool := Ok [text];
     McpClientMain.firewall_completion := fun _ => Ok answer;
     McpClientMain.banner_view := "Simplified Firewall View Content:";
     McpClientMain.banner_parsed := "Parsed Elements and Relationships:";
     McpClientMain.banner_rules := "Generated Firewall Rules:";
     McpClientMain.received := "JSON response received from OpenAI.";
     McpClientMain.arrow := "->";
     McpClientMain.dash := "-" |}.

(** The file [main] writes for the output name [output]: lines 192-193
    and 228. *)
Definition model_path (output : string) : string :=
  if GenerateModels.endswith ".c4" (GenerateModels.join_src output)
  then GenerateModels.join_src output
  else GenerateModels.join_src output ++ ".c4".

Definition UNEXPECTED : string := "An unexpected error occurred: ".

Definition SAVED : string := "Successfully saved LikeC4 model to ".

(** A service that is out of reach for every prompt. *)
Definition service_down : GenerateModels.Service :=
  {| GenerateModels.create :=
       fun _ => Raise (mk_exn "TimeoutError" "timed out");
     GenerateModels.makedirs_refused := fun _ => None |}.

Definition EDITING : string := "An unexpected error occurred during editing: ".

Definition PROCESSING : string :=
  "An unexpected error occurred while processing the response: ".

(** An editor whose service is out of reach. *)
Definition editor_down : EditC4Model.Editor :=
  {| EditC4Model.create :=
       fun _ _ => Raise (mk_exn "TimeoutError" "timed out");
     EditC4Model.read_refused := fun _ => None;
     EditC4Model.makedirs_refused := fun _ => None;
     EditC4Model.hourglass := "...";
     EditC4Model.check_mark := "[ok]";
     EditC4Model.cross_mark := "[x]" |}.

(** A state with one model, in [src/shop.c4]. *)
Definition state_with_model : State :=
  put_files [("src/shop.c4", "model { }")] initial_state.

(** * Properties *)

(** ** Sets and dictionaries *)

Lemma key_eqb_str (k : string) (y : json) :
  key_eqb (JStr k) y = true <-> y = JStr k.
Proof.
  destruct y; simpl; split; intro H; try discriminate.
  - apply String.eqb_eq in H. now subst.
  - injection H as ->. apply String.eqb_refl.
Qed.

Lemma set_mem_str (k : string) (s : pyset) :
  set_mem (JStr k) s = true <-> In (JStr k) s.
Proof.
  unfold set_mem. rewrite existsb_exists. split.
  - intros [y [Hin Hy]]. apply key_eqb_str in Hy. now subst.
  - intro Hin. exists (JStr k). split; [assumption | now apply key_eqb_str].
Qed.

Lemma in_set_add_str (k : string) (y : json) (s : pyset) :
  In (JStr k) (set_add y s) <-> JStr k = y \/ In (JStr k) s.
Proof.
  unfold set_add. destruct (set_mem y s) eqn:Hy.
  - split; [now right | intros [<- | H]; [now apply set_mem_str | assumption]].
  - rewrite in_app_iff. simpl. intuition.
Qed.

Module GenerateTableFacts.
Import GenerateTable.

(** *** The relations loop *)

Lemma endpoints_app (a b : list json) :
  endpoints (a ++ b) = (endpoints a ++ endpoints b)%list.
Proof. unfold endpoints. apply flat_map_app. Qed.

Lemma bind_ok {A B} (r : result A) (f : A -> result B) (b : B) :
  bind r f = Ok b -> exists a, r = Ok a /\ f a = Ok b.
Proof. destruct r; simpl; [eauto | discriminate]. Qed.

Lemma relation_step_ok (details : json) (inv rels : list json)
  (inv' rels' : list json) :
  relation_step details (inv, rels) = Ok (inv', rels') ->
  rels' = (rels ++ normalized details)%list
  /\ forall k, In (JStr k) inv' <->
               In (JStr k) inv \/ In (JStr k) (endpoints (normalized details)).
Proof.
  unfold relation_step, normalized, endpoint. intro H.
  apply bind_ok in H as [src [Hsrc H]]. apply bind_ok in H as [s [Hs H]].
  apply bind_ok in H as [tgt [Htgt H]]. apply bind_ok in H as [t [Ht H]].
  rewrite Hsrc, Htgt. simpl. rewrite Hs, Ht.
  destruct (truthy s && truthy t).
  - apply bind_ok in H as [i1 [Hi1 H]]. apply bind_ok in H as [i2 [Hi2 H]].
    apply bind_ok in H as [d [Hd H]]. rewrite Hd. injection H as <- <-.
    split; [reflexivity |]. intro k.
    unfold py_set_add in Hi1, Hi2.
    destruct (hashable s); [| discriminate]. injection Hi1 as <-.
    destruct (hashable t); [| discriminate]. injection Hi2 as <-.
    rewrite !in_set_add_str. simpl. intuition.
  - injection H as <- <-. rewrite app_nil_r. split; [reflexivity |].
    intro k. simpl. intuition.
Qed.

Lemma relations_loop_ok (items : list (string * json)) :
  forall inv rels inv' rels',
    relations_loop items (inv, rels) = Ok (inv', rels') ->
    let kept := flat_map (fun kv => normalized (snd kv)) items in
    rels' = (rels ++ kept)%list
    /\ forall k, In (JStr k) inv' <->
                 In (JStr k) inv \/ In (JStr k) (endpoints kept).
Proof.
  induction items as [| [rid details] items IH]; simpl; intros inv rels inv' rels' H.
  - injection H as <- <-. rewrite app_nil_r. split; [reflexivity |]. intuition.
  - apply bind_ok in H as [[inv1 rels1] [H1 H]].
    apply relation_step_ok in H1 as [-> Hinv1].
    apply IH in H as [-> Hinv']. split.
    + now rewrite app_assoc.
    + intro k. rewrite Hinv', Hinv1, endpoints_app, in_app_iff. intuition.
Qed.

Lemma filter_elements_keys (items : list (string * json)) (inv : pyset) :
  forall els, filter_elements items inv = Ok els ->
    dict_keys els =
    filter (fun k => set_mem (JStr k) inv) (dict_keys items).
Proof.
  induction items as [| [k details] items IH]; simpl; intros els H.
  - now injection H as <-.
  - destruct (set_mem (JStr k) inv).
    + apply bind_ok in H as [e [He H]]. apply bind_ok in H as [es [Hes H]].
      injection H as <-. simpl. f_equal. now apply IH.
    + now apply IH.
Qed.

(** The filter succeeded: what it read and what it returns. *)
Lemma filter_parts_ok (model : json) (els : dict) (rels : list json) :
  filter_parts model = Ok (els, rels) ->
  exists all_elements relations inv,
    py_get model "elements" (JObj []) = Ok (JObj all_elements)
    /\ py_get model "relations" (JObj []) = Ok (JObj relations)
    /\ rels = flat_map (fun kv => normalized (snd kv)) relations
    /\ (forall k, In (JStr k) inv <-> In (JStr k) (endpoints rels))
    /\ filter_elements all_elements inv = Ok els.
Proof.
  unfold filter_parts. intro H.
  apply bind_ok in H as [ae [Hae H]]. apply bind_ok in H as [re [Hre H]].
  apply bind_ok in H as [ri [Hri H]]. apply bind_ok in H as [[inv rels0] [Hloop H]].
  apply bind_ok in H as [ei [Hei H]]. apply bind_ok in H as [fe [Hfe H]].
  injection H as <- <-.
  destruct re; try discriminate. injection Hri as <-.
  destruct ae; try discriminate. injection Hei as <-.
  apply relations_loop_ok in Hloop as [Hrels Hinv]. simpl in Hrels, Hinv.
  exists m0, m, inv. repeat split; try assumption.
  - intro Hk. apply Hinv in Hk as [[] | Hk]. now rewrite Hrels.
  - intro Hk. apply Hinv. right. now rewrite Hrels in Hk.
Qed.

Lemma filter_model_ok (model : json) (els : dict) (rels : list json) :
  filter_model model = Ok (graph els rels) ->
  filter_parts model = Ok (els, rels).
Proof.
  unfold filter_model. intro H. apply bind_ok in H as [[els0 rels0] [H0 H]].
  simpl in H. unfold graph in H. now injection H as <- <-.
Qed.

(** C2, as stated, fails: the relationship A -> B is kept although B is
    not an element, so B is an endpoint that is no element key. *)
Lemma dangling_relationship_is_kept :
  filter_model model_dangling
  = Ok (graph [("A", element "Network ID: 10.0.0.1")]
          [relationship (JStr "A") (JStr "B") (JStr "calls (TCP 8443)")])
  /\ In (JStr "B")
       (endpoints
          [relationship (JStr "A") (JStr "B") (JStr "calls (TCP 8443)")])
  /\ ~ In "B" (dict_keys [("A", element "Network ID: 10.0.0.1")]).
Proof.
  split; [reflexivity | split].
  - simpl. auto.
  - simpl. intros [H | []]. discriminate.
Qed.

(** C2, amended: the filter keeps of every entry of [relations] what
    [normalized] gives - an entry is dropped only when its source or
    target id is missing or empty - and the filtered element keys are the
    keys of the model's elements that are the source or target of a kept
    relationship. *)
Theorem filter_keeps_referenced_elements (model : json) (els : dict)
  (rels : list json) :
  filter_model model = Ok (graph els rels) ->
  exists all_elements relations,
    py_get model "elements" (JObj []) = Ok (JObj all_elements)
    /\ py_get model "relations" (JObj []) = Ok (JObj relations)
    /\ rels = flat_map (fun kv => normalized (snd kv)) relations
    /\ forall k, In k (dict_keys els) <->
                 In k (dict_keys all_elements) /\ In (JStr k) (endpoints rels).
Proof.
  intro H. apply filter_model_ok, filter_parts_ok in H
    as (all_elements & relations & inv & Hae & Hre & Hrels & Hinv & Hfe).
  exists all_elements, relations. repeat split; try assumption.
  - apply filter_elements_keys in Hfe. rewrite Hfe in H.
    now apply filter_In in H.
  - apply filter_elements_keys in Hfe. rewrite Hfe in H.
    apply filter_In in H as [_ H]. now apply Hinv, set_mem_str.
  - intros [Hk He]. apply filter_elements_keys in Hfe. rewrite Hfe.
    apply filter_In. split; [assumption |]. now apply set_mem_str, Hinv.
Qed.

Lemma filter_keeps_referenced_elements_witness :
  filter_model model_abc
  = Ok (graph [("A", element "Network ID: 10.0.0.1");
               ("B", element "Network ID: 10.0.0.2")]
          [relationship (JStr "A") (JStr "B") (JStr "calls (TCP 8443)")])
  /\ exists all_elements relations,
      py_get model_abc "elements" (JObj []) = Ok (JObj all_elements)
      /\ py_get model_abc "relations" (JObj []) = Ok (JObj relations)
      /\ [relationship (JStr "A") (JStr "B") (JStr "calls (TCP 8443)")]
         = flat_map (fun kv => normalized (snd kv)) relations
      /\ forall k,
          In k (dict_keys [("A", element "Network ID: 10.0.0.1");
                           ("B", element "Network ID: 10.0.0.2")]) <->
          In k (dict_keys all_elements)
          /\ In (JStr k)
               (endpoints
                  [relationship (JStr "A") (JStr "B")
                     (JStr "calls (TCP 8443)")]).
Proof.
  split; [reflexivity |].
  apply (filter_keeps_referenced_elements model_abc). reflexivity.
Defined.

Lemma relation_step_kept (details : json) (inv rels inv' rels' : list json) :
  relation_step details (inv, rels) = Ok (inv', rels') ->
  exists new,
    rels' = (rels ++ new)%list /\ Forall kept new
    /\ inv' = involved_after new inv.
Proof.
  unfold relation_step. intro H.
  apply bind_ok in H as [src [Hsrc H]]. apply bind_ok in H as [s [Hs H]].
  apply bind_ok in H as [tgt [Htgt H]]. apply bind_ok in H as [t [Ht H]].
  destruct (truthy s && truthy t) eqn:E.
  - apply andb_prop in E as [E1 E2].
    apply bind_ok in H as [i1 [Hi1 H]]. apply bind_ok in H as [i2 [Hi2 H]].
    apply bind_ok in H as [d [Hd H]]. injection H as <- <-.
    unfold py_set_add in Hi1, Hi2.
    destruct (hashable s) eqn:H1; [| discriminate].
    destruct (hashable t) eqn:H2; [| discriminate].
    injection Hi1 as <-. injection Hi2 as <-.
    exists [relationship s t d]. split; [reflexivity |]. split.
    + constructor; [| constructor]. exists s, t, d. auto.
    + reflexivity.
  - injection H as <- <-. exists []. rewrite app_nil_r. auto.
Qed.

Lemma involved_after_app (a b : list json) (inv : pyset) :
  involved_after (a ++ b) inv = involved_after b (involved_after a inv).
Proof. unfold involved_after. apply fold_left_app. Qed.

Lemma relations_loop_kept (items : list (string * json)) :
  forall inv rels inv' rels',
    relations_loop items (inv, rels) = Ok (inv', rels') ->
    exists new,
      rels' = (rels ++ new)%list /\ Forall kept new
      /\ inv' = involved_after new inv.
Proof.
  induction items as [| [rid details] items IH]; simpl;
    intros inv rels inv' rels' H.
  - injection H as <- <-. exists []. rewrite app_nil_r. auto.
  - apply bind_ok in H as [[inv1 rels1] [H1 H]].
    apply relation_step_kept in H1 as (n1 & -> & F1 & ->).
    apply IH in H as (n2 & -> & F2 & ->).
    exists (n1 ++ n2)%list. rewrite app_assoc, involved_after_app.
    split; [reflexivity |]. split; [| reflexivity].
    apply Forall_app. auto.
Qed.

(** The loop over the entries made of kept relationships appends these
    relationships again and adds their ids. *)
Lemma relations_loop_entries (new : list json) :
  Forall kept new ->
  forall keys inv rels,
    length keys = length new ->
    relations_loop (combine keys (map relation_entry new)) (inv, rels)
    = Ok (involved_after new inv, (rels ++ new)%list).
Proof.
  induction 1 as [| r new (s & t & d & -> & Hs & Ht & H1 & H2) _ IH];
    intros keys inv rels Hlen.
  - destruct keys; [| discriminate]. cbn. now rewrite app_nil_r.
  - destruct keys as [| k keys]; [discriminate |]. injection Hlen as Hlen.
    cbn [map combine relations_loop].
    assert (Hstep : relation_step (relation_entry (relationship s t d))
                      (inv, rels)
                    = Ok (set_add t (set_add s inv),
                          (rels ++ [relationship s t d])%list)).
    { unfold relation_step. cbn. rewrite Hs, Ht. cbn.
      unfold py_set_add. rewrite H1, H2. reflexivity. }
    rewrite Hstep. cbn [bind]. rewrite (IH keys _ _ Hlen).
    now rewrite <- app_assoc.
Qed.

Lemma element_entry_fixed (details e : json) :
  element_entry details = Ok e -> element_entry e = Ok e.
Proof.
  unfold element_entry. intro H.
  apply bind_ok in H as [t [_ H]]. apply bind_ok in H as [k [_ H]].
  apply bind_ok in H as [d [_ H]]. apply bind_ok in H as [c [_ H]].
  injection H as <-. reflexivity.
Qed.

(** The elements the filter kept are kept again, as they are. *)
Lemma filter_elements_fixed (items : list (string * json)) (inv : pyset) :
  forall els, filter_elements items inv = Ok els ->
              filter_elements els inv = Ok els.
Proof.
  induction items as [| [k details] items IH]; simpl; intros els H.
  - now injection H as <-.
  - destruct (set_mem (JStr k) inv) eqn:E; [| now apply IH].
    apply bind_ok in H as [e [He H]]. apply bind_ok in H as [es [Hes H]].
    injection H as <-. simpl. rewrite E.
    rewrite (element_entry_fixed _ _ He). simpl.
    now rewrite (IH _ Hes).
Qed.

(** C5: the filter is idempotent.  A graph the filter returned, given
    back to it as a model document - its elements, and its
    relationships as the entries of 'relations', under any keys - is
    returned again: the same element mapping and the same relationship
    list. *)
Theorem filter_is_idempotent (model : json) (els : dict) (rels : list json)
  (keys : list string) :
  filter_model model = Ok (graph els rels) ->
  length keys = length rels ->
  filter_model (as_model keys els rels) = Ok (graph els rels).
Proof.
  intros H Hlen. apply filter_model_ok in H. unfold filter_parts in H.
  apply bind_ok in H as [ae [Hae H]]. apply bind_ok in H as [re [Hre H]].
  apply bind_ok in H as [ri [Hri H]].
  apply bind_ok in H as [[inv rels0] [Hloop H]].
  apply bind_ok in H as [ei [Hei H]]. apply bind_ok in H as [fe [Hfe H]].
  injection H as <- <-.
  apply relations_loop_kept in Hloop as (new & -> & Hkept & ->).
  cbn [app] in *.
  unfold filter_model, filter_parts.
  change (py_get (as_model keys fe new) "elements" (JObj []))
    with (@Ok json (JObj fe)).
  change (py_get (as_model keys fe new) "relations" (JObj []))
    with (@Ok json (JObj (combine keys (map relation_entry new)))).
  cbn [bind py_items].
  pose proof (relations_loop_entries new Hkept keys [] [] Hlen) as R.
  unfold pyset in *. rewrite R. clear R.
  cbn [bind app]. rewrite (filter_elements_fixed _ _ _ Hfe). reflexivity.
Qed.

Lemma filter_is_idempotent_witness :
  filter_model
    (as_model ["r1"]
       [("A", element "Network ID: 10.0.0.1");
        ("B", element "Network ID: 10.0.0.2")]
       [relationship (JStr "A") (JStr "B") (JStr "calls (TCP 8443)")])
  = Ok (graph [("A", element "Network ID: 10.0.0.1");
               ("B", element "Network ID: 10.0.0.2")]
          [relationship (JStr "A") (JStr "B") (JStr "calls (TCP 8443)")]).
Proof.
  apply (filter_is_idempotent model_abc); reflexivity.
Defined.

(** C10: a relation entry with both ids and no 'title' is kept with the
    description 'No description'. *)
Theorem untitled_relation_description (model : json) (els : dict)
  (rels : list json) (relations : dict) (rel_id : string) (details : dict)
  (source_id target_id : json) :
  filter_model model = Ok (graph els rels) ->
  py_get model "relations" (JObj []) = Ok (JObj relations) ->
  In (rel_id, JObj details) relations ->
  endpoint "source" (JObj details) = Ok source_id ->
  endpoint "target" (JObj details) = Ok target_id ->
  truthy source_id = true ->
  truthy target_id = true ->
  dict_get "title" details = None ->
  In (relationship source_id target_id (JStr "No description")) rels.
Proof.
  intros H Hre Hin Hs Ht Hts Htt Htitle.
  apply filter_model_ok, filter_parts_ok in H
    as (ae & re & inv & _ & Hre' & Hrels & _ & _).
  rewrite Hre in Hre'. injection Hre' as <-. rewrite Hrels.
  apply in_flat_map. exists (rel_id, JObj details). split; [assumption |].
  simpl. unfold normalized. rewrite Hs, Ht, Hts, Htt. simpl.
  rewrite Htitle. now left.
Qed.

Lemma untitled_relation_description_witness :
  filter_model model_untitled
  = Ok (graph [("A", element "a"); ("B", element "b")]
          [relationship (JStr "A") (JStr "B") (JStr "No description")])
  /\ In (relationship (JStr "A") (JStr "B") (JStr "No description"))
       [relationship (JStr "A") (JStr "B") (JStr "No description")].
Proof.
  split; [reflexivity |].
  apply (untitled_relation_description model_untitled
           [("A", element "a"); ("B", element "b")] _
           [("r1", relation "A" "B" [])] "r1"
           [("source", JObj [("model", JStr "A")]);
            ("target", JObj [("model", JStr "B")])]);
    try reflexivity.
  simpl. now left.
Defined.

End GenerateTableFacts.

(** ** The tables *)

Lemma py_get_cell (placeholder key : string) (rule : dict) :
  py_get (JObj rule) key (JStr placeholder)
  = Ok (match dict_get key rule with
        | Some x => x
        | None => JStr placeholder
        end)
  /\ py_str (match dict_get key rule with
             | Some x => x
             | None => JStr placeholder
             end) = cell placeholder key rule.
Proof.
  split; [reflexivity |]. unfold cell. now destruct (dict_get key rule).
Qed.

Lemma table_cells_static (rule : dict) :
  GenerateTable.table_cells (JObj rule) = Ok (static_cells rule).
Proof.
  unfold GenerateTable.table_cells, static_cells. simpl.
  now rewrite !(proj2 (py_get_cell "N/A" _ rule)).
Qed.

Lemma table_rows_static (rules : list dict) :
  GenerateTable.table_rows (map JObj rules)
  = Ok (map (fun r => format_row (static_cells r)) rules).
Proof.
  induction rules as [| r rules IH]; [reflexivity |].
  cbn [map GenerateTable.table_rows]. unfold GenerateTable.table_row.
  rewrite table_cells_static, IH. reflexivity.
Qed.

Lemma md_cells_live (rule : dict) :
  McpClient.md_cells (JObj rule) = Ok (live_cells rule).
Proof.
  unfold McpClient.md_cells, live_cells. simpl.
  now rewrite !(proj2 (py_get_cell "" _ rule)).
Qed.

Lemma md_rows_live (rules : list dict) :
  McpClient.md_rows (map JObj rules)
  = Ok (map (fun r => format_row (live_cells r)) rules).
Proof.
  induction rules as [| r rules IH]; [reflexivity |].
  cbn [map McpClient.md_rows]. unfold McpClient.md_line.
  rewrite md_cells_live, IH. reflexivity.
Qed.





(** ** The live parser *)

Module McpClientFacts.
Import McpClient.

Lemma elements_set_live (k i t : json) (els : list (json * json)) :
  all_live_elements els ->
  all_live_elements (elements_set k (live_element i t) els).
Proof.
  unfold all_live_elements.
  induction els as [| [k' v'] els IH]; simpl; intro H.
  - constructor; [simpl; eauto | constructor].
  - inversion H as [| ? ? Hv Hels]; subst.
    destruct (key_eqb k k'); constructor; simpl; eauto.
Qed.

Lemma node_step_live (node : json) (els els' : list (json * json)) :
  node_step node els = Ok els' ->
  all_live_elements els -> all_live_elements els'.
Proof.
  unfold node_step. intros H Hels.
  apply GenerateTableFacts.bind_ok in H as [i [_ H]].
  apply GenerateTableFacts.bind_ok in H as [t [_ H]].
  apply GenerateTableFacts.bind_ok in H as [rep [_ H]].
  apply GenerateTableFacts.bind_ok in H as [r [_ H]].
  destruct (truthy i && truthy r).
  - destruct (hashable i); [| discriminate]. injection H as <-.
    now apply elements_set_live.
  - now injection H as <-.
Qed.

Lemma nodes_loop_live (nodes : list json) :
  forall els els',
    nodes_loop nodes els = Ok els' ->
    all_live_elements els -> all_live_elements els'.
Proof.
  induction nodes as [| node nodes IH]; simpl; intros els els' H Hels.
  - now injection H as <-.
  - apply GenerateTableFacts.bind_ok in H as [els1 [H1 H]].
    eapply IH; [eassumption |]. eapply node_step_live; eassumption.
Qed.

Lemma key_eqb_refl (a : json) : hashable a = true -> key_eqb a a = true.
Proof.
  destruct a as [| [] | x | x | |]; cbn; try discriminate; try reflexivity;
    intros _; [apply Z.eqb_refl | apply String.eqb_refl].
Qed.

Lemma elements_set_in (k v : json) (els : list (json * json)) :
  forall k' e, In (k', e) (elements_set k v els) ->
    e = v \/ In (k', e) els.
Proof.
  induction els as [| [k0 v0] els IH]; cbn; intros k' e H.
  - destruct H as [[= <- <-] | []]. now left.
  - destruct (key_eqb k k0).
    + destruct H as [[= <- <-] | H]; [now left | right; now right].
    + destruct H as [H | H]; [right; now left |].
      apply IH in H as [H | H]; [now left | right; now right].
Qed.

Lemma elements_set_has (k v : json) (els : list (json * json)) :
  hashable k = true ->
  exists k' e, In (k', e) (elements_set k v els) /\ key_eqb k k' = true.
Proof.
  intro Hk. induction els as [| [k0 v0] els IH]; cbn.
  - exists k, v. split; [now left | now apply key_eqb_refl].
  - destruct (key_eqb k k0) eqn:E.
    + exists k0, v. split; [now left | assumption].
    + destruct IH as (k' & e & Hin & He). exists k', e.
      split; [now right | assumption].
Qed.

Lemma elements_set_keeps (k v : json) (els : list (json * json)) :
  forall k0 e0, In (k0, e0) els ->
    exists e, In (k0, e) (elements_set k v els).
Proof.
  induction els as [| [k1 v1] els IH]; cbn; intros k0 e0 H; [contradiction |].
  destruct (key_eqb k k1).
  - destruct H as [[= -> ->] | H]; [exists v; now left | exists e0; now right].
  - destruct H as [[= -> ->] | H]; [exists e0; now left |].
    destruct (IH _ _ H) as [e He]. exists e. now right.
Qed.

Lemma node_step_elements (node : json) (seen : list json)
  (els els' : list (json * json)) :
  node_step node els = Ok els' ->
  elements_of_nodes seen els -> elements_of_nodes (seen ++ [node]) els'.
Proof.
  unfold node_step, elements_of_nodes, node_element, node_key.
  intros H [Hfrom Hto].
  apply GenerateTableFacts.bind_ok in H as [i [Hi H]].
  apply GenerateTableFacts.bind_ok in H as [t [Ht H]].
  apply GenerateTableFacts.bind_ok in H as [rep [Hrep H]].
  apply GenerateTableFacts.bind_ok in H as [r [Hr H]].
  assert (Hne : node_element node
                = if truthy i && truthy r then Some (live_element i t)
                  else None).
  { unfold node_element. rewrite Hi, Ht, Hrep. cbn [bind]. now rewrite Hr. }
  unfold node_element, node_key in Hne.
  destruct (truthy i && truthy r).
  - destruct (hashable i) eqn:Hh; [| discriminate]. injection H as <-.
    split.
    + intros k e Hin. apply elements_set_in in Hin as [-> | Hin].
      * exists node. split; [apply in_or_app; right; now left | exact Hne].
      * destruct (Hfrom _ _ Hin) as (n & Hn & He). exists n.
        split; [apply in_or_app; now left | exact He].
    + intros n e Hn He. apply in_app_or in Hn as [Hn | [<- | []]].
      * destruct (Hto _ _ Hn He) as (k & e' & Hin & Hk).
        destruct (elements_set_keeps i (live_element i t) els _ _ Hin)
          as [e2 He2].
        exists k, e2. split; assumption.
      * rewrite Hi.
        destruct (elements_set_has i (live_element i t) els Hh)
          as (k & e' & Hin & Hk).
        exists k, e'. split; assumption.
  - injection H as <-. split.
    + intros k e Hin. destruct (Hfrom _ _ Hin) as (n & Hn & He). exists n.
      split; [apply in_or_app; now left | exact He].
    + intros n e Hn He. apply in_app_or in Hn as [Hn | [<- | []]].
      * exact (Hto _ _ Hn He).
      * rewrite Hne in He. discriminate.
Qed.

Lemma nodes_loop_elements (nodes : list json) :
  forall seen els els',
    nodes_loop nodes els = Ok els' ->
    elements_of_nodes seen els -> elements_of_nodes (seen ++ nodes) els'.
Proof.
  induction nodes as [| node nodes IH]; simpl; intros seen els els' H Hels.
  - injection H as <-. now rewrite app_nil_r.
  - apply GenerateTableFacts.bind_ok in H as [els1 [H1 H]].
    replace (seen ++ node :: nodes)%list
      with ((seen ++ [node]) ++ nodes)%list
      by (rewrite <- app_assoc; reflexivity).
    eapply IH; [eassumption |]. eapply node_step_elements; eassumption.
Qed.

(** What [parse_c4_view] did when it returned a graph. *)
Lemma parse_c4_view_ok (w : World) (st st' : State) (text : string)
  (g : LiveGraph) :
  parse_c4_view text w st = (st', Ok g) ->
  (json_loads w text = None
   /\ g = {| elements := []; relationships := [] |})
  \/ exists view nodes els,
      json_loads w text = Some view
      /\ (n <- py_get view "nodes" (JArr []) ;; py_iter n) = Ok nodes
      /\ nodes_loop nodes [] = Ok els
      /\ g = {| elements := els; relationships := [] |}.
Proof.
  unfold parse_c4_view, load_view, mbind, try_except_if, loads, ask, lift,
    log, ret, raise.
  cbn. destruct (json_loads w text) as [view |]; cbn.
  - destruct (py_get view "nodes" (JArr [])) as [n | e] eqn:Hn; cbn;
      [| discriminate].
    destruct (py_iter n) as [nodes | e] eqn:Hnodes; cbn; [| discriminate].
    destruct (nodes_loop nodes []) as [els | e] eqn:Hloop; cbn;
      [| discriminate].
    intro H; inversion H; subst; clear H. right.
    exists view, nodes, els. repeat split; try assumption.
    rewrite Hn. exact Hnodes.
  - destruct (isinstance_JSONDecodeError (loads_error w text));
      intro H; inversion H; subst; clear H. now left.
Qed.

(** C4: the graph the live parser returns has no relationship; every
    element in it has the kind "unknown", the empty description and no
    technology; and its elements are those of the nodes of the view that
    have both an identifier and a resolved 'represents' reference. *)
Theorem live_graph_elements (w : World) (st st' : State) (text : string)
  (g : LiveGraph) :
  parse_c4_view text w st = (st', Ok g) ->
  relationships g = []
  /\ (forall k e, In (k, e) (elements g) ->
        exists m, e = JObj m
          /\ dict_get "kind" m = Some (JStr "unknown")
          /\ dict_get "description" m = Some (JStr "")
          /\ dict_get "technology" m = None)
  /\ (forall view nodes,
        json_loads w text = Some view ->
        (n <- py_get view "nodes" (JArr []) ;; py_iter n) = Ok nodes ->
        elements_of_nodes nodes (elements g)).
Proof.
  intro H. apply parse_c4_view_ok in H
    as [[Hnone ->] | (view & nodes & els & Hview & Hnodes & Hloop & ->)];
    cbn [relationships elements].
  - split; [reflexivity | split]; [intros k e [] |].
    intros view nodes Hview. rewrite Hnone in Hview. discriminate.
  - split; [reflexivity | split].
    + intros k e Hin.
      pose proof (nodes_loop_live nodes [] els Hloop (Forall_nil _)) as Hels.
      unfold all_live_elements in Hels. rewrite Forall_forall in Hels.
      destruct (Hels _ Hin) as (i & t & He). simpl in He. subst e.
      eexists. split; [reflexivity |]. now repeat split.
    + intros view' nodes' Hview' Hnodes'.
      rewrite Hview in Hview'. injection Hview' as <-.
      rewrite Hnodes in Hnodes'. injection Hnodes' as <-.
      apply (nodes_loop_elements nodes [] [] els Hloop).
      split; [intros k e [] | intros node e []].
Qed.

Lemma live_graph_elements_witness :
  parse_c4_view (json_dumps sample_view) (sample_world None JNull "")
    initial_state
  = (put_log "INFO" "Parsed 1 elements."
       (put_log "INFO" "Parsing view content..." initial_state),
     Ok {| elements := [(JStr "web", live_element (JStr "web") (JStr "Web"))];
           relationships := [] |})
  /\ relationships
       {| elements := [(JStr "web", live_element (JStr "web") (JStr "Web"))];
          relationships := [] |} = [].
Proof.
  split; [vm_compute; reflexivity |].
  apply (live_graph_elements (sample_world None JNull "") initial_state
           (put_log "INFO" "Parsed 1 elements."
              (put_log "INFO" "Parsing view content..." initial_state))
           (json_dumps sample_view)).
  vm_compute. reflexivity.
Defined.

(** A text that [json.loads] rejects with a [JSONDecodeError] gives the
    empty graph, returned and not raised, and the failure is logged as
    an error. *)
Lemma decode_error_gives_empty_graph (w : World) (st : State)
  (text : string) :
  json_loads w text = None ->
  isinstance_JSONDecodeError (loads_error w text) = true ->
  parse_c4_view text w st
  = (put_log "ERROR" "Failed to parse view content as JSON."
       (put_log "INFO" "Parsing view content..." st),
     Ok {| elements := []; relationships := [] |}).
Proof.
  intros H He.
  unfold parse_c4_view, load_view, mbind, try_except_if, loads, ask, log,
    raise.
  cbn. rewrite H. cbn. rewrite He. reflexivity.
Qed.

(** C8: the handler of the parser names [JSONDecodeError] only.  When
    [json.loads] fails on the text with another exception - a
    [RecursionError] for a text nested too deep, a [ValueError] for an
    integer of too many digits - [parse_c4_view] does not return the
    empty graph: it raises that exception, and logs no failure. *)
Theorem parse_failure_can_propagate (w : World) (st : State)
  (text : string) (e : exn) :
  json_loads w text = None ->
  json_other_error w text = Some e ->
  isinstance_JSONDecodeError e = false ->
  parse_c4_view text w st
  = (put_log "INFO" "Parsing view content..." st, Raise e).
Proof.
  intros H Ho He.
  unfold parse_c4_view, load_view, mbind, try_except_if, loads, loads_error,
    ask, log, raise.
  cbn. rewrite H. cbn. rewrite Ho, He. reflexivity.
Qed.

Lemma parse_failure_can_propagate_witness :
  parse_c4_view deep_text world_with_recursion_limit initial_state
  = (put_log "INFO" "Parsing view content..." initial_state,
     Raise RecursionError).
Proof.
  apply (parse_failure_can_propagate world_with_recursion_limit initial_state
           deep_text RecursionError);
    vm_compute; reflexivity.
Defined.

End McpClientFacts.

(** ** The static driver *)

Module DriverFacts.
Import GenerateTable.
Import McpClientFacts.

Lemma quiet_bind {A B} (c : M A) (k : A -> M B) :
  quiet c -> (forall a, quiet (k a)) -> quiet (mbind c k).
Proof.
  intros Hc Hk w st. unfold mbind. specialize (Hc w st).
  destruct (c w st) as [st1 [a | e]]; simpl in *; [| assumption].
  now rewrite Hk.
Qed.

Lemma quiet_print (line : string) : quiet (print line).
Proof. now intros w st. Qed.

Lemma quiet_raise {A} (e : exn) : quiet (@raise A e).
Proof. now intros w st. Qed.

Lemma quiet_ret {A} (a : A) : quiet (ret a).
Proof. now intros w st. Qed.

Lemma quiet_lift {A} (r : result A) : quiet (lift r).
Proof. now intros w st. Qed.

Lemma quiet_loads (text : string) : quiet (loads text).
Proof.
  intros w st. unfold loads, mbind, ask. cbn.
  now destruct (json_loads w text).
Qed.

Lemma quiet_configure_llm : quiet configure_llm.
Proof.
  intros w st. unfold configure_llm, mbind, ask, lift, set_client, print.
  cbn. destruct (env_api_key w) as [[| c k] |]; cbn; try reflexivity.
  now destruct (new_client w (String c k)).
Qed.

Lemma quiet_export_model_to_json : quiet export_model_to_json.
Proof.
  intros w st. unfold export_model_to_json, mbind, ask, lift, get_state,
    set_files, print, raise, ret.
  cbn. destruct (fs_read "package.json" (files st)); cbn; [| reflexivity].
  destruct (mkdir_dist w); cbn; [| reflexivity].
  destruct (npm_run_export w (files st)) as [[stderr | rc out err | e] f];
    cbn; try reflexivity.
  now destruct (stderr =? "")%string.
Qed.

Lemma quiet_get_structured_model_data : quiet get_structured_model_data.
Proof.
  intros w st. unfold get_structured_model_data, mbind, get_state, print,
    raise, lift, ret, loads, ask.
  cbn. destruct (fs_read MODEL_JSON_PATH (files st)) as [text |]; cbn;
    [| reflexivity].
  destruct (json_loads w text) as [model |]; cbn; [| reflexivity].
  destruct (filter_parts model) as [[els rels] | e]; cbn; [| reflexivity].
  now destruct rels.
Qed.

(** C9: [main] returns whatever the stages do; when one of them raises,
    [main] prints the diagnostic with the exception's text and returns. *)
Theorem main_never_raises (w : World) (st : State) :
  snd (main w st) = Ok tt
  /\ (forall st1 e,
         pipeline w st = (st1, Raise e) ->
         main w st
         = (put_line (nl ++ "An error occurred: " ++ exn_msg e) st1, Ok tt))
  /\ (forall st1, pipeline w st = (st1, Ok tt) -> main w st = (st1, Ok tt)).
Proof.
  unfold main, try_except, print.
  destruct (pipeline w st) as [st1 [[] | e]]; simpl.
  - split; [reflexivity | split]; [discriminate | now intros ? [= <-]].
  - split; [reflexivity | split]; [now intros ? ? [= <- <-] | discriminate].
Qed.

Lemma main_never_raises_witness :
  pipeline (sample_world None model_no_relations "") initial_state
  = (initial_state,
     Raise (ValueError
              "OPENAI_API_KEY not found. Please add it to your .env file."))
  /\ main (sample_world None model_no_relations "") initial_state
     = (put_line
          (nl ++ "An error occurred: "
           ++ "OPENAI_API_KEY not found. Please add it to your .env file.")
          initial_state, Ok tt).
Proof.
  split; [reflexivity |].
  apply (proj1 (proj2 (main_never_raises
                         (sample_world None model_no_relations "")
                         initial_state))
           initial_state
           (ValueError
              "OPENAI_API_KEY not found. Please add it to your .env file.")).
  reflexivity.
Defined.

(** C1, as stated, fails: the service answers with an object that has no
    'rules'; nothing is raised, and the table file, absent before, holds
    the text of the renderer. *)
Lemma response_without_rules_is_accepted :
  JsonText.loads "{}" = Some (JObj [])
  /\ dict_get "rules" [] = None
  /\ snd (pipeline (sample_world (Some "sk") model_abc "{}")
            initial_state) = Ok tt
  /\ fs_read TABLE_OUTPUT_PATH (files initial_state) = None
  /\ fs_read TABLE_OUTPUT_PATH
       (files (fst (main (sample_world (Some "sk")
                            model_abc "{}")
                      initial_state)))
     = Some "No rules were generated by the LLM.".
Proof. repeat split; vm_compute; reflexivity. Qed.

(** C1, amended: for a response that is an object without 'rules' the
    renderer raises nothing and returns its fixed text, and lines 195-196
    of [main] write that text to the table file; neither the key nor the
    fields of a rule are checked. *)
Theorem response_without_rules_key (w : World) (st : State)
  (response : dict) :
  dict_get "rules" response = None ->
  markdown_of (JObj response) = Ok "No rules were generated by the LLM."
  /\ (open_refused w TABLE_OUTPUT_PATH = None ->
      exists st',
        (markdown_table <~ format_json_to_markdown (JObj response) ;;
         save_table markdown_table) w st = (st', Ok tt)
        /\ files st'
           = fs_write TABLE_OUTPUT_PATH "No rules were generated by the LLM."
               (files st)).
Proof.
  intro H.
  assert (Hm : markdown_of (JObj response)
               = Ok "No rules were generated by the LLM.").
  { unfold markdown_of. cbn [py_get bind]. rewrite H. reflexivity. }
  split; [assumption |]. intro Hopen.
  unfold format_json_to_markdown, save_table, write_file, mbind, lift, print,
    try_except_if, ask, get_state, set_files.
  rewrite Hm. cbn. rewrite Hopen. cbn.
  eexists. split; reflexivity.
Qed.

Lemma response_without_rules_key_witness :
  markdown_of (JObj [("firewall_rules", JArr [])])
  = Ok "No rules were generated by the LLM.".
Proof.
  apply (response_without_rules_key
           (sample_world None JNull "") initial_state
           [("firewall_rules", JArr [])]).
  reflexivity.
Defined.

(** C3, as stated, fails: with no relationship the run ends with the
    sentinel in the table file and no file at the place of the serialized
    document. *)
Lemma sentinel_is_written_to_the_table_only :
  filter_model model_no_relations = Ok (graph [] [])
  /\ main (sample_world (Some "sk") model_no_relations "") initial_state
     = (put_line "Table saved successfully!"
          (put_line ("Step 5: Saving table to " ++ TABLE_OUTPUT_PATH ++ "...")
             (put_line
                "Execution stopped because no relationships were found in the model."
                (put_line
                   "Warning: No relationships found in the model. The output will be empty."
                   (put_line
                      "Step 2: Parsing and intelligently filtering model.json..."
                      (put_line
                         ("Model exported successfully to " ++ MODEL_JSON_PATH)
                         (put_line
                            "Step 1: Exporting LikeC4 model to JSON via npm script..."
                            (put_line "OpenAI client configured successfully."
                               {| files :=
                                    [("package.json", "{}");
                                     (MODEL_JSON_PATH,
                                      json_dumps model_no_relations);
                                     (TABLE_OUTPUT_PATH, NO_RELATIONSHIPS)];
                                  stdout := []; logs := []; client := true;
                                  requests := [] |}))))))),
        Ok tt)
  /\ fs_read McpClient.JSON_PATH
       [("package.json", "{}");
        (MODEL_JSON_PATH, json_dumps model_no_relations);
        (TABLE_OUTPUT_PATH, NO_RELATIONSHIPS)] = None.
Proof. repeat split; vm_compute; reflexivity. Qed.

(** C3, amended: when the stages up to the extraction return a graph
    without relationships, [main] writes the sentinel to the table file,
    which is the only file it writes, asks the service for nothing and
    returns. *)
Theorem no_relationships_short_circuit (w : World) (st st1 : State)
  (els : dict) :
  (configure_llm ;;; export_model_to_json ;;; get_structured_model_data) w st
  = (st1, Ok (graph els [])) ->
  open_refused w TABLE_OUTPUT_PATH = None ->
  exists st2,
    main w st = (st2, Ok tt)
    /\ files st2 = fs_write TABLE_OUTPUT_PATH NO_RELATIONSHIPS (files st1)
    /\ requests st2 = requests st.
Proof.
  intros H Hopen.
  assert (Hq : requests st1 = requests st).
  { change st1 with (fst (st1, @Ok json (graph els []))). rewrite <- H.
    apply (quiet_bind configure_llm); [apply quiet_configure_llm | intros _].
    apply (quiet_bind export_model_to_json);
      [apply quiet_export_model_to_json | intros _].
    apply quiet_get_structured_model_data. }
  revert H. unfold main, try_except, pipeline, mbind.
  destruct (configure_llm w st) as [sa [[] | e]]; [| discriminate].
  destruct (export_model_to_json w sa) as [sb [[] | e]]; [| discriminate].
  destruct (get_structured_model_data w sb) as [sc [g | e]]; [| discriminate].
  intros [= -> ->].
  unfold save_table, write_file, mbind, lift, print, try_except_if, ask,
    get_state, set_files.
  cbn. rewrite Hopen. cbn.
  eexists. split; [reflexivity | split; [reflexivity | assumption]].
Qed.

Lemma no_relationships_short_circuit_witness :
  exists st2,
    main (sample_world (Some "sk") model_no_relations "") initial_state
    = (st2, Ok tt)
    /\ files st2
       = fs_write TABLE_OUTPUT_PATH NO_RELATIONSHIPS
           [("package.json", "{}");
            (MODEL_JSON_PATH, json_dumps model_no_relations)]
    /\ requests st2 = requests initial_state.
Proof.
  apply (no_relationships_short_circuit
           (sample_world (Some "sk") model_no_relations "") initial_state
           (put_line
              "Warning: No relationships found in the model. The output will be empty."
              (put_line
                 "Step 2: Parsing and intelligently filtering model.json..."
                 (put_line
                    ("Model exported successfully to " ++ MODEL_JSON_PATH)
                    (put_line
                       "Step 1: Exporting LikeC4 model to JSON via npm script..."
                       (put_line "OpenAI client configured successfully."
                          {| files :=
                               [("package.json", "{}");
                                (MODEL_JSON_PATH,
                                 json_dumps model_no_relations)];
                             stdout := []; logs := []; client := true;
                             requests := [] |})))))
           []).
  - vm_compute. reflexivity.
  - reflexivity.
Defined.

End DriverFacts.

(** ** Reading back what json.dumps wrote *)

Module JsonTextFacts.
Import JsonText.

Lemma append_assoc (a b c : string) : (a ++ b) ++ c = a ++ b ++ c.
Proof. induction a as [| x a IH]; simpl; [reflexivity | now rewrite IH]. Qed.

Lemma length_append (a b : string) :
  String.length (a ++ b) = (String.length a + String.length b)%nat.
Proof. induction a as [| x a IH]; simpl; [reflexivity | now rewrite IH]. Qed.

(** *** Strings *)

Lemma read_escape_char (c : ascii) (rest : string) :
  read_string (escape_char c ++ rest) = cons_char c (read_string rest).
Proof.
  destruct c as [[] [] [] [] [] [] [] []]; reflexivity.
Qed.

Lemma read_escape_chars (s rest : string) :
  read_string (escape_chars s ++ String dquote rest) = Some (s, rest).
Proof.
  induction s as [| c s IH]; [reflexivity |].
  cbn [escape_chars]. rewrite append_assoc, read_escape_char, IH.
  reflexivity.
Qed.

Lemma read_encode_string (s rest : string) :
  encode_string s ++ rest = String dquote (escape_chars s ++ String dquote rest).
Proof.
  unfold encode_string. cbn [append]. now rewrite append_assoc.
Qed.

(** *** Integers *)

Lemma follow_ok_digit (rest : string) :
  follow_ok rest = true -> read_uint rest = (Decimal.Nil, rest).
Proof.
  destruct rest as [| c rest]; [reflexivity |]. simpl. intro H.
  apply orb_true_iff in H as [H | H]; apply Ascii.eqb_eq in H; now subst.
Qed.

Lemma follow_ok_real (rest : string) :
  follow_ok rest = true -> real_follows rest = false.
Proof.
  destruct rest as [| c rest]; [reflexivity |]. simpl. intro H.
  apply orb_true_iff in H as [H | H]; apply Ascii.eqb_eq in H; now subst.
Qed.

Lemma read_uint_digits (u : Decimal.uint) (rest : string) :
  follow_ok rest = true ->
  read_uint (NilEmpty.string_of_uint u ++ rest) = (u, rest).
Proof.
  intro H.
  induction u; cbn [NilEmpty.string_of_uint append];
    [now apply follow_ok_digit | ..]; cbn; rewrite IHu; reflexivity.
Qed.

(** The decimal digits of a positive number do not begin with 0. *)
Lemma to_uint_head (p : positive) :
  match Pos.to_uint p with
  | Decimal.Nil | Decimal.D0 _ => False
  | _ => True
  end.
Proof.
  assert (Hn : Decimal.unorm (Pos.to_uint p) = Pos.to_uint p).
  { rewrite <- DecimalPos.Unsigned.to_of, DecimalPos.Unsigned.of_to.
    reflexivity. }
  pose proof (DecimalPos.Unsigned.to_uint_nonzero p) as Hz.
  pose proof (DecimalPos.Unsigned.to_uint_nonnil p) as Hnil.
  destruct (Pos.to_uint p) as [| u | | | | | | | | |]; try exact I;
    [now apply Hnil |].
  rewrite DecimalFacts.unorm_D0 in Hn.
  destruct (Decimal.uint_eq_dec (Decimal.nzhead u) Decimal.Nil) as [E | E].
  - unfold Decimal.unorm in Hn. rewrite E in Hn. now rewrite <- Hn in Hz.
  - rewrite (DecimalFacts.unorm_nzhead _ E) in Hn.
    pose proof (DecimalFacts.nb_digits_nzhead u) as Hle.
    rewrite Hn in Hle. simpl in Hle. lia.
Qed.

Lemma read_nat_pos (p : positive) (rest : string) :
  follow_ok rest = true ->
  read_nat (NilZero.string_of_uint (Pos.to_uint p) ++ rest)
  = Some (Z.pos p, rest)
  /\ read_literal (NilZero.string_of_uint (Pos.to_uint p) ++ rest)
     = Some (JInt (Z.pos p), rest).
Proof.
  intro H.
  assert (Hv : Z.of_uint (Pos.to_uint p) = Z.pos p).
  { unfold Z.of_uint. now rewrite DecimalPos.Unsigned.of_to. }
  pose proof (to_uint_head p) as Hh.
  pose proof (read_uint_digits (Pos.to_uint p) rest H) as Hr.
  pose proof (follow_ok_real rest H) as Hf.
  destruct (Pos.to_uint p) as [| u | u | u | u | u | u | u | u | u | u];
    try contradiction;
    cbn [NilZero.string_of_uint NilEmpty.string_of_uint append] in *;
    unfold read_literal, read_number, read_nat;
    cbn [strip_prefix Ascii.eqb Bool.eqb is_digit];
    (split;
     [ change (is_digit _) with true; cbn match; rewrite Hr, Hf, Hv;
       reflexivity
     | change (is_digit _) with true; cbn match; rewrite Hr, Hf, Hv;
       reflexivity ]).
Qed.

Lemma read_int (z : Z) (rest : string) :
  follow_ok rest = true ->
  read_literal (string_of_Z z ++ rest) = Some (JInt z, rest).
Proof.
  intro H. pose proof (follow_ok_real rest H) as Hf.
  destruct z as [| p | p]; unfold string_of_Z; cbn [Z.to_int NilZero.string_of_int].
  - unfold read_literal, read_number, read_nat. cbn. now rewrite Hf.
  - now apply read_nat_pos.
  - unfold read_literal, read_number. cbn [append strip_prefix Ascii.eqb Bool.eqb].
    cbn match. now rewrite (proj1 (read_nat_pos p rest H)).
Qed.

(** *** The steps of the reader *)

Lemma parse_string_step (f : nat) (r s rest : string) :
  read_string r = Some (s, rest) ->
  parse_value (S f) (String dquote r) = Some (JStr s, rest).
Proof. intro H. cbn. now rewrite H. Qed.

Lemma parse_array_step (f : nat) (r r1 rest : string) (c1 : ascii)
  (vs : list json) :
  skip_ws r = String c1 r1 ->
  Ascii.eqb c1 "]" = false ->
  parse_elements f (String c1 r1) = Some (vs, rest) ->
  parse_value (S f) (String "[" r) = Some (JArr vs, rest).
Proof. intros H1 H2 H3. cbn. now rewrite H1, H2, H3. Qed.

Lemma parse_object_step (f : nat) (r r1 rest : string) (c1 : ascii)
  (pairs : list (string * json)) :
  skip_ws r = String c1 r1 ->
  Ascii.eqb c1 "}" = false ->
  parse_members f (String c1 r1) = Some (pairs, rest) ->
  parse_value (S f) (String "{" r) = Some (JObj (dict_of_pairs pairs), rest).
Proof. intros H1 H2 H3. cbn. now rewrite H1, H2, H3. Qed.

Lemma parse_elements_last (f : nat) (s rest1 rest : string) (v : json) :
  parse_value f s = Some (v, rest1) ->
  skip_ws rest1 = String "]" rest ->
  parse_elements (S f) s = Some ([v], rest).
Proof. intros H1 H2. cbn. now rewrite H1, H2. Qed.

Lemma parse_elements_more (f : nat) (s rest1 r rest : string) (v : json)
  (vs : list json) :
  parse_value f s = Some (v, rest1) ->
  skip_ws rest1 = String "," r ->
  parse_elements f (skip_ws r) = Some (vs, rest) ->
  parse_elements (S f) s = Some (v :: vs, rest).
Proof. intros H1 H2 H3. cbn. now rewrite H1, H2, H3. Qed.

Lemma parse_members_last (f : nat) (r0 key rest0 r1 rest1 rest : string)
  (v : json) :
  read_string r0 = Some (key, rest0) ->
  skip_ws rest0 = String ":" r1 ->
  parse_value f (skip_ws r1) = Some (v, rest1) ->
  skip_ws rest1 = String "}" rest ->
  parse_members (S f) (String dquote r0) = Some ([(key, v)], rest).
Proof. intros H1 H2 H3 H4. cbn. now rewrite H1, H2, H3, H4. Qed.

Lemma parse_members_more (f : nat) (r0 key rest0 r1 rest1 r rest : string)
  (v : json) (ps : list (string * json)) :
  read_string r0 = Some (key, rest0) ->
  skip_ws rest0 = String ":" r1 ->
  parse_value f (skip_ws r1) = Some (v, rest1) ->
  skip_ws rest1 = String "," r ->
  parse_members f (skip_ws r) = Some (ps, rest) ->
  parse_members (S f) (String dquote r0) = Some ((key, v) :: ps, rest).
Proof. intros H1 H2 H3 H4 H5. cbn. now rewrite H1, H2, H3, H4, H5. Qed.

(** *** White space and the first character of a value *)

Lemma skip_ws_value (s : string) : value_start s -> skip_ws s = s.
Proof.
  destruct s as [| c s]; [reflexivity |]. intros [H _]. cbn. now rewrite H.
Qed.

Lemma skip_ws_spaces (n : nat) (s : string) :
  skip_ws (spaces n ++ s) = skip_ws s.
Proof. induction n as [| n IH]; [reflexivity | exact IH]. Qed.

Lemma skip_ws_newline_indent (level : nat) (s : string) :
  skip_ws (newline_indent level ++ s) = skip_ws s.
Proof.
  unfold newline_indent. rewrite append_assoc.
  change (skip_ws (spaces (2 * level) ++ s) = skip_ws s).
  apply skip_ws_spaces.
Qed.

Lemma follow_ok_newline_indent (level : nat) (s : string) :
  follow_ok (newline_indent level ++ s) = true.
Proof. reflexivity. Qed.

Lemma value_start_dumps (level : nat) (v : json) (rest : string) :
  value_start (dumps_at level v ++ rest).
Proof.
  destruct v as [| [] | z | s | [| x l] | [| kv m]];
    try (cbn; repeat split; reflexivity).
  cbn [dumps_at]. unfold string_of_Z.
  destruct z as [| p | p]; try (cbn; repeat split; reflexivity).
  cbn [Z.to_int NilZero.string_of_int]. pose proof (to_uint_head p) as Hh.
  destruct (Pos.to_uint p); try contradiction;
    cbn; repeat split; reflexivity.
Qed.

(** *** Dictionaries with distinct keys *)

Lemma dict_set_fresh (k : string) (v : json) (m : dict) :
  existsb (String.eqb k) (map fst m) = false ->
  dict_set k v m = (m ++ [(k, v)])%list.
Proof.
  induction m as [| [k' v'] m IH]; [reflexivity |]. cbn.
  destruct (k =? k')%string; [discriminate |]. cbn. intro H.
  now rewrite IH.
Qed.

Lemma dict_of_pairs_distinct (pairs acc : list (string * json)) :
  distinct (map fst (acc ++ pairs)) = true ->
  fold_left (fun m kv => dict_set (fst kv) (snd kv) m) pairs acc
  = (acc ++ pairs)%list.
Proof.
  revert acc. induction pairs as [| [k v] pairs IH]; intros acc H.
  - now rewrite app_nil_r.
  - cbn [fold_left fst snd].
    assert (Hk : existsb (String.eqb k) (map fst acc) = false).
    { clear IH. induction acc as [| [k' v'] acc IHa]; [reflexivity |].
      cbn in H. apply andb_true_iff in H as [Hn Hd]. cbn.
      rewrite (IHa Hd), orb_false_r.
      rewrite map_app, existsb_app in Hn. cbn in Hn.
      apply negb_true_iff, orb_false_iff in Hn as [_ Hn].
      apply orb_false_iff in Hn as [Hn _]. now rewrite String.eqb_sym. }
    rewrite (dict_set_fresh _ _ _ Hk), IH; rewrite <- app_assoc; [reflexivity |].
    exact H.
Qed.

Lemma dict_of_pairs_id (m : dict) :
  distinct (map fst m) = true -> dict_of_pairs m = m.
Proof. intro H. unfold dict_of_pairs. now rewrite dict_of_pairs_distinct. Qed.

Lemma parse_literal_step (f : nat) (c : ascii) (r : string) :
  Ascii.eqb c dquote = false /\ Ascii.eqb c "[" = false
  /\ Ascii.eqb c "{" = false ->
  parse_value (S f) (String c r) = read_literal (String c r).
Proof. intros (H1 & H2 & H3). cbn [parse_value]. now rewrite H1, H2, H3. Qed.

Lemma int_start (z : Z) (rest : string) :
  match string_of_Z z ++ rest with
  | String c _ =>
      Ascii.eqb c dquote = false /\ Ascii.eqb c "[" = false
      /\ Ascii.eqb c "{" = false
  | EmptyString => False
  end.
Proof.
  unfold string_of_Z.
  destruct z as [| p | p]; try (cbn; repeat split; reflexivity).
  cbn [Z.to_int NilZero.string_of_int]. pose proof (to_uint_head p) as Hh.
  destruct (Pos.to_uint p); try contradiction;
    cbn; repeat split; reflexivity.
Qed.

(** *** The text of arrays and objects *)

Lemma dumps_items_first (level : nat) (x : string) (r : list string)
  (tail : string) :
  dumps_items level true (x :: r) ++ tail
  = newline_indent level ++ x ++ dumps_items level false r ++ tail.
Proof. cbn [dumps_items append]. now rewrite !append_assoc. Qed.

Lemma dumps_items_next (level : nat) (x : string) (r : list string)
  (tail : string) :
  dumps_items level false (x :: r) ++ tail
  = String "," (newline_indent level ++ x ++ dumps_items level false r ++ tail).
Proof. cbn [dumps_items append]. now rewrite !append_assoc. Qed.

Lemma dumps_array (level : nat) (x : json) (xs : list json) (rest : string) :
  dumps_at level (JArr (x :: xs)) ++ rest
  = String "["
      (newline_indent (S level) ++ dumps_at (S level) x
       ++ dumps_items (S level) false (map (dumps_at (S level)) xs)
       ++ newline_indent level ++ String "]" rest).
Proof.
  cbn [dumps_at map]. cbn [append].
  now rewrite append_assoc, dumps_items_first, append_assoc.
Qed.

Lemma dumps_object (level : nat) (k : string) (x : json) (ps : dict)
  (rest : string) :
  dumps_at level (JObj ((k, x) :: ps)) ++ rest
  = String "{"
      (newline_indent (S level) ++ String dquote
         (escape_chars k ++ String dquote
            (String ":" (String " "
               (dumps_at (S level) x
                ++ dumps_items (S level) false (map (member_text (S level)) ps)
                ++ newline_indent level ++ String "}" rest))))).
Proof.
  cbn [dumps_at map]. cbn [append].
  rewrite append_assoc, dumps_items_first, !append_assoc.
  rewrite read_encode_string. reflexivity.
Qed.

Lemma member_text_next (level : nat) (k : string) (x : json)
  (r : list string) (tail : string) :
  dumps_items level false (member_text level (k, x) :: r) ++ tail
  = String ","
      (newline_indent level ++ String dquote
         (escape_chars k ++ String dquote
            (String ":" (String " "
               (dumps_at level x ++ dumps_items level false r ++ tail))))).
Proof.
  rewrite dumps_items_next. unfold member_text.
  rewrite !append_assoc, read_encode_string. reflexivity.
Qed.

(** *** The round trip *)

Lemma elems_size_cons (x : json) (l : list json) :
  elems_size (x :: l) = S (size x + elems_size l).
Proof. reflexivity. Qed.

Lemma members_size_cons (k : string) (x : json) (m : dict) :
  members_size ((k, x) :: m) = S (size x + members_size m).
Proof. reflexivity. Qed.

Lemma forallb_cons {A} (f : A -> bool) (x : A) (l : list A) :
  forallb f (x :: l) = f x && forallb f l.
Proof. reflexivity. Qed.

Lemma elements_read_back (level : nat) (rest : string) (xs : list json) :
  forall x fuel,
    (forall y, In y (x :: xs) -> reads_back y) ->
    forallb wf_json (x :: xs) = true ->
    (elems_size (x :: xs) <= fuel)%nat ->
    parse_elements fuel
      (dumps_at (S level) x
       ++ dumps_items (S level) false (map (dumps_at (S level)) xs)
       ++ newline_indent level ++ String "]" rest)
    = Some (x :: xs, rest).
Proof.
  induction xs as [| y ys IH]; intros x fuel HP Hwf Hsz;
    rewrite elems_size_cons in Hsz;
    (destruct fuel as [| f]; [lia |]);
    rewrite forallb_cons in Hwf; apply andb_true_iff in Hwf as [Hx Hwf].
  - eapply parse_elements_last.
    + apply HP; [now left | assumption | lia |]. reflexivity.
    + cbn [map dumps_items append]. now rewrite skip_ws_newline_indent.
  - cbn [map]. rewrite dumps_items_next.
    eapply parse_elements_more.
    + apply HP; [now left | assumption | lia |]. reflexivity.
    + reflexivity.
    + rewrite skip_ws_newline_indent, skip_ws_value
        by apply value_start_dumps.
      apply IH.
      * intros z Hz. apply HP. now right.
      * assumption.
      * lia.
Qed.

Lemma members_read_back (level : nat) (rest : string) (ps : dict) :
  forall k x fuel,
    (forall kv, In kv ((k, x) :: ps) -> reads_back (snd kv)) ->
    forallb (fun kv => let '(_, y) := kv in wf_json y) ((k, x) :: ps) = true ->
    (members_size ((k, x) :: ps) <= fuel)%nat ->
    parse_members fuel
      (String dquote
         (escape_chars k ++ String dquote
            (String ":" (String " "
               (dumps_at (S level) x
                ++ dumps_items (S level) false (map (member_text (S level)) ps)
                ++ newline_indent level ++ String "}" rest)))))
    = Some ((k, x) :: ps, rest).
Proof.
  induction ps as [| [k' y] ps IH]; intros k x fuel HP Hwf Hsz;
    rewrite members_size_cons in Hsz;
    (destruct fuel as [| f]; [lia |]);
    rewrite forallb_cons in Hwf; apply andb_true_iff in Hwf as [Hx Hwf].
  - eapply parse_members_last.
    + apply read_escape_chars.
    + reflexivity.
    + change (skip_ws (String " " ?s)) with (skip_ws s).
      rewrite skip_ws_value by apply value_start_dumps.
      apply (HP (k, x)); cbn [snd]; [now left | exact Hx | lia | reflexivity].
    + cbn [map dumps_items append]. now rewrite skip_ws_newline_indent.
  - cbn [map]. rewrite member_text_next.
    eapply parse_members_more.
    + apply read_escape_chars.
    + reflexivity.
    + change (skip_ws (String " " ?s)) with (skip_ws s).
      rewrite skip_ws_value by apply value_start_dumps.
      apply (HP (k, x)); cbn [snd]; [now left | exact Hx | lia | reflexivity].
    + reflexivity.
    + rewrite skip_ws_newline_indent.
      change (skip_ws (String dquote ?s)) with (String dquote s).
      apply IH.
      * intros kv Hkv. apply HP. now right.
      * assumption.
      * lia.
Qed.

Lemma size_in_elems (x : json) (l : list json) :
  In x l -> (size x < S (elems_size l))%nat.
Proof.
  induction l as [| y l IH]; [contradiction |]. rewrite elems_size_cons.
  intros [-> | H]; [lia |]. apply IH in H. lia.
Qed.

Lemma size_in_members (kv : string * json) (m : dict) :
  In kv m -> (size (snd kv) < S (members_size m))%nat.
Proof.
  induction m as [| [k y] m IH]; [contradiction |].
  rewrite members_size_cons.
  intros [<- | H]; [cbn [snd]; lia |]. apply IH in H. lia.
Qed.

Lemma all_read_back (n : nat) : forall v, (size v <= n)%nat -> reads_back v.
Proof.
  induction n as [| n IH]; intros v Hn.
  - destruct v; cbn in Hn; lia.
  - intros level fuel rest Hwf Hsz Hrest.
    destruct v as [| b | z | s | [| x xs] | [| [k x] ps]];
      (destruct fuel as [| f]; [cbn in Hsz; lia |]).
    + reflexivity.
    + now destruct b.
    + cbn [dumps_at]. pose proof (int_start z rest) as Hv.
      rewrite <- (read_int z rest Hrest).
      destruct (string_of_Z z ++ rest) as [| c r]; [contradiction |].
      now apply parse_literal_step.
    + cbn [dumps_at]. rewrite read_encode_string.
      apply parse_string_step, read_escape_chars.
    + reflexivity.
    + rewrite dumps_array.
      assert (He : parse_elements f
                (dumps_at (S level) x
                 ++ dumps_items (S level) false (map (dumps_at (S level)) xs)
                 ++ newline_indent level ++ String "]" rest)
              = Some (x :: xs, rest)).
      { apply elements_read_back.
        - intros y Hy. apply IH. apply size_in_elems in Hy.
          cbn [size] in Hn. fold (elems_size (x :: xs)) in Hn. lia.
        - exact Hwf.
        - cbn [size] in Hsz. fold (elems_size (x :: xs)) in Hsz. lia. }
      pose proof (value_start_dumps (S level) x
                    (dumps_items (S level) false (map (dumps_at (S level)) xs)
                     ++ newline_indent level ++ String "]" rest)) as Hv.
      destruct (dumps_at (S level) x
                ++ dumps_items (S level) false (map (dumps_at (S level)) xs)
                ++ newline_indent level ++ String "]" rest) as [| c1 r1];
        [contradiction |].
      eapply parse_array_step; [| | exact He].
      * rewrite skip_ws_newline_indent. now apply skip_ws_value.
      * apply Hv.
    + reflexivity.
    + rewrite dumps_object.
      cbn [wf_json] in Hwf. apply andb_true_iff in Hwf as [Hd Hwf].
      rewrite <- (dict_of_pairs_id ((k, x) :: ps) Hd).
      eapply parse_object_step.
      * rewrite skip_ws_newline_indent. reflexivity.
      * reflexivity.
      * apply members_read_back.
        -- intros kv Hkv. apply IH. apply size_in_members in Hkv.
           cbn [size] in Hn. fold (members_size ((k, x) :: ps)) in Hn. lia.
        -- exact Hwf.
        -- cbn [size] in Hsz. fold (members_size ((k, x) :: ps)) in Hsz. lia.
Qed.

Lemma append_nil_r (s : string) : s ++ "" = s.
Proof. induction s as [| c s IH]; [reflexivity | cbn; now rewrite IH]. Qed.

(** The text of a value has at least as many characters as the value
    has values. *)
Lemma size_le_length (n : nat) :
  forall v level, (size v <= n)%nat ->
    (size v <= String.length (dumps_at level v))%nat.
Proof.
  induction n as [| n IH]; intros v level Hn.
  - destruct v; cbn in Hn; lia.
  - destruct v as [| b | z | s | l | m].
    + cbn. lia.
    + destruct b; cbn; lia.
    + cbn [size dumps_at]. pose proof (int_start z "") as Hv.
      rewrite append_nil_r in Hv.
      destruct (string_of_Z z); [contradiction | cbn; lia].
    + cbn. lia.
    + cbn [size] in *. fold (elems_size l) in *.
      assert (Hitems : forall first,
                 (elems_size l
                  <= String.length
                       (dumps_items (S level) first
                          (map (dumps_at (S level)) l)))%nat).
      { assert (Hl : forall x, In x l -> (size x <= n)%nat).
        { intros x Hx. apply size_in_elems in Hx. lia. }
        clear Hn. induction l as [| x l IHl]; intro first; [cbn; lia |].
        rewrite elems_size_cons. cbn [map dumps_items].
        rewrite !length_append. unfold newline_indent at 1.
        rewrite length_append. cbn [nl String.length].
        specialize (IHl (fun y Hy => Hl y (or_intror Hy)) false).
        pose proof (IH x (S level) (Hl x (or_introl eq_refl))). lia. }
      destruct l as [| x l]; [cbn; lia |].
      cbn [dumps_at]. rewrite !length_append. cbn [String.length].
      specialize (Hitems true). lia.
    + cbn [size] in *. fold (members_size m) in *.
      assert (Hitems : forall first,
                 (members_size m
                  <= String.length
                       (dumps_items (S level) first
                          (map (member_text (S level)) m)))%nat).
      { assert (Hl : forall kv, In kv m -> (size (snd kv) <= n)%nat).
        { intros kv Hkv. apply size_in_members in Hkv. lia. }
        clear Hn. induction m as [| [k x] m IHm]; intro first; [cbn; lia |].
        rewrite members_size_cons. cbn [map dumps_items member_text].
        rewrite !length_append. unfold newline_indent at 1.
        rewrite length_append. cbn [nl String.length].
        specialize (IHm (fun y Hy => Hl y (or_intror Hy)) false).
        pose proof (IH x (S level) (Hl (k, x) (or_introl eq_refl))). lia. }
      destruct m as [| [k x] m]; [cbn; lia |].
      change (dumps_at level (JObj ((k, x) :: m)))
        with ("{" ++ dumps_items (S level) true
                       (map (member_text (S level)) ((k, x) :: m))
              ++ newline_indent level ++ "}").
      rewrite !length_append. cbn [String.length].
      specialize (Hitems true). lia.
Qed.

(** Reading the text [json_dumps] wrote for [v] gives [v] back. *)
Lemma loads_dumps (v : json) :
  wf_json v = true -> loads (json_dumps v) = Some v.
Proof.
  intro Hwf. unfold loads, json_dumps.
  pose proof (value_start_dumps 0 v "") as Hv.
  pose proof (all_read_back (size v) v (le_n _) 0%nat
                (S (String.length (dumps_at 0 v))) "" Hwf) as Hr.
  rewrite append_nil_r in Hv, Hr.
  rewrite (skip_ws_value _ Hv), Hr; [reflexivity | | reflexivity].
  pose proof (size_le_length (size v) v 0%nat (le_n _)). lia.
Qed.

End JsonTextFacts.

(** ** The serialized document *)

Module SaveFacts.
Import McpClient.

Lemma fs_read_write_same (path content : string) (f : fs) :
  fs_read path (fs_write path content f) = Some content.
Proof.
  induction f as [| [p c] f IH]; cbn.
  - now rewrite String.eqb_refl.
  - destruct (path =? p)%string eqn:E; cbn; rewrite E; [reflexivity | exact IH].
Qed.

Lemma fs_read_write_other (path other content : string) (f : fs) :
  (path =? other)%string = false ->
  fs_read path (fs_write other content f) = fs_read path f.
Proof.
  intro H. induction f as [| [p c] f IH]; cbn.
  - now rewrite H.
  - destruct (other =? p)%string eqn:E; cbn.
    + apply String.eqb_eq in E. subst p. now rewrite H.
    + destruct (path =? p)%string; [reflexivity | exact IH].
Qed.

(** C7: the document [save_firewall_outputs] leaves in
    dist/firewall_rules.json holds the rules under the one key
    'firewall_rules', and reading it back gives the same rules: same
    order, same fields, same values. *)
Theorem rules_document_round_trip (w : World) (st : State)
  (firewall_rules : json) :
  wf_json firewall_rules = true ->
  open_refused w JSON_PATH = None ->
  fs_read JSON_PATH (files (fst (save_firewall_outputs firewall_rules w st)))
  = Some (rules_document firewall_rules)
  /\ JsonText.loads (rules_document firewall_rules)
     = Some (JObj [("firewall_rules", firewall_rules)])
  /\ dict_get "firewall_rules" [("firewall_rules", firewall_rules)]
     = Some firewall_rules.
Proof.
  intros Hwf Hopen. split; [| split; [| reflexivity]].
  - unfold save_firewall_outputs, write_file, mbind, ask, get_state,
      set_files, log, lift, raise.
    cbn. rewrite Hopen. cbn.
    destruct (md_text firewall_rules) as [text | e]; cbn;
      [| apply fs_read_write_same].
    destruct (open_refused w MD_PATH); cbn; [apply fs_read_write_same |].
    rewrite fs_read_write_other by reflexivity. apply fs_read_write_same.
  - unfold rules_document. apply JsonTextFacts.loads_dumps.
    cbn. now rewrite Hwf.
Qed.

Lemma rules_document_round_trip_witness :
  JsonText.loads (rules_document sample_rules)
  = Some (JObj [("firewall_rules", sample_rules)]).
Proof.
  apply (rules_document_round_trip
           (sample_world None JNull "")
           initial_state sample_rules);
    reflexivity.
Defined.

End SaveFacts.

(** * Further properties *)

(** * More of the static driver *)

Module RunFacts.
Import GenerateTable.

Lemma reads_only_bind {A B} (c : M A) (k : A -> M B) :
  reads_only c -> (forall a, reads_only (k a)) -> reads_only (mbind c k).
Proof.
  intros Hc Hk w st. unfold mbind. specialize (Hc w st).
  destruct (c w st) as [st1 [a | e]]; simpl in *; [| assumption].
  destruct (Hk a w st1) as (H1 & H2 & H3). destruct Hc as (G1 & G2 & G3).
  repeat split; congruence.
Qed.

Lemma reads_only_print (line : string) : reads_only (print line).
Proof. now intros w st. Qed.

Lemma reads_only_lift {A} (r : result A) : reads_only (lift r).
Proof. now intros w st. Qed.

Lemma reads_only_ret {A} (a : A) : reads_only (ret a).
Proof. now intros w st. Qed.

Lemma reads_only_raise {A} (e : exn) : reads_only (@raise A e).
Proof. now intros w st. Qed.

Lemma reads_only_loads (text : string) : reads_only (loads text).
Proof.
  intros w st. unfold loads, mbind, ask. cbn.
  now destruct (json_loads w text).
Qed.

Lemma reads_only_get_structured_model_data :
  reads_only get_structured_model_data.
Proof.
  intros w st. unfold get_structured_model_data, mbind, get_state, print,
    raise, lift, ret, loads, ask.
  cbn. destruct (fs_read MODEL_JSON_PATH (files st)) as [text |]; cbn;
    [| now repeat split].
  destruct (json_loads w text) as [model |]; cbn; [| now repeat split].
  destruct (filter_parts model) as [[els rels] | e]; cbn; [| now repeat split].
  now destruct rels.
Qed.

Lemma reads_only_format_json_to_markdown (rules_json : json) :
  reads_only (format_json_to_markdown rules_json).
Proof.
  unfold format_json_to_markdown.
  apply reads_only_bind; [apply reads_only_print | intros _].
  apply reads_only_lift.
Qed.

(** What [configure_llm] does. *)
Lemma configure_llm_effect (w : World) (st : State) :
  files (fst (configure_llm w st)) = files st
  /\ requests (fst (configure_llm w st)) = requests st
  /\ (snd (configure_llm w st) = Ok tt ->
      client (fst (configure_llm w st)) = true).
Proof.
  unfold configure_llm, mbind, ask, lift, set_client, print, raise.
  cbn. destruct (env_api_key w) as [[| c k] |]; cbn;
    try (repeat split; discriminate).
  destruct (new_client w (String c k)); cbn; repeat split; discriminate.
Qed.

(** What [export_model_to_json] does: the only change to the files is
    the one the export command makes. *)
Lemma export_model_to_json_effect (w : World) (st : State) :
  (files (fst (export_model_to_json w st)) = files st
   \/ files (fst (export_model_to_json w st))
      = snd (npm_run_export w (files st)))
  /\ requests (fst (export_model_to_json w st)) = requests st
  /\ client (fst (export_model_to_json w st)) = client st.
Proof.
  unfold export_model_to_json, mbind, ask, lift, get_state, set_files, print,
    raise, ret.
  cbn. destruct (fs_read "package.json" (files st)); cbn;
    [| repeat split; now left].
  destruct (mkdir_dist w); cbn; [| repeat split; now left].
  destruct (npm_run_export w (files st)) as [[stderr | rc out err | e] f];
    cbn; try (repeat split; now right).
  destruct (stderr =? "")%string; cbn; repeat split; now right.
Qed.

(** What [save_table] does when the file can be opened, and when it
    cannot. *)
Lemma save_table_written (w : World) (st : State) (text : string) :
  open_refused w TABLE_OUTPUT_PATH = None ->
  save_table text w st
  = (put_line "Table saved successfully!"
       (put_files (fs_write TABLE_OUTPUT_PATH text (files st))
          (put_line STEP5 st)),
     Ok tt).
Proof.
  intro H. unfold save_table, write_file, mbind, print, try_except_if, ask,
    get_state, set_files.
  cbn. rewrite H. reflexivity.
Qed.

Lemma save_table_refused (w : World) (st : State) (text msg : string) :
  open_refused w TABLE_OUTPUT_PATH = Some msg ->
  save_table text w st
  = (put_line ("Error saving table file: " ++ msg) (put_line STEP5 st),
     Raise (OSError msg)).
Proof.
  intro H. unfold save_table, write_file, mbind, print, try_except_if, ask,
    get_state, set_files, raise.
  cbn. rewrite H. reflexivity.
Qed.

Lemma save_table_effect (w : World) (st : State) (text : string) :
  (files (fst (save_table text w st)) = files st
   \/ files (fst (save_table text w st))
      = fs_write TABLE_OUTPUT_PATH text (files st))
  /\ requests (fst (save_table text w st)) = requests st.
Proof.
  destruct (open_refused w TABLE_OUTPUT_PATH) as [msg |] eqn:H.
  - rewrite (save_table_refused w st text msg H). split; [now left | reflexivity].
  - rewrite (save_table_written w st text H). split; [now right | reflexivity].
Qed.

(** What [call_openai_llm_for_json] does once the client is set. *)
Lemma call_raises (w : World) (st : State) (data : json) (e : exn) :
  client st = true ->
  chat_completion w data = Raise e ->
  call_openai_llm_for_json data w st
  = (put_line ("An error occurred while calling the OpenAI API: " ++ exn_msg e)
       (put_request data (put_line STEP3 st)),
     Raise e).
Proof.
  intros Hc H. unfold call_openai_llm_for_json, mbind, print, get_state,
    try_except, ask, record_request, lift, raise.
  destruct st as [f o l c r]. cbn in *. subst c. cbn. rewrite H. reflexivity.
Qed.

Lemma call_returns (w : World) (st : State) (data response : json)
  (content : string) :
  client st = true ->
  chat_completion w data = Ok content ->
  json_loads w content = Some response ->
  call_openai_llm_for_json data w st
  = (put_line "JSON response received from LLM."
       (put_request data (put_line STEP3 st)),
     Ok response).
Proof.
  intros Hc H Hl. unfold call_openai_llm_for_json, mbind, print, get_state,
    try_except, ask, record_request, lift, raise, loads.
  destruct st as [f o l c r]. cbn in *. subst c. cbn. rewrite H. cbn.
  rewrite Hl. reflexivity.
Qed.

Lemma call_effect (w : World) (st : State) (data : json) :
  files (fst (call_openai_llm_for_json data w st)) = files st
  /\ (requests (fst (call_openai_llm_for_json data w st)) = requests st
      \/ requests (fst (call_openai_llm_for_json data w st))
         = (requests st ++ [data])%list).
Proof.
  unfold call_openai_llm_for_json, mbind, print, get_state, try_except, ask,
    record_request, lift, raise, loads.
  cbn. destruct (client st); cbn; [| split; [reflexivity | now left]].
  destruct (chat_completion w data) as [content | e]; cbn;
    [| split; [reflexivity | now right]].
  destruct (json_loads w content); cbn; split; try reflexivity; now right.
Qed.

(** What [get_structured_model_data] returns is a graph of the filter. *)
Lemma extracted_graph (w : World) (st st' : State) (g : json) :
  get_structured_model_data w st = (st', Ok g) ->
  exists text model els rels,
    fs_read MODEL_JSON_PATH (files st) = Some text
    /\ json_loads w text = Some model
    /\ filter_parts model = Ok (els, rels)
    /\ g = graph els rels.
Proof.
  unfold get_structured_model_data, mbind, get_state, print, raise, lift, ret,
    loads, ask.
  cbn. destruct (fs_read MODEL_JSON_PATH (files st)) as [text |] eqn:E1; cbn;
    [| discriminate].
  destruct (json_loads w text) as [model |] eqn:E2; cbn; [| discriminate].
  destruct (filter_parts model) as [[els rels] | e] eqn:E3; cbn;
    [| discriminate].
  intro H. exists text, model, els, rels.
  assert (Hg : g = graph els rels) by (destruct rels; cbn in H; now inversion H).
  now repeat split.
Qed.

Lemma call_unconfigured (w : World) (st : State) (data : json) :
  client st = false ->
  call_openai_llm_for_json data w st
  = (put_line STEP3 st,
     Raise (ValueError
              "OpenAI client is not configured. Run configure_llm() first.")).
Proof.
  intro Hc. unfold call_openai_llm_for_json, mbind, print, get_state, raise.
  destruct st as [f o l c r]. cbn in *. subst c. reflexivity.
Qed.

Lemma call_undecodable (w : World) (st : State) (data : json)
  (content : string) :
  client st = true ->
  chat_completion w data = Ok content ->
  json_loads w content = None ->
  call_openai_llm_for_json data w st
  = (put_line ("An error occurred while calling the OpenAI API: "
               ++ exn_msg (loads_error w content))
       (put_line "JSON response received from LLM."
          (put_request data (put_line STEP3 st))),
     Raise (loads_error w content)).
Proof.
  intros Hc H Hl. unfold call_openai_llm_for_json, mbind, print, get_state,
    try_except, ask, record_request, lift, raise, loads.
  destruct st as [f o l c r]. cbn in *. subst c. cbn. rewrite H. cbn.
  rewrite Hl. reflexivity.
Qed.

(** What a run of [main] leaves behind: the files the export command
    left, with at most the table written, and at most one request. *)
Lemma main_effect (w : World) (st : State) :
  exists F,
    (F = files st \/ F = snd (npm_run_export w (files st)))
    /\ ((files (fst (main w st)) = F
         /\ (requests (fst (main w st)) = requests st
             \/ exists els rels,
                 rels <> []
                 /\ requests (fst (main w st))
                    = (requests st ++ [graph els rels])%list))
        \/ (open_refused w TABLE_OUTPUT_PATH = None
            /\ files (fst (main w st))
               = fs_write TABLE_OUTPUT_PATH NO_RELATIONSHIPS F
            /\ requests (fst (main w st)) = requests st)
        \/ exists els rels content response text,
            rels <> []
            /\ open_refused w TABLE_OUTPUT_PATH = None
            /\ chat_completion w (graph els rels) = Ok content
            /\ json_loads w content = Some response
            /\ markdown_of response = Ok text
            /\ files (fst (main w st)) = fs_write TABLE_OUTPUT_PATH text F
            /\ requests (fst (main w st))
               = (requests st ++ [graph els rels])%list).
Proof.
  unfold main, try_except, pipeline, mbind.
  pose proof (configure_llm_effect w st) as (C1 & C2 & _).
  destruct (configure_llm w st) as [sa [[] | e]]; cbn [fst snd] in *.
  2: { exists (files st). split; [now left |]. left. cbn. auto. }
  pose proof (export_model_to_json_effect w sa) as (E1 & E2 & _).
  rewrite C1 in E1. rewrite C2 in E2. clear C1 C2.
  destruct (export_model_to_json w sa) as [sb [[] | e]]; cbn [fst snd] in *.
  2: { exists (files sb). split; [exact E1 |]. left. cbn. auto. }
  pose proof (reads_only_get_structured_model_data w sb) as (G1 & G2 & _).
  destruct (get_structured_model_data w sb) as [sc [g | e]] eqn:Hget;
    cbn [fst snd] in *.
  2: { exists (files sb). split; [exact E1 |]. left. cbn.
       split; [assumption | left; congruence]. }
  apply extracted_graph in Hget as (text & model & els & rels & _ & _ & _ & ->).
  exists (files sb). split; [exact E1 |].
  rewrite <- G1, <- E2, <- G2. clear E1 E2 G1 G2.
  unfold lift. cbn [py_get graph dict_get String.eqb Ascii.eqb Bool.eqb].
  destruct rels as [| r rels]; cbn [truthy negb].
  - unfold print.
    destruct (open_refused w TABLE_OUTPUT_PATH) as [msg |] eqn:Ho.
    + rewrite (save_table_refused _ _ _ msg Ho). left. cbn. auto.
    + rewrite (save_table_written _ _ _ Ho). right. left. cbn. auto.
  - assert (Hreq : exists els0 rels0,
               rels0 <> []
               /\ (requests sc ++ [graph els (r :: rels)])%list
                  = (requests sc ++ [graph els0 rels0])%list).
    { exists els, (r :: rels). split; [discriminate | reflexivity]. }
    destruct (client sc) eqn:Hc.
    2: { rewrite (call_unconfigured _ _ _ Hc). left. cbn. auto. }
    destruct (chat_completion w (graph els (r :: rels))) as [content | e]
      eqn:Hchat.
    2: { rewrite (call_raises _ _ _ e Hc Hchat). left. cbn. auto. }
    destruct (json_loads w content) as [response |] eqn:Hl.
    2: { rewrite (call_undecodable _ _ _ content Hc Hchat Hl). left. cbn.
         auto. }
    rewrite (call_returns _ _ _ response content Hc Hchat Hl).
    unfold format_json_to_markdown, mbind, print, lift.
    destruct (markdown_of response) as [md |] eqn:Hmd.
    2: { left. cbn. auto. }
    destruct (open_refused w TABLE_OUTPUT_PATH) as [msg |] eqn:Ho.
    + rewrite (save_table_refused _ _ _ msg Ho). left. cbn. auto.
    + rewrite (save_table_written _ _ _ Ho). right. right.
      exists els, (r :: rels), content, response, md. cbn.
      repeat split; try assumption. discriminate.
Qed.

Lemma fs_read_other (path other content : string) (f : fs) :
  path <> other ->
  fs_read path (fs_write other content f) = fs_read path f.
Proof.
  intro H. apply SaveFacts.fs_read_write_other. now apply String.eqb_neq.
Qed.

(** X1: [main] writes no file but the table: any other path holds after the
    run what it held before, or what the export command left there. *)
Theorem main_writes_only_the_table (w : World) (st : State) (path : string) :
  path <> TABLE_OUTPUT_PATH ->
  fs_read path (files (fst (main w st))) = fs_read path (files st)
  \/ fs_read path (files (fst (main w st)))
     = fs_read path (snd (npm_run_export w (files st))).
Proof.
  intro Hp. destruct (main_effect w st) as (F & HF & H).
  assert (Hr : fs_read path (files (fst (main w st))) = fs_read path F).
  { destruct H as [[H _] | [(_ & H & _) | H]].
    - now rewrite H.
    - rewrite H. now apply fs_read_other.
    - destruct H as (els & rels & content & response & text & H).
      destruct H as (_ & _ & _ & _ & _ & H & _). rewrite H.
      now apply fs_read_other. }
  rewrite Hr. destruct HF as [-> | ->]; [now left | now right].
Qed.

Lemma main_writes_only_the_table_witness :
  fs_read MODEL_JSON_PATH
    (files (fst (main (sample_world (Some "sk") model_abc "{}")
                   initial_state)))
  = fs_read MODEL_JSON_PATH (files initial_state)
  \/ fs_read MODEL_JSON_PATH
       (files (fst (main (sample_world (Some "sk") model_abc "{}")
                      initial_state)))
     = fs_read MODEL_JSON_PATH
         (snd (npm_run_export (sample_world (Some "sk") model_abc "{}")
                 (files initial_state))).
Proof.
  apply (main_writes_only_the_table (sample_world (Some "sk") model_abc "{}")
           initial_state MODEL_JSON_PATH).
  discriminate.
Defined.

(** X2: [main] asks the service at most once in a run, and only for a graph
    that has at least one relationship. *)
Theorem service_asked_at_most_once (w : World) (st : State) :
  requests (fst (main w st)) = requests st
  \/ exists els rels,
      rels <> []
      /\ requests (fst (main w st)) = (requests st ++ [graph els rels])%list.
Proof.
  destruct (main_effect w st) as (F & _ & H).
  destruct H as [[_ H] | [(_ & _ & H) | H]]; [exact H | now left |].
  destruct H as (els & rels & content & response & text & H).
  destruct H as (Hne & _ & _ & _ & _ & _ & H).
  right. now exists els, rels.
Qed.

(** X4: Without an API key, absent or empty, nothing runs: [main] prints the
    one diagnostic and leaves the files, the client and the requests as
    they were; the export command is not started. *)
Theorem no_api_key_no_run (w : World) (st : State) :
  env_api_key w = None \/ env_api_key w = Some "" ->
  main w st
  = (put_line
       (nl ++ "An error occurred: "
        ++ "OPENAI_API_KEY not found. Please add it to your .env file.")
       st,
     Ok tt).
Proof.
  intro H. unfold main, try_except, pipeline, mbind, configure_llm, ask, raise,
    print.
  cbn. destruct H as [-> | ->]; reflexivity.
Qed.

Lemma no_api_key_no_run_witness :
  main (sample_world (Some "") model_abc "{}") initial_state
  = (put_line
       (nl ++ "An error occurred: "
        ++ "OPENAI_API_KEY not found. Please add it to your .env file.")
       initial_state,
     Ok tt).
Proof.
  apply (no_api_key_no_run (sample_world (Some "") model_abc "{}")).
  now right.
Defined.

(** X5: When the export command ends with a non-zero status the run stops
    there: the model file is not read, the service is not asked and the
    table is not written - the files are as the command left them, or
    untouched when the run stopped before the command. *)
Theorem failed_export_stops_run (w : World) (st : State)
  (returncode : positive) (out err : string) (F : fs) :
  npm_run_export w (files st) = (NpmFailed returncode out err, F) ->
  requests (fst (main w st)) = requests st
  /\ (files (fst (main w st)) = files st \/ files (fst (main w st)) = F)
  /\ forall sa,
      configure_llm w st = (sa, Ok tt) ->
      fs_read "package.json" (files st) <> None ->
      mkdir_dist w = Ok tt ->
      main w st
      = (put_line
           (nl ++ "An error occurred: "
            ++ exn_msg (CalledProcessError returncode))
           (put_line ("Stdout: " ++ out ++ nl ++ "Stderr: " ++ err)
              (put_line
                 ("Error exporting LikeC4 model. Return code: "
                  ++ string_of_Z (Z.pos returncode))
                 (put_files F
                    (put_line
                       "Step 1: Exporting LikeC4 model to JSON via npm script..."
                       sa)))),
         Ok tt).
Proof.
  intro Hnpm.
  pose proof (configure_llm_effect w st) as (C1 & C2 & _).
  unfold main, try_except, pipeline, mbind.
  destruct (configure_llm w st) as [sa [[] | e]]; cbn [fst snd] in *.
  2: { cbn. repeat split; auto. discriminate. }
  unfold export_model_to_json, mbind, ask, lift, get_state, set_files, print,
    raise, ret.
  cbn. rewrite C1.
  destruct (fs_read "package.json" (files st)) as [p |]; cbn.
  2: { repeat split; auto. intros sa0 _ H. now contradiction H. }
  destruct (mkdir_dist w) as [[] | e]; cbn.
  2: { repeat split; auto. discriminate. }
  rewrite C1, Hnpm. cbn. repeat split; auto.
  intros sa0 [= <-] _ _. reflexivity.
Qed.

Lemma failed_export_stops_run_witness :
  requests (fst (main world_failed_export initial_state))
  = requests initial_state
  /\ (files (fst (main world_failed_export initial_state))
      = files initial_state
      \/ files (fst (main world_failed_export initial_state))
         = files initial_state).
Proof.
  destruct (failed_export_stops_run world_failed_export initial_state 2 ""
              "likec4: not found" (files initial_state) eq_refl)
    as (H1 & H2 & _).
  split; [exact H1 | exact H2].
Defined.

Lemma extraction_sets_client (w : World) (st st1 : State) (g : json) :
  extraction w st = (st1, Ok g) -> client st1 = true.
Proof.
  unfold extraction, mbind.
  pose proof (configure_llm_effect w st) as (_ & _ & C).
  destruct (configure_llm w st) as [sa [[] | e]]; [| discriminate].
  specialize (C eq_refl). cbn [fst] in C.
  pose proof (export_model_to_json_effect w sa) as (_ & _ & E).
  destruct (export_model_to_json w sa) as [sb [[] | e]]; [| discriminate].
  pose proof (reads_only_get_structured_model_data w sb) as (_ & _ & G).
  destruct (get_structured_model_data w sb) as [sc [g0 | e]]; [| discriminate].
  cbn [fst] in *. intros [= <- _]. congruence.
Qed.

(** X6: A run where every stage succeeds: the graph has a relationship, the
    service answers with a text that parses, the answer renders, the
    table file opens and the rendering is plain ASCII, which every
    encoding of a file and of the output takes.  Then [main] asks the
    service once, for the extracted graph, writes the rendering to the
    table file, prints it and returns. *)
Theorem successful_run (w : World) (st st1 : State) (els : dict)
  (rels : list json) (content : string) (response : json) (text : string) :
  extraction w st = (st1, Ok (graph els rels)) ->
  rels <> [] ->
  chat_completion w (graph els rels) = Ok content ->
  json_loads w content = Some response ->
  markdown_of response = Ok text ->
  open_refused w TABLE_OUTPUT_PATH = None ->
  plain text = true ->
  main w st
  = (put_line ("--- End of Table --- (Saved to " ++ TABLE_OUTPUT_PATH ++ ")")
       (put_line text
          (put_line (nl ++ "--- Generated Table ---")
             (put_line "Table saved successfully!"
                (put_files (fs_write TABLE_OUTPUT_PATH text (files st1))
                   (put_line STEP5
                      (put_line
                         "Step 4: Formatting JSON data into a Markdown table..."
                         (put_line "JSON response received from LLM."
                            (put_request (graph els rels)
                               (put_line STEP3 st1))))))))),
     Ok tt).
Proof.
  intros Hx Hne Hchat Hl Hmd Ho _.
  pose proof (extraction_sets_client w st st1 _ Hx) as Hc.
  revert Hx. unfold extraction, main, try_except, pipeline, mbind.
  destruct (configure_llm w st) as [sa [[] | e]]; [| discriminate].
  destruct (export_model_to_json w sa) as [sb [[] | e]]; [| discriminate].
  destruct (get_structured_model_data w sb) as [sc [g0 | e]]; [| discriminate].
  intros [= -> ->].
  unfold lift. cbn [py_get graph dict_get String.eqb Ascii.eqb Bool.eqb].
  destruct rels as [| r rels]; [contradiction |]. cbn [truthy negb].
  rewrite (call_returns _ _ _ response content Hc Hchat Hl).
  unfold format_json_to_markdown, mbind, print, lift. rewrite Hmd.
  rewrite (save_table_written _ _ _ Ho). reflexivity.
Qed.

Lemma successful_run_witness :
  fs_read TABLE_OUTPUT_PATH
    (files
       (fst (main
               (sample_world (Some "sk") model_abc
                  (json_dumps
                     (JObj [("rules",
                             JArr [JObj [("source", JStr "10.0.0.1");
                                         ("destination", JStr "10.0.0.2");
                                         ("port", JStr "TCP 8443");
                                         ("description",
                                          JStr "calls (TCP 8443)")]])])))
               initial_state)))
  = Some (header ++ separator
          ++ "| 10.0.0.1 | TCP 8443 | 10.0.0.2 | calls (TCP 8443) |" ++ nl).
Proof.
  rewrite (successful_run
             (sample_world (Some "sk") model_abc
                (json_dumps
                   (JObj [("rules",
                           JArr [JObj [("source", JStr "10.0.0.1");
                                       ("destination", JStr "10.0.0.2");
                                       ("port", JStr "TCP 8443");
                                       ("description",
                                        JStr "calls (TCP 8443)")]])])))
             initial_state
             (fst (extraction
                     (sample_world (Some "sk") model_abc "")
                     initial_state))
             [("A", element "Network ID: 10.0.0.1");
              ("B", element "Network ID: 10.0.0.2")]
             [relationship (JStr "A") (JStr "B") (JStr "calls (TCP 8443)")]
             (json_dumps
                (JObj [("rules",
                        JArr [JObj [("source", JStr "10.0.0.1");
                                    ("destination", JStr "10.0.0.2");
                                    ("port", JStr "TCP 8443");
                                    ("description",
                                     JStr "calls (TCP 8443)")]])]))
             (JObj [("rules",
                     JArr [JObj [("source", JStr "10.0.0.1");
                                 ("destination", JStr "10.0.0.2");
                                 ("port", JStr "TCP 8443");
                                 ("description", JStr "calls (TCP 8443)")]])])
             (header ++ separator
              ++ "| 10.0.0.1 | TCP 8443 | 10.0.0.2 | calls (TCP 8443) |"
              ++ nl));
    try (vm_compute; reflexivity).
  discriminate.
Defined.

End RunFacts.

(** * More of the filter *)

Module FilterFacts.
Import GenerateTable.
Import GenerateTableFacts.

Lemma relation_step_returns (details : json) (st : pyset * list json) :
  (exists st', relation_step details st = Ok st') <->
  relation_ok details = true.
Proof.
  destruct st as [inv rels].
  unfold relation_step, relation_ok, endpoint, py_set_add.
  destruct (py_get details "source" (JObj [])) as [src | e] eqn:Hsrc; cbn;
    [| split; [intros [? H]; discriminate | discriminate]].
  destruct (py_get src "model" JNull) as [s | e]; cbn;
    [| split; [intros [? H]; discriminate | discriminate]].
  destruct (py_get details "target" (JObj [])) as [tgt | e]; cbn;
    [| split; [intros [? H]; discriminate | discriminate]].
  destruct (py_get tgt "model" JNull) as [t | e]; cbn;
    [| split; [intros [? H]; discriminate | discriminate]].
  destruct (truthy s && truthy t); [| split; eauto].
  destruct (hashable s); cbn; [| split; [intros [? H]; discriminate | discriminate]].
  destruct (hashable t); cbn; [| split; [intros [? H]; discriminate | discriminate]].
  destruct details; try discriminate. cbn. split; eauto.
Qed.

Lemma relations_loop_returns (items : list (string * json)) :
  forall st,
    (exists st', relations_loop items st = Ok st') <->
    forallb (fun kv => relation_ok (snd kv)) items = true.
Proof.
  induction items as [| [rid details] items IH]; intro st; cbn.
  - split; eauto.
  - rewrite andb_true_iff, <- (relation_step_returns details st). split.
    + intros [st' H]. apply bind_ok in H as [st1 [H1 H]]. split; [eauto |].
      apply (IH st1). eauto.
    + intros [[st1 H1] H]. rewrite H1. cbn. now apply IH.
Qed.

Lemma filter_elements_returns (items : list (string * json)) (inv : pyset) :
  (exists els, filter_elements items inv = Ok els) <->
  forallb (fun kv => negb (set_mem (JStr (fst kv)) inv) || is_dict (snd kv))
    items = true.
Proof.
  induction items as [| [k details] items IH]; cbn; [split; eauto |].
  rewrite andb_true_iff, <- IH.
  destruct (set_mem (JStr k) inv); cbn.
  - destruct details; cbn;
      try (split; [intros [? H]; discriminate | intros [H _]; discriminate]).
    split.
    + intros [els H]. apply bind_ok in H as [es [H _]]. split; eauto.
    + intros [_ [es H]]. rewrite H. cbn. eauto.
  - split; [intros H; split; [reflexivity | exact H] | now intros [_ H]].
Qed.

Lemma filter_elements_kept (items : list (string * json)) (inv : pyset) :
  forall els, filter_elements items inv = Ok els ->
    els = map (fun kv => (fst kv, kept_fields (snd kv)))
            (filter (fun kv => set_mem (JStr (fst kv)) inv) items).
Proof.
  induction items as [| [k details] items IH]; cbn; intros els H.
  - now injection H as <-.
  - destruct (set_mem (JStr k) inv); [| now apply IH].
    apply bind_ok in H as [e [He H]]. apply bind_ok in H as [es [Hes H]].
    injection H as <-. cbn. rewrite <- (IH es Hes). f_equal. f_equal.
    destruct details; try discriminate. cbn in He. now injection He as <-.
Qed.

Lemma set_mem_ext (inv inv' : pyset) :
  (forall k, In (JStr k) inv <-> In (JStr k) inv') ->
  forall k, set_mem (JStr k) inv = set_mem (JStr k) inv'.
Proof.
  intros H k. apply eq_true_iff_eq. rewrite !set_mem_str. apply H.
Qed.

Lemma loop_set_is_referenced (relations : dict) (inv : pyset)
  (rels : list json) :
  relations_loop relations ([], []) = Ok (inv, rels) ->
  rels = flat_map (fun kv => normalized (snd kv)) relations
  /\ forall k, set_mem (JStr k) inv = referenced relations k.
Proof.
  intro H. apply relations_loop_ok in H as [Hrels Hinv]. cbn in Hrels, Hinv.
  split; [assumption |]. unfold referenced. apply set_mem_ext.
  intro k. rewrite Hinv. intuition.
Qed.

Lemma forallb_ext_in {A} (f g : A -> bool) (l : list A) :
  (forall x, f x = g x) -> forallb f l = forallb g l.
Proof.
  intro H. induction l as [| x l IH]; [reflexivity |]. cbn.
  now rewrite H, IH.
Qed.

(** X7: The filter returns a graph exactly for the model documents of
    [model_ok]: the model is an object, its 'elements' and 'relations'
    are objects or absent, every relation entry is an object whose
    'source' and 'target' are objects or absent and whose ids are
    hashable when both are non-empty, and every element that a kept
    relationship refers to is an object.  For any other document it
    raises: one malformed relation aborts the extraction. *)
Theorem filter_returns_iff (model : json) :
  (exists g, filter_model model = Ok g) <-> model_ok model = true.
Proof.
  unfold filter_model, filter_parts, model_ok.
  destruct (py_get model "elements" (JObj [])) as [ae | e]; cbn [bind];
    [| split; [intros [? H]; discriminate | discriminate]].
  destruct (py_get model "relations" (JObj [])) as [re | e]; cbn [bind];
    [| split; [intros [? H]; discriminate | destruct ae; discriminate]].
  destruct re as [| | | | | relations]; cbn [py_items bind];
    try (split; [intros [? H]; discriminate | destruct ae; discriminate]).
  pose proof (relations_loop_returns relations ([], [])) as Hloop.
  destruct (relations_loop relations ([], [])) as [[inv rels] | e] eqn:Hl;
    cbn [bind].
  - apply loop_set_is_referenced in Hl as [_ Hinv].
    assert (Hrel : forallb (fun kv => relation_ok (snd kv)) relations = true)
      by (apply Hloop; eauto).
    destruct ae as [| | | | | all_elements]; cbn [py_items bind];
      try (split; [intros [? H]; discriminate | discriminate]).
    rewrite Hrel. cbn [andb].
    rewrite <- (forallb_ext_in
                  (fun kv => negb (set_mem (JStr (fst kv)) inv)
                             || is_dict (snd kv))
                  _ all_elements (fun kv => f_equal
                                     (fun b => negb b || is_dict (snd kv))
                                     (Hinv (fst kv)))).
    rewrite <- filter_elements_returns. split.
    + intros [g H]. apply bind_ok in H as [parts [H _]].
      apply bind_ok in H as [els [H _]]. eauto.
    + intros [els H]. rewrite H. cbn. eauto.
  - assert (Hrel : forallb (fun kv => relation_ok (snd kv)) relations = false).
    { clear Hloop. destruct (forallb _ relations) eqn:E; [| reflexivity].
      apply (relations_loop_returns relations ([], [])) in E as [st' E].
      rewrite Hl in E. discriminate. }
    split; [intros [? H]; discriminate |].
    destruct ae; try discriminate. now rewrite Hrel.
Qed.

(** X8: The elements the filter returns are, in the order of the model, the
    elements that a kept relationship refers to, each reduced to its
    'title', 'kind', 'description' and 'technology': a field the element
    lacks becomes [None] and every other field is dropped. *)
Theorem filtered_elements_are_reduced (model : json) (els : dict)
  (rels : list json) (all_elements relations : dict) :
  filter_model model = Ok (graph els rels) ->
  py_get model "elements" (JObj []) = Ok (JObj all_elements) ->
  py_get model "relations" (JObj []) = Ok (JObj relations) ->
  els = map (fun kv => (fst kv, kept_fields (snd kv)))
          (filter (fun kv => referenced relations (fst kv)) all_elements).
Proof.
  intros H Hae Hre. apply filter_model_ok in H. revert H.
  unfold filter_parts. rewrite Hae, Hre. cbn [bind py_items].
  destruct (relations_loop relations ([], [])) as [[inv rels0] | e] eqn:Hl;
    cbn [bind]; [| discriminate].
  apply loop_set_is_referenced in Hl as [_ Hinv].
  intro H. apply bind_ok in H as [els0 [H E]]. injection E as <- _.
  apply filter_elements_kept in H. rewrite H. f_equal.
  apply filter_ext. intro kv. apply Hinv.
Qed.

Lemma filtered_elements_are_reduced_witness :
  [("A", element "Network ID: 10.0.0.1");
   ("B", element "Network ID: 10.0.0.2")]
  = map (fun kv => (fst kv, kept_fields (snd kv)))
      (filter
         (fun kv =>
            referenced
              [("r1", relation "A" "B" [("title", JStr "calls (TCP 8443)")])]
              (fst kv))
         [("A", element "Network ID: 10.0.0.1");
          ("B", element "Network ID: 10.0.0.2");
          ("C", element "Network ID: 10.0.0.3")]).
Proof.
  apply (filtered_elements_are_reduced model_abc _
           [relationship (JStr "A") (JStr "B") (JStr "calls (TCP 8443)")]);
    reflexivity.
Defined.

End FilterFacts.

(** * More of the renderers *)

Module RenderFacts.
Import FilterFacts.

Lemma table_rows_returns (items : list json) (rows : list string) :
  GenerateTable.table_rows items = Ok rows ->
  exists ds, items = map JObj ds.
Proof.
  revert rows. induction items as [| x items IH]; cbn; intros rows H.
  - now exists [].
  - unfold GenerateTable.table_row, GenerateTable.table_cells in H.
    destruct x as [| | | | | d]; try discriminate.
    apply GenerateTableFacts.bind_ok in H as [row [_ H]].
    apply GenerateTableFacts.bind_ok in H as [rs [H _]].
    destruct (IH _ H) as [ds ->]. now exists (d :: ds).
Qed.

Lemma md_rows_returns (items : list json) (rows : list string) :
  McpClient.md_rows items = Ok rows ->
  exists ds, items = map JObj ds.
Proof.
  revert rows. induction items as [| x items IH]; cbn; intros rows H.
  - now exists [].
  - unfold McpClient.md_line, McpClient.md_cells in H.
    destruct x as [| | | | | d]; try discriminate.
    apply GenerateTableFacts.bind_ok in H as [row [_ H]].
    apply GenerateTableFacts.bind_ok in H as [rs [H _]].
    destruct (IH _ H) as [ds ->]. now exists (d :: ds).
Qed.

Lemma iter_of_dicts (rules : json) (ds : list dict) :
  py_iter rules = Ok (map JObj ds) ->
  ds <> [] ->
  rules = JArr (map JObj ds).
Proof.
  destruct rules as [| | | s | l | m]; cbn; try discriminate.
  - destruct s as [| c s]; destruct ds; cbn; try discriminate;
      intros _ H; now contradiction H.
  - now intros [= ->].
  - destruct m as [| kv m]; destruct ds; cbn; try discriminate;
      intros _ H; now contradiction H.
Qed.

(** X9: The renderer of the static path returns in two cases only.  The
    response is an object whose 'rules' are absent or falsy (the empty
    list, [None], ...): the result is the fixed sentence, never a table
    with no rows.  Or the 'rules' are a non-empty list of objects: the
    result is the table.  In every other case - a response that is no
    object, rules that are no list, a rule that is no object - it
    raises. *)
Theorem markdown_of_returns (response : json) (text : string) :
  GenerateTable.markdown_of response = Ok text <->
  exists m,
    response = JObj m
    /\ ((truthy (rules_of m) = false
         /\ text = "No rules were generated by the LLM.")
        \/ exists ds,
            ds <> []
            /\ rules_of m = JArr (map JObj ds)
            /\ text = static_table ds).
Proof.
  unfold GenerateTable.markdown_of, rules_of, static_table. split.
  - destruct response as [| | | | | m]; try discriminate.
    cbn [py_get bind]. intro H. exists m. split; [reflexivity |].
    destruct (truthy _) eqn:Ht; cbn [negb] in H.
    + right. apply GenerateTableFacts.bind_ok in H as [items [Hi H]].
      apply GenerateTableFacts.bind_ok in H as [rows [Hr H]].
      destruct (table_rows_returns _ _ Hr) as [ds ->].
      assert (Hne : ds <> []).
      { intros ->. destruct (match dict_get "rules" m with
                             | Some x => x | None => JArr [] end)
          as [| | | [| c s] | [| x l] | [| kv l]]; cbn in *; discriminate. }
      exists ds. split; [assumption |]. split; [now apply iter_of_dicts |].
      rewrite table_rows_static in Hr. injection Hr as <-. now injection H.
    + left. split; [reflexivity | now injection H].
  - intros (m & -> & [[Ht ->] | (ds & Hne & Hr & ->)]); cbn [py_get bind].
    + now rewrite Ht.
    + rewrite Hr. destruct ds as [| d ds]; [contradiction |].
      cbn [map truthy negb py_iter bind].
      change (JObj d :: map JObj ds) with (map JObj (d :: ds)).
      now rewrite table_rows_static.
Qed.

Lemma md_text_returns (rules : json) (text : string) :
  McpClient.md_text rules = Ok text <->
  exists ds, py_iter rules = Ok (map JObj ds) /\ text = live_table ds.
Proof.
  unfold McpClient.md_text, live_table. split.
  - intro H. apply GenerateTableFacts.bind_ok in H as [items [Hi H]].
    apply GenerateTableFacts.bind_ok in H as [rows [Hr H]].
    destruct (md_rows_returns _ _ Hr) as [ds ->]. exists ds.
    split; [assumption |]. rewrite md_rows_live in Hr.
    injection Hr as <-. now injection H.
  - intros (ds & Hi & ->). rewrite Hi. cbn [bind].
    now rewrite md_rows_live.
Qed.

(** X10: The live path writes its two outputs one after the other, and looks
    at the rules only after the first: when the rules cannot be rendered
    (they are no list, or a rule is no object) the serialized document is
    already in its file, the table file is not touched and the exception
    leaves the function. *)
Theorem document_written_before_table (w : World) (st : State)
  (firewall_rules : json) (e : exn) :
  open_refused w McpClient.JSON_PATH = None ->
  McpClient.md_text firewall_rules = Raise e ->
  McpClient.save_firewall_outputs firewall_rules w st
  = (put_log "INFO" ("Saved firewall rules to " ++ McpClient.JSON_PATH)
       (put_files
          (fs_write McpClient.JSON_PATH
             (McpClient.rules_document firewall_rules) (files st))
          st),
     Raise e).
Proof.
  intros Ho Hmd. unfold McpClient.save_firewall_outputs, write_file, mbind,
    ask, get_state, set_files, log, lift.
  cbn. rewrite Ho. cbn. rewrite Hmd. reflexivity.
Qed.

Lemma document_written_before_table_witness :
  McpClient.save_firewall_outputs JNull (sample_world None JNull "")
    initial_state
  = (put_log "INFO" ("Saved firewall rules to " ++ McpClient.JSON_PATH)
       (put_files
          (fs_write McpClient.JSON_PATH (McpClient.rules_document JNull)
             (files initial_state))
          initial_state),
     Raise (NotIterable JNull)).
Proof.
  apply (document_written_before_table (sample_world None JNull "")
           initial_state JNull (NotIterable JNull));
    reflexivity.
Defined.



End RenderFacts.

(** * More of the live parser *)

Module ViewFacts.
Import McpClient.
Import McpClientFacts.

Lemma node_step_returns (node : json) (els : list (json * json)) :
  (exists els', node_step node els = Ok els') <-> node_ok node = true.
Proof.
  unfold node_step, node_ok.
  destruct node as [| | | | | d]; cbn;
    try (split; [intros [? H]; discriminate | discriminate]).
  destruct (match dict_get "represents" d with
            | Some x => x | None => JObj [] end) as [| | | | | rep]; cbn;
    try (split; [intros [? H]; discriminate | discriminate]).
  destruct (truthy _ && truthy _); [| split; eauto].
  destruct (hashable _); split; eauto; try discriminate.
  intros [? H]; discriminate.
Qed.

Lemma nodes_loop_returns (nodes : list json) :
  forall els,
    (exists els', nodes_loop nodes els = Ok els') <->
    forallb node_ok nodes = true.
Proof.
  induction nodes as [| node nodes IH]; intro els; cbn.
  - split; eauto.
  - rewrite andb_true_iff, <- (node_step_returns node els). split.
    + intros [els' H].
      apply GenerateTableFacts.bind_ok in H as [els1 [H1 H]].
      split; [eauto |]. apply (IH els1). eauto.
    + intros [[els1 H1] H]. rewrite H1. cbn. now apply IH.
Qed.

(** X12: Only a text that does not parse is turned into the empty graph.  A
    text that parses is taken as it is: [parse_c4_view] returns a graph
    exactly when the view is an object whose 'nodes' can be iterated and
    every node is an object with an object (or nothing) for 'represents'
    and a hashable identifier where an element is created; for any other
    view the exception leaves the function. *)
Theorem parse_c4_view_returns_iff (w : World) (st : State) (text : string)
  (view : json) :
  json_loads w text = Some view ->
  (exists st' g, parse_c4_view text w st = (st', Ok g)) <->
  view_ok view = true.
Proof.
  intro Hv. unfold view_ok.
  unfold parse_c4_view, load_view, mbind, try_except_if, loads, ask, lift,
    log, ret, raise.
  cbn. rewrite Hv. cbn.
  destruct (py_get view "nodes" (JArr [])) as [n | e]; cbn;
    [| split; [intros (? & ? & H); discriminate | discriminate]].
  destruct (py_iter n) as [nodes | e]; cbn;
    [| split; [intros (? & ? & H); discriminate | discriminate]].
  rewrite <- (nodes_loop_returns nodes []).
  destruct (nodes_loop nodes []) as [els | e]; cbn; split.
  - eauto.
  - intros _. eauto.
  - intros (? & ? & H); discriminate.
  - intros [? H]; discriminate.
Qed.

Lemma parse_c4_view_returns_iff_witness :
  view_ok (JArr []) = false
  /\ ~ exists st' g,
        parse_c4_view "[]" (sample_world None JNull "") initial_state
        = (st', Ok g).
Proof.
  split; [reflexivity |]. intro H.
  apply (parse_c4_view_returns_iff (sample_world None JNull "") initial_state
           "[]" (JArr []) eq_refl) in H.
  discriminate.
Defined.

Lemma key_eqb_sym (a b : json) : key_eqb a b = key_eqb b a.
Proof.
  destruct a as [| [] | x | x | |], b as [| [] | y | y | |]; cbn;
    try reflexivity; try apply Z.eqb_sym; apply String.eqb_sym.
Qed.

Lemma key_eqb_trans (a b c : json) :
  key_eqb a b = true -> key_eqb b c = true -> key_eqb a c = true.
Proof.
  destruct a as [| [] | x | x | |], b as [| [] | y | y | |],
      c as [| [] | z | z | |]; cbn; try discriminate; try reflexivity;
    rewrite ?Z.eqb_eq, ?String.eqb_eq; intros; subst;
    try reflexivity; try discriminate; try lia.
Qed.

Lemma key_eqb_congr (a b c : json) :
  key_eqb a b = true -> key_eqb b c = key_eqb a c.
Proof.
  intro H. destruct (key_eqb b c) eqn:E1, (key_eqb a c) eqn:E2;
    try reflexivity.
  - now rewrite (key_eqb_trans a b c H E1) in E2.
  - rewrite key_eqb_sym in H. now rewrite (key_eqb_trans b a c H E2) in E1.
Qed.

(** Lookup after an assignment. *)
Lemma elements_get_set (k k' v : json) (els : list (json * json)) :
  hashable k' = true ->
  elements_get k (elements_set k' v els)
  = if key_eqb k k' then Some v else elements_get k els.
Proof.
  intro Hh. induction els as [| [k0 v0] els IH]; cbn.
  - reflexivity.
  - destruct (key_eqb k' k0) eqn:E0; cbn.
    + destruct (key_eqb k k') eqn:E.
      * now rewrite <- (key_eqb_congr k k' k0 E), E0.
      * destruct (key_eqb k k0) eqn:E1; [| reflexivity].
        rewrite key_eqb_sym in E0.
        now rewrite (key_eqb_trans k k0 k' E1 E0) in E.
    + rewrite IH. destruct (key_eqb k k') eqn:E; [| reflexivity].
      now rewrite <- (key_eqb_congr k k' k0 E), E0.
Qed.

Lemma node_step_get (node : json) (els els' : list (json * json))
  (k : json) :
  node_step node els = Ok els' ->
  elements_get k els'
  = match node_element node with
    | Some e => if key_eqb k (node_key node) then Some e
                else elements_get k els
    | None => elements_get k els
    end.
Proof.
  unfold node_step, node_element, node_key. intro H.
  apply GenerateTableFacts.bind_ok in H as [i [Hi H]].
  apply GenerateTableFacts.bind_ok in H as [t [Ht H]].
  apply GenerateTableFacts.bind_ok in H as [rep [Hrep H]].
  apply GenerateTableFacts.bind_ok in H as [r [Hr H]].
  rewrite Hi, Ht, Hrep. cbn [bind]. rewrite Hr.
  destruct (truthy i && truthy r).
  - destruct (hashable i) eqn:Hh; [| discriminate]. injection H as <-.
    now apply elements_get_set.
  - now injection H as <-.
Qed.

Lemma nodes_loop_keeps (after : list json) (k : json) :
  forall els els',
    nodes_loop after els = Ok els' ->
    (forall n, In n after -> node_element n <> None ->
               key_eqb (node_key n) k = false) ->
    elements_get k els' = elements_get k els.
Proof.
  induction after as [| n after IH]; cbn; intros els els' H Hafter.
  - now injection H as <-.
  - apply GenerateTableFacts.bind_ok in H as [els1 [H1 H]].
    rewrite (IH _ _ H) by (intros; apply Hafter; auto).
    rewrite (node_step_get _ _ _ k H1).
    destruct (node_element n) eqn:E; [| reflexivity].
    rewrite key_eqb_sym, Hafter; [reflexivity | now left | now rewrite E].
Qed.

Lemma nodes_loop_app (before after : list json) :
  forall els els',
    nodes_loop (before ++ after) els = Ok els' ->
    exists els1,
      nodes_loop before els = Ok els1 /\ nodes_loop after els1 = Ok els'.
Proof.
  induction before as [| n before IH]; cbn; intros els els' H; [eauto |].
  apply GenerateTableFacts.bind_ok in H as [els0 [H0 H]].
  rewrite H0. cbn. now apply IH.
Qed.

(** X13: Elements are stored under the node identifier, so of several nodes
    with the same identifier the last one decides: looking up the
    identifier of a node gives the element of that node when no later
    node with an equal identifier gets an element. *)
Theorem last_node_decides (before after : list json) (node e : json)
  (els : list (json * json)) :
  nodes_loop (before ++ node :: after) [] = Ok els ->
  node_element node = Some e ->
  (forall n, In n after -> node_element n <> None ->
             key_eqb (node_key n) (node_key node) = false) ->
  elements_get (node_key node) els = Some e.
Proof.
  intros H He Hafter.
  apply nodes_loop_app in H as (els1 & _ & H). cbn in H.
  apply GenerateTableFacts.bind_ok in H as [els2 [H2 H]].
  rewrite (nodes_loop_keeps after _ _ _ H Hafter).
  rewrite (node_step_get _ _ _ (node_key node) H2), He.
  assert (Hh : hashable (node_key node) = true).
  { revert H2 He. unfold node_step, node_element, node_key.
    destruct (py_get node "id" JNull) as [i |]; cbn; [| discriminate].
    destruct (py_get node "title" JNull) as [t |]; cbn; [| discriminate].
    destruct (py_get node "represents" (JObj [])) as [rep |]; cbn;
      [| discriminate].
    destruct (py_get rep "element" JNull) as [r |]; cbn; [| discriminate].
    destruct (truthy i && truthy r); [| discriminate].
    now destruct (hashable i). }
  now rewrite (key_eqb_refl _ Hh).
Qed.

Lemma last_node_decides_witness :
  elements_get (JStr "web")
    [(JStr "web", live_element (JStr "web") (JStr "Second"))]
  = Some (live_element (JStr "web") (JStr "Second")).
Proof.
  apply (last_node_decides
           [JObj [("id", JStr "web"); ("title", JStr "First");
                  ("represents", JObj [("element", JStr "cloud.web")])]]
           []
           (JObj [("id", JStr "web"); ("title", JStr "Second");
                  ("represents", JObj [("element", JStr "cloud.web")])]));
    [reflexivity | reflexivity | intros n []].
Defined.

End ViewFacts.

(** * The characters of the serialized document *)

Module AsciiFacts.
Import JsonTextFacts.

Lemma plain_app (a b : string) : plain (a ++ b) = plain a && plain b.
Proof.
  induction a as [| c a IH]; [reflexivity |]. cbn.
  now rewrite IH, andb_assoc.
Qed.

Lemma plain_escape_char (c : ascii) : plain (escape_char c) = true.
Proof. destruct c as [[] [] [] [] [] [] [] []]; reflexivity. Qed.

Lemma plain_encode_string (s : string) : plain (encode_string s) = true.
Proof.
  unfold encode_string. cbn [plain]. rewrite plain_app.
  replace (plain (escape_chars s)) with true; [reflexivity |].
  induction s as [| c s IH]; [reflexivity |]. cbn [escape_chars].
  now rewrite plain_app, plain_escape_char, <- IH.
Qed.

Lemma plain_uint (u : Decimal.uint) : plain (NilEmpty.string_of_uint u) = true.
Proof. induction u; cbn; auto. Qed.

Lemma plain_string_of_Z (z : Z) : plain (string_of_Z z) = true.
Proof.
  unfold string_of_Z. destruct z as [| p | p]; [reflexivity | |];
    cbn [Z.to_int NilZero.string_of_int NilZero.string_of_uint];
    pose proof (plain_uint (Pos.to_uint p)) as H;
    destruct (Pos.to_uint p); try reflexivity; cbn in *; exact H.
Qed.

Lemma plain_spaces (n : nat) : plain (spaces n) = true.
Proof. induction n as [| n IH]; [reflexivity | exact IH]. Qed.

Lemma plain_newline_indent (level : nat) : plain (newline_indent level) = true.
Proof. unfold newline_indent. rewrite plain_app. apply plain_spaces. Qed.

Lemma plain_dumps_items (level : nat) (items : list string) :
  forallb plain items = true ->
  forall first, plain (dumps_items level first items) = true.
Proof.
  induction items as [| x items IH]; cbn [forallb dumps_items];
    [reflexivity |].
  intros H first. apply andb_true_iff in H as [Hx H].
  rewrite !plain_app, plain_newline_indent, Hx, (IH H).
  now destruct first.
Qed.

Lemma plain_dumps_at (n : nat) :
  forall v level, (size v <= n)%nat -> plain (dumps_at level v) = true.
Proof.
  induction n as [| n IH]; intros v level Hn.
  - destruct v; cbn in Hn; lia.
  - destruct v as [| [] | z | s | l | m]; try reflexivity.
    + apply plain_string_of_Z.
    + apply plain_encode_string.
    + assert (Hl : forallb plain (map (dumps_at (S level)) l) = true).
      { apply forallb_forall. intros x Hx. apply in_map_iff in Hx
          as (y & <- & Hy).
        apply IH. apply size_in_elems in Hy. cbn [size] in Hn.
        fold (elems_size l) in Hn. lia. }
      destruct l as [| x l]; [reflexivity |].
      cbn [dumps_at]. rewrite !plain_app.
      rewrite (plain_dumps_items _ _ Hl), plain_newline_indent. reflexivity.
    + assert (Hm : forallb plain (map (member_text (S level)) m) = true).
      { apply forallb_forall. intros x Hx. apply in_map_iff in Hx
          as ([k y] & <- & Hy).
        unfold member_text. rewrite !plain_app, plain_encode_string.
        cbn. apply IH. apply size_in_members in Hy. cbn [size snd] in *.
        fold (members_size m) in Hn. lia. }
      destruct m as [| [k x] m]; [reflexivity |].
      change (dumps_at level (JObj ((k, x) :: m)))
        with ("{" ++ dumps_items (S level) true
                       (map (member_text (S level)) ((k, x) :: m))
              ++ newline_indent level ++ "}").
      rewrite !plain_app.
      rewrite (plain_dumps_items _ _ Hm), plain_newline_indent. reflexivity.
Qed.

(** X14: Whatever the rules hold, the serialized document is plain ASCII:
    printable characters and line breaks only, every other character of
    a string being written as an escape. *)
Theorem rules_document_is_ascii (firewall_rules : json) :
  plain (McpClient.rules_document firewall_rules) = true.
Proof.
  unfold McpClient.rules_document, json_dumps.
  now apply (plain_dumps_at _ _ _ (le_n _)).
Qed.

End AsciiFacts.

(** * The live script *)

Module LiveFacts.
Import McpClient.
Import McpClientMain.
Import RunFacts.

Lemma reads_only_log (level msg : string) : reads_only (log level msg).
Proof. now intros w st. Qed.

Lemma reads_only_fetch (live : Live) : reads_only (fetch_simplified_view live).
Proof.
  unfold fetch_simplified_view.
  apply reads_only_bind; [apply reads_only_lift | intros _].
  apply reads_only_bind; [apply reads_only_log | intros _].
  apply reads_only_bind; [apply reads_only_lift | intros [| text rest]].
  - apply reads_only_raise.
  - apply reads_only_bind; [apply reads_only_log | intros _].
    apply reads_only_ret.
Qed.

Lemma reads_only_try_except_if {A} (p : exn -> bool) (c : M A)
  (h : exn -> M A) :
  reads_only c -> (forall e, reads_only (h e)) ->
  reads_only (try_except_if p c h).
Proof.
  intros Hc Hh w st. unfold try_except_if. specialize (Hc w st).
  destruct (c w st) as [st1 [a | e]]; cbn [fst] in *; [assumption |].
  destruct (p e); [| assumption].
  destruct (Hh e w st1) as (H1 & H2 & H3). destruct Hc as (G1 & G2 & G3).
  repeat split; congruence.
Qed.

Lemma reads_only_parse_c4_view (text : string) :
  reads_only (parse_c4_view text).
Proof.
  unfold parse_c4_view, load_view.
  apply reads_only_bind; [apply reads_only_log | intros _].
  apply reads_only_bind.
  - apply reads_only_try_except_if.
    + apply reads_only_bind; [apply reads_only_loads | intro].
      apply reads_only_ret.
    + intro e. apply reads_only_bind; [apply reads_only_log | intros _].
      apply reads_only_ret.
  - intros [view |]; [| apply reads_only_ret].
    apply reads_only_bind; [apply reads_only_lift | intro].
    apply reads_only_bind; [apply reads_only_lift | intro].
    apply reads_only_bind; [apply reads_only_lift | intro].
    apply reads_only_bind; [apply reads_only_log | intros _].
    apply reads_only_ret.
Qed.

Lemma reads_only_print_rules (live : Live) (rules : list json) :
  reads_only (print_rules live rules).
Proof.
  induction rules as [| rule rules IH]; cbn [print_rules].
  - apply reads_only_ret.
  - apply reads_only_bind; [apply reads_only_lift | intro].
    apply reads_only_bind; [apply reads_only_print | intros _]. exact IH.
Qed.

Lemma rule_line_returns (live : Live) (rule : json) (line : string) :
  rule_line live rule = Ok line ->
  exists d, rule = JObj d /\ complete d = true.
Proof.
  unfold rule_line, complete. destruct rule as [| | | | | d]; try discriminate.
  intro H. exists d. split; [reflexivity |]. revert H. cbn.
  destruct (dict_get "source" d); cbn; [| discriminate].
  destruct (dict_get "target" d); cbn; [| discriminate].
  destruct (dict_get "protocol" d); cbn; [| discriminate].
  destruct (dict_get "port" d); cbn; [| discriminate].
  destruct (dict_get "purpose" d); cbn; [reflexivity | discriminate].
Qed.

Lemma print_rules_returns (live : Live) (rules : list json) :
  forall w st st',
    print_rules live rules w st = (st', Ok tt) ->
    exists ds, rules = map JObj ds /\ forallb complete ds = true.
Proof.
  induction rules as [| rule rules IH]; cbn [print_rules]; intros w st st' H.
  - now exists [].
  - revert H. unfold mbind, lift, print.
    destruct (rule_line live rule) as [line | e] eqn:Hl; [| discriminate].
    intro H. apply IH in H as (ds & -> & Hds).
    apply rule_line_returns in Hl as (d & -> & Hd).
    exists (d :: ds). cbn [map forallb]. now rewrite Hd, Hds.
Qed.

Lemma generate_effect (live : Live) (data : LiveGraph) (w : World)
  (st : State) :
  files (fst (generate_firewall_json live data w st)) = files st
  /\ requests (fst (generate_firewall_json live data w st))
     = (requests st ++ [data_json data])%list.
Proof.
  unfold generate_firewall_json, mbind, log, record_request, lift, loads, ask,
    ret, raise.
  cbn. destruct (firewall_completion live data) as [content | e]; cbn;
    [| now split].
  destruct (json_loads w content); cbn; now split.
Qed.

Lemma save_effect (w : World) (st : State) (rules : json) :
  requests (fst (save_firewall_outputs rules w st)) = requests st
  /\ (files (fst (save_firewall_outputs rules w st)) = files st
      \/ files (fst (save_firewall_outputs rules w st))
         = fs_write JSON_PATH (rules_document rules) (files st)
      \/ exists text,
          md_text rules = Ok text
          /\ files (fst (save_firewall_outputs rules w st))
             = fs_write MD_PATH text
                 (fs_write JSON_PATH (rules_document rules) (files st))).
Proof.
  unfold save_firewall_outputs, write_file, mbind, ask, get_state, set_files,
    log, lift, raise.
  cbn. destruct (open_refused w JSON_PATH); cbn; [split; auto |].
  destruct (md_text rules) as [text | e]; cbn; [| split; auto].
  destruct (open_refused w MD_PATH); cbn; [split; auto |].
  split; [reflexivity |]. right. right. now exists text.
Qed.

(** What a run of the live script leaves behind. *)
Lemma live_main_effect (live : Live) (w : World) (st : State) :
  (files (fst (main live w st)) = files st
   \/ exists rules ds,
       py_iter rules = Ok (map JObj ds)
       /\ forallb complete ds = true
       /\ (files (fst (main live w st))
           = fs_write JSON_PATH (rules_document rules) (files st)
           \/ files (fst (main live w st))
              = fs_write MD_PATH (live_table ds)
                  (fs_write JSON_PATH (rules_document rules) (files st))))
  /\ (requests (fst (main live w st)) = requests st
      \/ exists els,
          requests (fst (main live w st))
          = (requests st
             ++ [data_json {| elements := els; relationships := [] |}])%list).
Proof.
  destruct (main live w st) as [sf rf] eqn:Hmain. cbn [fst].
  revert Hmain. unfold main, mbind.
  pose proof (reads_only_fetch live w st) as (F1 & F2 & _).
  destruct (fetch_simplified_view live w st) as [s1 [text | e]];
    cbn [fst] in *; [| intros [= <- <-]; split; now left].
  unfold print. cbv beta iota.
  pose proof (reads_only_parse_c4_view text w
                (put_line text (put_line (banner_view live) s1)))
    as (P1 & P2 & _).
  destruct (parse_c4_view text w _) as [s2 [g | e]] eqn:Hparse;
    cbn [fst put_line files requests] in *;
    [| intros [= <- <-]; split; left; congruence].
  assert (Hrel : relationships g = []).
  { apply McpClientFacts.parse_c4_view_ok in Hparse
      as [[_ ->] | (? & ? & ? & _ & _ & _ & ->)]; reflexivity. }
  pose proof (generate_effect live g w
                (put_line (json_dumps (data_json g))
                   (put_line (banner_parsed live) s2))) as (G1 & G2).
  destruct (generate_firewall_json live g w _) as [s3 response];
    cbn [fst put_line files requests] in *.
  assert (Hreq : forall sx : State,
             requests sx = requests s3 ->
             requests sx = requests st
             \/ exists els,
                 requests sx
                 = (requests st
                    ++ [data_json {| elements := els; relationships := [] |}])%list).
  { intros sx Hsx. right. exists (elements g). rewrite Hsx, G2, P2, F2.
    destruct g as [els rels]. cbn in Hrel. now subst rels. }
  destruct response as [response | e];
    [| intros [= <- <-]; split; [left; congruence | now apply Hreq]].
  unfold lift. cbv beta iota.
  destruct (py_get response "firewall_rules" (JArr [])) as [rules | e];
    [| intros [= <- <-]; split; [left; cbn; congruence | now apply Hreq]].
  destruct (py_iter rules) as [items | e] eqn:Hiter;
    [| intros [= <- <-]; split; [left; cbn; congruence | now apply Hreq]].
  pose proof (reads_only_print_rules live items w
                (put_line (banner_rules live) s3)) as (R1 & R2 & _).
  destruct (print_rules live items w _) as [s4 [[] | e]] eqn:Hprint;
    cbn [fst put_line files requests] in *;
    [| intros [= <- <-]; split; [left; congruence | apply Hreq; congruence]].
  apply print_rules_returns in Hprint as (ds & -> & Hds).
  pose proof (save_effect w s4 rules) as (S1 & S2).
  intro Hsave. rewrite Hsave in S1, S2. cbn [fst] in S1, S2.
  split; [| apply Hreq; congruence].
  destruct S2 as [S2 | [S2 | (text' & Hmd & S2)]].
  - left. congruence.
  - right. exists rules, ds. repeat split; try assumption. left. congruence.
  - right. exists rules, ds. repeat split; try assumption. right.
    assert (Ht : text' = live_table ds).
    { apply RenderFacts.md_text_returns in Hmd as (ds' & Hi & ->).
      rewrite Hiter in Hi. injection Hi as Hi. f_equal.
      clear - Hi. revert ds' Hi.
      induction ds as [| d ds IH]; intros [| d' ds']; cbn; try discriminate;
        [reflexivity |].
      intros [= -> H]. f_equal. now apply IH. }
    congruence.
Qed.

(** X15: The live script asks the service at most once in a run, and what it
    sends never has a relationship: the list it sends is always empty. *)
Theorem live_request_has_no_relationship (live : Live) (w : World)
  (st : State) :
  requests (fst (main live w st)) = requests st
  \/ exists els,
      requests (fst (main live w st))
      = (requests st
         ++ [data_json {| elements := els; relationships := [] |}])%list.
Proof. exact (proj2 (live_main_effect live w st)). Qed.

(** X16: The live script has no short cut for an empty graph: when
    [json.loads] rejects the text of the view with a [JSONDecodeError],
    the parser gives the empty graph and the service is asked all the
    same, for no element and no relationship. *)
Theorem undecodable_view_is_still_sent (live : Live) (w : World) (st : State)
  (text : string) (rest : list string) :
  connect live = Ok tt ->
  call_tool live = Ok (text :: rest) ->
  json_loads w text = None ->
  json_other_error w text = None ->
  requests (fst (main live w st))
  = (requests st
     ++ [data_json {| elements := []; relationships := [] |}])%list.
Proof.
  intros Hc Ht Hl Ho.
  destruct (main live w st) as [sf rf] eqn:Hmain. cbn [fst].
  revert Hmain. unfold main, fetch_simplified_view. unfold mbind, lift, log, ret.
  rewrite Hc, Ht. cbv beta iota. unfold print. cbv beta iota.
  assert (P : forall s,
             parse_c4_view text w s
             = (put_log "ERROR" "Failed to parse view content as JSON."
                  (put_log "INFO" "Parsing view content..." s),
                Ok {| elements := []; relationships := [] |})).
  { intro s. apply McpClientFacts.decode_error_gives_empty_graph;
      [exact Hl | unfold loads_error; now rewrite Ho]. }
  rewrite P.
  pose proof (generate_effect live {| elements := []; relationships := [] |} w)
    as G.
  match goal with
  | |- context [generate_firewall_json live ?g w ?s] =>
      specialize (G s); destruct (generate_firewall_json live g w s)
        as [s3 response]
  end.
  destruct G as (_ & G). cbn [fst put_line put_log requests] in G.
  destruct response as [response | e]; [| now intros [= <- <-]].
  unfold lift. cbv beta iota.
  destruct (py_get response "firewall_rules" (JArr [])) as [rules | e];
    [| now intros [= <- <-]].
  destruct (py_iter rules) as [items | e]; [| now intros [= <- <-]].
  pose proof (reads_only_print_rules live items w
                (put_line (banner_rules live) s3)) as (_ & R & _).
  destruct (print_rules live items w _) as [s4 [[] | e]];
    cbn [fst put_line requests] in R; [| intros [= <- <-]; congruence].
  pose proof (save_effect w s4 rules) as (S & _).
  intro Hsave. rewrite Hsave in S. cbn [fst] in S. congruence.
Qed.

Lemma undecodable_view_is_still_sent_witness :
  requests (fst (main (sample_live "not json" "{}")
                   (sample_world None JNull "") initial_state))
  = [data_json {| elements := []; relationships := [] |}].
Proof.
  apply (undecodable_view_is_still_sent (sample_live "not json" "{}")
           (sample_world None JNull "") initial_state "not json" []);
    reflexivity.
Defined.


End LiveFacts.

Module GenerateModelsFacts.
Import GenerateModels.

Lemma list_of_append (a b : string) :
  list_ascii_of_string (a ++ b)
  = (list_ascii_of_string a ++ list_ascii_of_string b)%list.
Proof. induction a as [|c a IH]; cbn; [reflexivity | now rewrite IH]. Qed.

Lemma string_of_app (a b : list ascii) :
  string_of_list_ascii (a ++ b)%list
  = string_of_list_ascii a ++ string_of_list_ascii b.
Proof. induction a as [|c a IH]; cbn; [reflexivity | now rewrite IH]. Qed.

Lemma string_rev_append (a b : string) :
  string_rev (a ++ b) = string_rev b ++ string_rev a.
Proof.
  unfold string_rev. now rewrite list_of_append, rev_app_distr, string_of_app.
Qed.

Lemma string_rev_involutive (s : string) : string_rev (string_rev s) = s.
Proof.
  unfold string_rev.
  now rewrite list_ascii_of_string_of_list_ascii, rev_involutive,
    string_of_list_ascii_of_string.
Qed.

Lemma string_rev_length (s : string) :
  String.length (string_rev s) = String.length s.
Proof.
  unfold string_rev.
  assert (L : forall l, String.length (string_of_list_ascii l) = List.length l)
    by (induction l as [|c l IH]; cbn; congruence).
  assert (L' : forall s, List.length (list_ascii_of_string s) = String.length s)
    by (induction s0 as [|c s0 IH]; cbn; congruence).
  now rewrite L, length_rev, L'.
Qed.

Lemma append_empty_r (s : string) : s ++ "" = s.
Proof. induction s as [|c s IH]; cbn; [reflexivity | now rewrite IH]. Qed.

Lemma string_append_assoc (a b c : string) : (a ++ b) ++ c = a ++ b ++ c.
Proof. induction a as [|x a IH]; cbn; [reflexivity | now rewrite IH]. Qed.

Lemma lstrip_length (s : string) :
  lstrip s = s \/ (String.length (lstrip s) < String.length s)%nat.
Proof.
  induction s as [|c s IH]; cbn; [now left |].
  destruct (isspace c); [right | now left].
  destruct IH as [-> | IH]; lia.
Qed.

Lemma lstrip_append (a b : string) :
  lstrip a = a -> a <> "" -> lstrip (a ++ b) = a ++ b.
Proof.
  destruct a as [|c a]; [congruence |]. cbn. intros H _.
  destruct (isspace c) eqn:E; [| reflexivity].
  exfalso. destruct (lstrip_length a) as [H' | H'].
  - rewrite H' in H. clear -H. induction a as [|x a IH]; [discriminate |].
    inversion H; subst. auto.
  - rewrite H in H'. cbn in H'. lia.
Qed.

(** A text that [strip] leaves as it is has no blank at either end. *)
Lemma stripped_ends (s : string) :
  strip s = s -> lstrip s = s /\ lstrip (string_rev s) = string_rev s.
Proof.
  unfold strip. intro H.
  assert (L : lstrip s = s).
  { destruct (lstrip_length s) as [L | L]; [exact L | exfalso].
    apply (f_equal String.length) in H. rewrite string_rev_length in H.
    destruct (lstrip_length (string_rev (lstrip s))) as [E | E].
    - rewrite E, string_rev_length in H. lia.
    - rewrite string_rev_length in E. lia. }
  split; [exact L |].
  rewrite L in H. apply (f_equal string_rev) in H.
  now rewrite string_rev_involutive in H.
Qed.

Lemma string_rev_empty (s : string) : string_rev s = "" -> s = "".
Proof.
  intro H. apply (f_equal String.length) in H.
  rewrite string_rev_length in H. destruct s; [reflexivity | discriminate].
Qed.

Lemma startswith_append (p s : string) : startswith p (p ++ s) = true.
Proof.
  induction p as [|c p IH]; cbn; [reflexivity |].
  now rewrite Ascii.eqb_refl, IH.
Qed.

Lemma drop_append (p s : string) : drop (String.length p) (p ++ s) = s.
Proof. induction p as [|c p IH]; cbn; [reflexivity | exact IH]. Qed.

Lemma endswith_append (s p : string) : endswith p (s ++ p) = true.
Proof.
  unfold endswith. rewrite string_rev_append. apply startswith_append.
Qed.

Lemma drop_last_append (s p : string) :
  drop_last (String.length p) (s ++ p) = s.
Proof.
  unfold drop_last. rewrite string_rev_append.
  rewrite <- (string_rev_length p), drop_append.
  apply string_rev_involutive.
Qed.

(** [strip] of a stripped, non-empty text between two other texts: the
    blanks next to it go, what is beyond stays. *)
Lemma strip_line (body : string) :
  strip body = body -> body <> "" ->
  strip (nl ++ body ++ nl ++ "```") = body ++ nl ++ "```"
  /\ strip (body ++ nl) = body.
Proof.
  intros H Hne. destruct (stripped_ends body H) as [L R].
  assert (Hr : string_rev body <> "")
    by (intro E; apply Hne; now apply string_rev_empty).
  split.
  - unfold strip. change (lstrip (nl ++ body ++ nl ++ "```"))
      with (lstrip (body ++ nl ++ "```")).
    rewrite (lstrip_append body _ L Hne).
    rewrite string_rev_append. change (string_rev (nl ++ "```")) with ("```" ++ nl).
    cbn [append lstrip]. change (isspace "`") with false. cbv iota.
    change (String "`" (String "`" (String "`" (nl ++ string_rev body))))
      with (("```" ++ nl) ++ string_rev body).
    rewrite <- (string_rev_involutive ("```" ++ nl)) at 1.
    rewrite <- string_rev_append, string_rev_involutive. reflexivity.
  - unfold strip. rewrite (lstrip_append body _ L Hne).
    rewrite string_rev_append. change (string_rev nl) with nl.
    change (lstrip (nl ++ string_rev body)) with (lstrip (string_rev body)).
    rewrite R. apply string_rev_involutive.
Qed.

Lemma startswith_fence (body rest : string) :
  startswith "```" body = false ->
  startswith "```" (body ++ nl ++ rest) = false.
Proof.
  unfold nl. destruct body as [|a [|b [|c body]]]; cbn; try reflexivity.
  - intros _. apply andb_false_r.
  - intros _. now rewrite !andb_false_r.
  - auto.
Qed.

(** X18: a stripped text that does not begin with a fence, put between the
    fence lines of a [likec4] code block or of a plain code block, is
    what [remove_fences] gives back. *)
Theorem fenced_code_is_unwrapped (body : string) :
  strip body = body -> startswith "```" body = false ->
  remove_fences ("```likec4" ++ nl ++ body ++ nl ++ "```") = body
  /\ remove_fences ("```" ++ nl ++ body ++ nl ++ "```") = body.
Proof.
  intros H Hf.
  destruct (string_dec body "") as [-> | Hne]; [split; reflexivity |].
  destruct (strip_line body H Hne) as [S1 S2].
  assert (tail : (if endswith "```" (body ++ nl ++ "```")
                  then strip (drop_last (String.length "```")
                                (body ++ nl ++ "```"))
                  else body ++ nl ++ "```") = body).
  { rewrite <- string_append_assoc, endswith_append, drop_last_append. exact S2. }
  split; unfold remove_fences.
  - rewrite startswith_append, drop_append, S1.
    rewrite (startswith_fence body "```" Hf). exact tail.
  - replace (startswith "```likec4" ("```" ++ nl ++ body ++ nl ++ "```"))
      with false by reflexivity.
    rewrite startswith_append, drop_append, S1. exact tail.
Qed.

Lemma fenced_code_is_unwrapped_witness :
  remove_fences ("```likec4" ++ nl ++ "model { }" ++ nl ++ "```") = "model { }"
  /\ remove_fences ("```" ++ nl ++ "model { }" ++ nl ++ "```") = "model { }".
Proof. apply (fenced_code_is_unwrapped "model { }"); reflexivity. Defined.

Lemma api_error_or_unexpected (e : exn) :
  isinstance_APIError e = false ->
  isinstance_APIConnectionError e = false
  /\ isinstance_RateLimitError e = false.
Proof.
  unfold isinstance_APIError, isinstance_APIConnectionError,
    isinstance_RateLimitError. cbn [existsb]. intro H.
  repeat match goal with
         | H : (_ || _)%bool = false |- _ =>
             apply orb_false_elim in H; destruct H
         end.
  repeat match goal with
         | H : (_ =? _)%string = false |- _ => rewrite H; clear H
         end.
  split; reflexivity.
Qed.

(** X19: the handlers for a failed connection and for an exceeded rate
    limit are never reached: whatever is raised, the text is the one of
    the first handler or the one of the last. *)
Theorem two_handlers_are_never_reached (e : exn) :
  error_text e = "Error: OpenAI API returned an API Error: " ++ exn_msg e
  \/ error_text e = UNEXPECTED ++ exn_msg e.
Proof.
  unfold error_text. destruct (isinstance_APIError e) eqn:E; [now left |].
  destruct (api_error_or_unexpected e E) as [-> ->]. now right.
Qed.

Lemma startswith_unexpected (msg : string) :
  startswith "Error" (UNEXPECTED ++ msg) = false
  /\ ((UNEXPECTED ++ msg) =? "")%string = false.
Proof. split; reflexivity. Qed.

(** How [save_to_file] ends. *)
Lemma save_to_file_effect (svc : Service) (content filename : string)
  (w : World) (st : State) :
  let final := if endswith ".c4" filename then filename
               else filename ++ ".c4" in
  exists line,
    save_to_file svc content filename w st = (put_line line st, Ok tt)
    \/ (save_to_file svc content filename w st
        = (put_line (SAVED ++ final)
             (put_files (fs_write final content (files st)) st), Ok tt)
        /\ open_refused w final = None
        /\ (dirname filename = ""
            \/ makedirs_refused svc (dirname filename) = None)).
Proof.
  intro final. unfold save_to_file. fold final.
  destruct (dirname filename =? "")%string eqn:Ed.
  - apply String.eqb_eq in Ed.
    unfold try_except_if, write_file, mbind, ask, get_state, set_files,
      raise, print.
    destruct (open_refused w final) eqn:Eo; cbn.
    + eexists. left. reflexivity.
    + exists "". right. auto.
  - destruct (makedirs_refused svc (dirname filename)) eqn:Em.
    + eexists. left. reflexivity.
    + unfold try_except_if, write_file, mbind, ask, get_state, set_files,
        raise, print.
      destruct (open_refused w final) eqn:Eo; cbn.
      * eexists. left. reflexivity.
      * exists "". right. auto.
Qed.

(** How [generate_likec4_model] ends. *)
Lemma generate_model_effect (svc : Service) (prompts : list string)
  (api_key : option string) (w : World) (st : State) :
  exists text,
    (generate_likec4_model svc prompts api_key w st = (st, Ok text)
     /\ startswith "Error" text = true
     /\ (api_key = None \/ api_key = Some ""))
    \/ (generate_likec4_model svc prompts api_key w st
        = (put_request (JStr (String.concat nl prompts)) st, Ok text)
        /\ (exists k, api_key = Some k /\ k <> "")
        /\ ((exists e, create svc (String.concat nl prompts) = Raise e
                       /\ text = error_text e)
            \/ (create svc (String.concat nl prompts) = Ok []
                /\ text = error_text IndexError)
            \/ (exists rest,
                   create svc (String.concat nl prompts) = Ok (None :: rest)
                   /\ text = error_text NoneStrip)
            \/ (exists content rest,
                   create svc (String.concat nl prompts)
                   = Ok (Some content :: rest)
                   /\ text = validated (remove_fences (strip content))))).
Proof.
  destruct api_key as [[|c k] |].
  - eexists. left. split; [reflexivity | split; [reflexivity | auto]].
  - unfold generate_likec4_model, try_except, first_content, mbind,
      record_request, lift, raise, ret. fold (put_request (JStr (String.concat nl prompts)) st).
    destruct (create svc (String.concat nl prompts)) as [[|[content|] rest] | e]
      eqn:Ec; eexists; right;
      (split; [reflexivity | split; [eexists; split; [reflexivity | discriminate] |]]).
    + right. left. auto.
    + right. right. right. eauto.
    + right. right. left. eauto.
    + left. eauto.
  - eexists. left. split; [reflexivity | split; [reflexivity | auto]].
Qed.

Lemma validated_cases (c4_code : string) :
  (validated c4_code = c4_code /\ looks_like_likec4 c4_code = true)
  \/ startswith "Error" (validated c4_code) = true.
Proof.
  unfold validated. destruct (looks_like_likec4 c4_code); [now left | now right].
Qed.

(** The texts [generate_likec4_model] can return, by what [main] tests. *)
Lemma text_cases (e : exn) :
  startswith "Error" (error_text e) = true
  \/ error_text e = UNEXPECTED ++ exn_msg e.
Proof.
  unfold error_text. destruct (isinstance_APIError e) eqn:E; [now left |].
  destruct (api_error_or_unexpected e E) as [-> ->]. now right.
Qed.

(** X20: [generate_likec4_model] always returns a text: every exception
    of the call and of the clean-up is caught.  It writes no file, and
    the text starts with 'Error', or passed the test for the three
    blocks, or is the text of the last handler, which does not start
    with 'Error' - so what [main] hands to [save_to_file], a text that
    does not start with 'Error', is a model that passed the test or that
    error message. *)
Theorem generated_text_kinds (svc : Service) (prompts : list string)
  (api_key : option string) (w : World) (st : State) :
  exists text,
    snd (generate_likec4_model svc prompts api_key w st) = Ok text
    /\ files (fst (generate_likec4_model svc prompts api_key w st))
       = files st
    /\ (startswith "Error" text = true
        \/ looks_like_likec4 text = true
        \/ exists msg,
             text = UNEXPECTED ++ msg /\ startswith "Error" text = false).
Proof.
  assert (He : forall e,
             startswith "Error" (error_text e) = true
             \/ looks_like_likec4 (error_text e) = true
             \/ exists msg,
                  error_text e = UNEXPECTED ++ msg
                  /\ startswith "Error" (error_text e) = false).
  { intro e. destruct (text_cases e) as [H | H]; [now left |].
    right. right. exists (exn_msg e). rewrite H. split; reflexivity. }
  destruct (generate_model_effect svc prompts api_key w st)
    as [text [[-> [Ht _]] | [-> [_ Hc]]]];
    exists text; (split; [reflexivity | split; [reflexivity |]]);
    [now left |].
  destruct Hc as [[e [_ ->]] | [[_ ->] | [[rest [_ ->]] | [content [rest [_ ->]]]]]];
    try apply He.
  destruct (validated_cases (remove_fences (strip content))) as [[-> H] | H];
    auto.
Qed.

(** X21: with an API key, when the call of the service raises anything but
    an API error of the library and the file can be written, [main]
    saves the text of the error message as the model and reports the
    model as saved. *)
Theorem failed_call_is_saved_as_model (svc : Service) (k : string)
  (prompts : list string) (output : string) (w : World) (st : State)
  (e : exn) :
  k <> "" ->
  create svc (String.concat nl prompts) = Raise e ->
  isinstance_APIError e = false ->
  makedirs_refused svc (dirname (join_src output)) = None ->
  open_refused w (model_path output) = None ->
  files (fst (main svc (Some k) prompts output w st))
  = fs_write (model_path output) (UNEXPECTED ++ exn_msg e) (files st)
  /\ stdout (fst (main svc (Some k) prompts output w st))
     = (stdout st ++ ["Generating LikeC4 model from your prompts...";
                      (SAVED ++ model_path output)%string])%list.
Proof.
  intros Hk Hc He Hm Ho.
  destruct k as [|c k]; [congruence |].
  assert (Ht : error_text e = UNEXPECTED ++ exn_msg e).
  { unfold error_text. rewrite He.
    destruct (api_error_or_unexpected e He) as [-> ->]. reflexivity. }
  unfold main, mbind, print, generate_likec4_model, try_except, first_content,
    mbind, record_request, lift, raise, ret.
  rewrite Hc. cbv beta iota. rewrite Ht.
  destruct (startswith_unexpected (exn_msg e)) as [-> ->]. cbn [negb andb].
  unfold save_to_file. rewrite Hm.
  fold (model_path output).
  replace (if (dirname (join_src output) =? "")%string then None else None)
    with (@None string) by (now destruct (dirname (join_src output) =? "")%string).
  unfold try_except_if, write_file, mbind, ask, get_state, set_files, raise,
    print. rewrite Ho. cbn. rewrite <- app_assoc. split; reflexivity.
Qed.

Lemma failed_call_is_saved_as_model_witness :
  files (fst (main service_down (Some "key") ["a shop"] "shop"
                (sample_world (Some "key") JNull "") initial_state))
  = [("package.json", "{}");
     ("src/shop.c4", "An unexpected error occurred: timed out")].
Proof.
  refine (proj1 (failed_call_is_saved_as_model service_down "key" ["a shop"]
                   "shop" (sample_world (Some "key") JNull "") initial_state
                   (mk_exn "TimeoutError" "timed out") _ _ _ _ _));
    [discriminate | reflexivity ..].
Defined.

(** X22: [main] asks the service at most once, for the prompts joined by
    line breaks, and without an API key it asks nothing and writes
    nothing. *)
Theorem model_service_asked_at_most_once (svc : Service)
  (api_key : option string) (prompts : list string) (output : string)
  (w : World) (st : State) :
  (requests (fst (main svc api_key prompts output w st)) = requests st
   \/ requests (fst (main svc api_key prompts output w st))
      = (requests st ++ [JStr (String.concat nl prompts)])%list)
  /\ (api_key = None \/ api_key = Some "" ->
      requests (fst (main svc api_key prompts output w st)) = requests st
      /\ files (fst (main svc api_key prompts output w st)) = files st).
Proof.
  unfold main, mbind, print.
  destruct (generate_model_effect svc prompts api_key w (put_line "Generating LikeC4 model from your prompts..." st))
    as [text [[-> [Ht _]] | [-> [[k [-> Hk]] _]]]].
  - rewrite Ht, andb_false_r. cbn. auto.
  - assert (F : forall P : Prop,
               Some k = None \/ Some k = Some "" -> P)
      by (intros P [H | H]; [discriminate | congruence]).
    destruct (negb (text =? "")%string && negb (startswith "Error" text))%bool;
      [| cbn; split; [now right | apply F]].
    destruct (save_to_file_effect svc text (join_src output) w
                (put_request (JStr (String.concat nl prompts))
                   (put_line "Generating LikeC4 model from your prompts..." st)))
      as [line [-> | [-> _]]]; cbn; (split; [now right | apply F]).
Qed.

End GenerateModelsFacts.

Module EditFacts.
Import GenerateModels EditC4Model.

(** How [save_to_file] ends. *)
Lemma edit_save_effect (ed : Editor) (content filename : string)
  (w : World) (st : State) :
  let final := if endswith ".c4" filename then filename
               else filename ++ ".c4" in
  exists line,
    save_to_file ed content filename w st = (put_line line st, Ok tt)
    \/ (save_to_file ed content filename w st
        = (put_line line (put_files (fs_write final content (files st)) st),
           Ok tt)
        /\ open_refused w final = None).
Proof.
  intro final. unfold save_to_file. fold final.
  assert (W : exists line,
    try_except_if isinstance_OSError
      (write_file final content ;;;
       print (check_mark ed ++ " Successfully saved model to " ++ final))
      (fun e => print ("Error: Could not write to file " ++ final
                       ++ ". Reason: " ++ exn_msg e)) w st
    = (put_line line st, Ok tt)
    \/ (try_except_if isinstance_OSError
          (write_file final content ;;;
           print (check_mark ed ++ " Successfully saved model to " ++ final))
          (fun e => print ("Error: Could not write to file " ++ final
                           ++ ". Reason: " ++ exn_msg e)) w st
        = (put_line line (put_files (fs_write final content (files st)) st),
           Ok tt)
        /\ open_refused w final = None)).
  { unfold try_except_if, write_file, mbind, ask, get_state, set_files,
      raise, print.
    destruct (open_refused w final) eqn:Eo; cbn; eexists;
      [left; reflexivity | right; split; reflexivity]. }
  destruct (dirname filename =? "")%string; [exact W |].
  destruct (makedirs_refused ed (dirname filename)); [| exact W].
  eexists. left. reflexivity.
Qed.

Lemma process_text_cases (choices : list (option string)) :
  startswith "Error" (_process_llm_response choices) = true
  \/ looks_like_likec4 (_process_llm_response choices) = true
  \/ exists msg, _process_llm_response choices = PROCESSING ++ msg.
Proof.
  destruct choices as [|[content|] rest]; cbn.
  - right. right. eexists. reflexivity.
  - destruct (GenerateModelsFacts.validated_cases
                (remove_fences (strip content))) as [[-> H] | H]; auto.
  - right. right. eexists. reflexivity.
Qed.

(** How [edit_likec4_model] ends. *)
Lemma edit_effect (ed : Editor) (path prompt : string)
  (api_key : option string) (w : World) (st : State) :
  exists text,
    (edit_likec4_model ed path prompt api_key w st = (st, Ok text)
     /\ startswith "Error" text = true)
    \/ (exists old,
          edit_likec4_model ed path prompt api_key w st
          = (put_request (JArr [JStr old; JStr prompt]) st, Ok text)
          /\ fs_read path (files st) = Some old
          /\ (exists k, api_key = Some k /\ k <> "")
          /\ (startswith "Error" text = true
              \/ looks_like_likec4 text = true
              \/ (exists msg, text = PROCESSING ++ msg)
              \/ exists msg, text = EDITING ++ msg)).
Proof.
  destruct api_key as [[|c k] |]; try (eexists; left; split; reflexivity).
  unfold edit_likec4_model, read_file, mbind, get_state, raise, ret.
  destruct (fs_read path (files st)) as [old |] eqn:Er.
  - destruct (read_refused ed path) as [e |].
    + destruct (isinstance_FileNotFoundError e); eexists; left;
        split; reflexivity.
    + unfold try_except, mbind, record_request, lift, ret.
      fold (put_request (JArr [JStr old; JStr prompt]) st).
      destruct (create ed old prompt) as [choices | e] eqn:Ec;
        eexists; right; exists old;
        (split; [reflexivity | split; [reflexivity |
           split; [eexists; split; [reflexivity | discriminate] |]]]).
      * destruct (process_text_cases choices) as [H | [H | H]]; auto.
      * right. right. right. eexists. reflexivity.
  - eexists. left. split; reflexivity.
Qed.

(** X23: [edit_likec4_model] always returns a text: every exception of
    reading the file, of the call and of the clean-up is caught.  It
    writes no file, and the text starts with 'Error', or passed the test
    for the three blocks, or is the text of one of the two handlers for
    unexpected errors, which does not start with 'Error' - so what
    [main] hands to [save_to_file] is a model that passed the test or
    one of these two error messages. *)
Theorem edited_text_kinds (ed : Editor) (path prompt : string)
  (api_key : option string) (w : World) (st : State) :
  exists text,
    snd (edit_likec4_model ed path prompt api_key w st) = Ok text
    /\ files (fst (edit_likec4_model ed path prompt api_key w st))
       = files st
    /\ (startswith "Error" text = true
        \/ looks_like_likec4 text = true
        \/ exists msg,
             (text = PROCESSING ++ msg \/ text = EDITING ++ msg)
             /\ startswith "Error" text = false).
Proof.
  destruct (edit_effect ed path prompt api_key w st)
    as [text [[-> Ht] | [old [-> [_ [_ Hc]]]]]];
    exists text; (split; [reflexivity | split; [reflexivity |]]);
    [now left |].
  destruct Hc as [H | [H | [[msg ->] | [msg ->]]]]; auto;
    right; right; exists msg; split; auto.
Qed.

(** X24: with an API key and no output option, when the call of the
    service raises and the file can be written, [main] replaces a model
    whose name ends in [.c4] by the text of the error message. *)
Theorem failed_edit_overwrites_model (ed : Editor) (k : string)
  (input_file prompt old : string) (w : World) (st : State) (e : exn) :
  k <> "" ->
  fs_read (under_src input_file) (files st) = Some old ->
  read_refused ed (under_src input_file) = None ->
  create ed old prompt = Raise e ->
  endswith ".c4" (under_src input_file) = true ->
  makedirs_refused ed (dirname (under_src input_file)) = None ->
  open_refused w (under_src input_file) = None ->
  fs_read (under_src input_file)
    (files (fst (main ed (Some k) input_file prompt None w st)))
  = Some (EDITING ++ exn_msg e).
Proof.
  intros Hk Hr Hrr Hc He Hm Ho.
  destruct k as [|c k]; [congruence |].
  unfold main, mbind, print, get_state. cbn [files put_line]. rewrite Hr.
  unfold edit_likec4_model, read_file, mbind, get_state, raise, ret.
  cbn [files put_line]. rewrite Hr, Hrr.
  unfold try_except, mbind, record_request, lift, ret. rewrite Hc.
  cbv beta iota.
  change ("An unexpected error occurred during editing: " ++ exn_msg e)
    with (EDITING ++ exn_msg e).
  replace (negb ((EDITING ++ exn_msg e) =? "")%string
           && negb (startswith "Error" (EDITING ++ exn_msg e)))%bool
    with true by reflexivity.
  cbv beta iota. unfold save_to_file. rewrite He, Hm. cbv beta iota zeta.
  replace (if (dirname (under_src input_file) =? "")%string
           then None else None)
    with (@None string)
    by (now destruct (dirname (under_src input_file) =? "")%string).
  unfold try_except_if, write_file, mbind, ask, get_state, set_files, raise,
    print. rewrite Ho. cbn.
  apply SaveFacts.fs_read_write_same.
Qed.

Lemma failed_edit_overwrites_model_witness :
  fs_read "src/shop.c4"
    (files (fst (main editor_down (Some "key") "shop.c4" "add a cache" None
                   (sample_world (Some "key") JNull "") state_with_model)))
  = Some "An unexpected error occurred during editing: timed out".
Proof.
  apply (failed_edit_overwrites_model editor_down "key" "shop.c4"
           "add a cache" "model { }" (sample_world (Some "key") JNull "")
           state_with_model (mk_exn "TimeoutError" "timed out"));
    [discriminate | reflexivity ..].
Defined.

(** X25: [main] asks the service at most once, and not at all when the
    input file is missing or there is no API key; in both cases it
    writes nothing. *)
Theorem edit_needs_file_and_key (ed : Editor)
  (api_key : option string) (input_file prompt : string)
  (output : option string) (w : World) (st : State) :
  (requests (fst (main ed api_key input_file prompt output w st))
   = requests st
   \/ exists old,
        fs_read (under_src input_file) (files st) = Some old
        /\ requests (fst (main ed api_key input_file prompt output w st))
           = (requests st ++ [JArr [JStr old; JStr prompt]])%list)
  /\ (fs_read (under_src input_file) (files st) = None
      \/ api_key = None \/ api_key = Some "" ->
      requests (fst (main ed api_key input_file prompt output w st))
      = requests st
      /\ files (fst (main ed api_key input_file prompt output w st))
         = files st).
Proof.
  unfold main, mbind, print, get_state. cbn [files put_line].
  destruct (fs_read (under_src input_file) (files st)) as [old |] eqn:Er;
    [| cbn; auto].
  set (st1 := put_line _ st).
  destruct api_key as [[|c k] |]; try (cbn; now auto).
  assert (F : forall P : Prop,
             Some old = None \/ Some (String c k) = None
             \/ Some (String c k) = Some "" -> P)
    by (intros P [H | [H | H]]; discriminate).
  destruct (edit_effect ed (under_src input_file) prompt (Some (String c k))
              w st1)
    as [text [[-> Ht] | [old' [-> [Hr [_ Hc]]]]]].
  - rewrite Ht, andb_false_r. cbn. split; [now left | apply F].
  - assert (old' = old) by (cbn in Hr; congruence). subst old'.
    destruct (negb (text =? "")%string && negb (startswith "Error" text))%bool;
      [| cbn; split; [right; eauto | apply F]].
    match goal with
    | |- context [save_to_file ed text ?p w ?s] =>
        destruct (edit_save_effect ed text p w s) as [line [-> | [-> _]]]
    end; cbn; (split; [right; eauto | apply F]).
Qed.

End EditFacts.
